(** * Karyx IoT firmware: a shallow embedding of [sensor.c] and [switch.c]

    The two firmware programs are embedded as functions of an
    error-and-state monad over an explicit process state.  Everything the
    programs obtain from outside (the clock, libcurl, signals, [rand],
    [sysinfo], files and standard input) is read from an environment of
    oracles; everything they do to the outside (console output, HTTP
    requests, sleeping, threads) is appended to a trace of events. *)

From Stdlib Require Import ZArith String Ascii List Lia.
From stdpp Require Import base tactics option list.
Import ListNotations.
Local Open Scope Z_scope.

(** ** C integers *)

Module CInt.

Definition INT_MAX : Z := 2147483647.
Definition INT_MIN : Z := -2147483648.
Definition LONG_MAX : Z := 9223372036854775807.
Definition LONG_MIN : Z := -9223372036854775808.
(** [unsigned long] is 64 bits wide on the LP64 Linux targets the firmware
    is built for ([sys/sysinfo.h]). *)
Definition ULONG_MODULUS : Z := 18446744073709551616.

(** Conversion of a [long] to [int] (what the cast in glibc's [atoi] does). *)
Definition to_int (z : Z) : Z := (z + 2147483648) mod 4294967296 - 2147483648.

(** Arithmetic on [unsigned long] wraps. *)
Definition ulong (z : Z) : Z := z mod ULONG_MODULUS.

(** Reading an [unsigned long] bit pattern as a [long] (a [%ld] conversion). *)
Definition ulong_as_long (z : Z) : Z :=
  if decide (z <= LONG_MAX) then z else z - ULONG_MODULUS.

Definition in_int (z : Z) : Prop := INT_MIN <= z <= INT_MAX.
Definition in_long (z : Z) : Prop := LONG_MIN <= z <= LONG_MAX.
Definition in_ulong (z : Z) : Prop := 0 <= z < ULONG_MODULUS.

(** C truth values: [!x] and the test of an [int] in a condition. *)
Definition lnot (x : Z) : Z := if decide (x = 0) then 1 else 0.
Definition truthy (x : Z) : bool := negb (x =? 0).

End CInt.

(** ** The parts of the C library the firmware calls on strings *)

Module CLib.
Import CInt.
Local Open Scope string_scope.

Definition is_newline (c : ascii) : bool := Ascii.eqb c "010"%char.
Definition is_nul (c : ascii) : bool := Ascii.eqb c "000"%char.

(** [isspace] in the C locale. *)
Definition isspace (c : ascii) : bool :=
  let n := N_of_ascii c in ((9 <=? n) && (n <=? 13) || (n =? 32))%N.

Definition isdigit (c : ascii) : bool :=
  let n := N_of_ascii c in ((48 <=? n) && (n <=? 57))%N.

Definition digit_value (c : ascii) : Z := Z.of_N (N_of_ascii c) - 48.

(** What a [char] buffer holds when read as a C string: the bytes before the
    first NUL. *)
Fixpoint cstr (s : string) : string :=
  match s with
  | EmptyString => EmptyString
  | String c r => if is_nul c then EmptyString else String c (cstr r)
  end.

(** The successive buffers that [fgets (buf, size, stream)] returns on a
    stream holding [s], until it returns [NULL]: each call stores at most
    [size - 1] characters and stops after a newline.  [cap] is [size - 1],
    [room] what is left of it in the current buffer and [acc] the characters
    already stored there, last first. *)
Fixpoint fgets_from (cap room : nat) (acc : list ascii) (s : string) : list string :=
  match s with
  | EmptyString =>
      match acc with
      | [] => []
      | _ => [string_of_list_ascii (rev acc)]
      end
  | String c r =>
      if is_newline c || (room <=? 1)%nat
      then string_of_list_ascii (rev (c :: acc)) :: fgets_from cap cap [] r
      else fgets_from cap (room - 1) (c :: acc) r
  end.

Definition fgets_all (size : nat) (s : string) : list string :=
  fgets_from (size - 1) (size - 1) [] s.

(** A scanset conversion [%n[...]]: the longest prefix of at most [limit]
    characters in the set, and what follows it. *)
Fixpoint scanset (limit : nat) (ok : ascii -> bool) (s : string) : string * string :=
  match limit, s with
  | S n, String c r =>
      if ok c then let (m, rest) := scanset n ok r in (String c m, rest)
      else (EmptyString, s)
  | _, _ => (EmptyString, s)
  end.

(** [sscanf (line, "%63[^=]=%191[^\n]", key, value) == 2]: both conversions
    must match at least one character and the [=] between them must be
    there. *)
Definition sscanf_key_value (line : string) : option (string * string) :=
  let (key, r1) := scanset 63 (fun c => negb (Ascii.eqb c "="%char)) line in
  match key, r1 with
  | String _ _, String "="%char r2 =>
      let (value, _) := scanset 191 (fun c => negb (is_newline c)) r2 in
      match value with
      | String _ _ => Some (key, value)
      | EmptyString => None
      end
  | _, _ => None
  end.

(** The loop that advances a pointer over leading blanks (only the space
    character, not tabs). *)
Fixpoint skip_blanks (s : string) : string :=
  match s with
  | String " "%char r => skip_blanks r
  | _ => s
  end.

Fixpoint skip_space (s : string) : string :=
  match s with
  | String c r => if isspace c then skip_space r else s
  | EmptyString => s
  end.

(** [strncpy (dst, src, n)] into a zero-initialised buffer of [n + 1] bytes:
    the destination then reads as the first [n] characters of [src]. *)
Fixpoint strncpy (n : nat) (src : string) : string :=
  match n, src with
  | S m, String c r => String c (strncpy m r)
  | _, _ => EmptyString
  end.

(** The decimal digits at the head of [s], accumulated onto [acc]. *)
Fixpoint digits (acc : Z) (s : string) : Z :=
  match s with
  | String c r => if isdigit c then digits (acc * 10 + digit_value c) r else acc
  | EmptyString => acc
  end.

Definition saturate_long (z : Z) : Z := Z.max LONG_MIN (Z.min LONG_MAX z).

(** [strtol (s, NULL, 10)]: white space, an optional sign, digits; the value
    saturates at [LONG_MIN] and [LONG_MAX]. *)
Definition strtol (s : string) : Z :=
  match skip_space s with
  | String "-"%char r => saturate_long (- digits 0 r)
  | String "+"%char r => saturate_long (digits 0 r)
  | r => saturate_long (digits 0 r)
  end.

(** [atoi] as glibc defines it, [(int) strtol (s, NULL, 10)].  ISO C leaves
    the result open when the value does not fit an [int]. *)
Definition atoi (s : string) : Z := to_int (strtol s).

(** [strlen (s) == 0] *)
Definition is_empty (s : string) : bool :=
  match s with EmptyString => true | _ => false end.

(** [input[strcspn (input, "\n")] = 0] *)
Fixpoint chomp (s : string) : string :=
  match s with
  | EmptyString => EmptyString
  | String c r => if is_newline c then EmptyString else String c (chomp r)
  end.

(** The [%s] conversion: skip white space, then take the characters up to
    the next white space. *)
Fixpoint word (s : string) : string * string :=
  match s with
  | String c r =>
      if isspace c then (EmptyString, s)
      else let (w, rest) := word r in (String c w, rest)
  | EmptyString => (EmptyString, s)
  end.

(** The [%d] conversion: skip white space, an optional sign, at least one
    digit; glibc converts as [strtol] does and stores the [long] as [int]. *)
Definition scan_int (s : string) : option Z :=
  let has_digit r :=
    match r with String c _ => isdigit c | EmptyString => false end in
  match skip_space s with
  | String "-"%char r =>
      if has_digit r then Some (to_int (saturate_long (- digits 0 r))) else None
  | String "+"%char r =>
      if has_digit r then Some (to_int (saturate_long (digits 0 r))) else None
  | r => if has_digit r then Some (to_int (saturate_long (digits 0 r))) else None
  end.

End CLib.

(** ** The outside of the process: requests, output, environment *)

Module Outside.
Import CInt.

(** [CURLcode]; [CURLE_OK] is 0 and every other value is a failure. *)
Definition CURLE_OK : Z := 0.

Inductive Method := POST | PUT.

(** A simulated sensor reading, [base + ((float) rand () / RAND_MAX) * span],
    kept as the expression it is: the floating-point value is not
    computed. *)
Record Reading := mkReading { rd_base : Z; rd_span : Z; rd_rand : Z }.

(** [struct sysinfo], the three fields the sensor reads. *)
Record Sysinfo := mkSysinfo { si_uptime : Z; si_freeram : Z; si_totalram : Z }.

(** A request body, as the values that [snprintf] puts into its JSON
    format string (one constructor for each format string). *)
Inductive Body :=
| RegisterSensor (name firmware_version : string)
| RegisterSwitch (name firmware_version : string) (channels : Z)
| SensorMetrics (temperature humidity : Reading) (uptime memory_usage_percent : Z)
| SwitchStatus (channels : list Z) (total_toggles : Z).

Record Request := mkRequest { rq_method : Method; rq_url : string; rq_body : Body }.

(** The message of a [log_message] call: a literal, or the values put into
    the [snprintf] format that builds it. *)
Inductive Msg :=
| Literal (text : string)
| MsgCommand (command : string) (channel : Z)
| MsgChannel (channel : Z) (on : bool)
| MsgReported (temperature humidity : Reading).

(** What a [printf] or [fprintf] call writes, one constructor for each
    call site (the banners are three [printf]s each). *)
Inductive Text :=
| Banner (title : string)
| VersionLine (product : string)
| Usage (program : string)
| CannotOpen (filename : string)
| DeviceLine (name : string)
| PanelLine (url : string)
| IntervalLine (seconds : Z)
| ChannelsLine (n : Z)
| HelpHint
| CycleLine (cycle : Z) (temperature humidity : Reading)
| Prompt
| CommandsLine
| StatusHeader
| StatusRow (channel state : Z) (toggles : Z)
| StatusFooter.

Inductive Event :=
| EvStdout (t : Text)
| EvStderr (t : Text)
| EvLog (timestamp : Z) (level : string) (message : Msg)
| EvSignalInstall
| EvSrand (seed : Z)
| EvCurlGlobalInit
| EvCurlGlobalCleanup
| EvCurlEasyInit (ok : bool)
| EvCurlPerform (req : Request) (res : Z)
| EvSleep (seconds : Z)
| EvThreadCreate
| EvThreadJoin.

(** The environment: what each call that reads the outside world returns,
    by the number of earlier calls of the same kind. *)
Record Env := mkEnv {
  env_time : nat -> Z;
  env_curl_easy_init : nat -> bool;
  env_curl_easy_perform : nat -> Z;
  (** whether a SIGINT or SIGTERM arrived since the previous read of
      [running] *)
  env_signal : nat -> bool;
  env_rand : nat -> Z;
  env_sysinfo : nat -> Sysinfo;
  env_fopen : string -> option string;
  (** the body of the reply to each transfer, in the chunks in which
      libcurl hands it to the write callback *)
  env_curl_reply : nat -> list string
}.

(** Why a run stops before the code under consideration returns. *)
Inductive Halt :=
| Exited (status : Z)        (** [exit], or [return] from [main] *)
| Undefined (what : string)  (** behaviour that C leaves undefined *)
| Blocked                    (** waiting for something that does not come *)
| Pending.                   (** the loop goes on, the model's fuel is spent *)

End Outside.

(** ** [write_callback] *)

Module Callback.
Import CInt CLib Outside.
Local Open Scope string_scope.
Local Open Scope list_scope.
Local Open Scope Z_scope.

Definition MAX_BUFFER : Z := 2048.

(** [write_callback], the same function in both programs, on [userp]
    pointing to [response[MAX_BUFFER]] that reads as [buffer]; [contents]
    is the memory that libcurl hands over.  [strncat] appends the bytes of
    [contents] before its first NUL, [realsize] of them at most, and a
    closing NUL; the result is the return value and what the buffer then
    reads as. *)
Definition write_callback (contents : string) (size nmemb : Z) (buffer : string)
  : Halt + Z * string :=
  let realsize := ulong (size * nmemb) in
  let copied := strncpy (Z.to_nat realsize) (cstr contents) in
  if decide (String.length copied = String.length contents /\
             Z.of_nat (String.length contents) < realsize) then
    inl (Undefined "strncat reads past contents")
  else if decide (Z.of_nat (String.length buffer + String.length copied) < MAX_BUFFER) then
    inr (realsize, String.append buffer copied)
  else inl (Undefined "strncat overflows response").

(** A transfer as libcurl runs it: the body arrives in [chunks], each passed
    to the callback with [size] 1; a return value other than the number of
    bytes passed aborts the transfer ([CURLE_WRITE_ERROR], 23). *)
Fixpoint receive (chunks : list string) (buffer : string) : Halt + Z * string :=
  match chunks with
  | [] => inr (CURLE_OK, buffer)
  | chunk :: rest =>
      match write_callback chunk 1 (Z.of_nat (String.length chunk)) buffer with
      | inl h => inl h
      | inr (taken, buffer') =>
          if decide (taken = Z.of_nat (String.length chunk)) then receive rest buffer'
          else inr (23, buffer')
      end
  end.

(** A chunk of a reply: no NUL byte in it, and a length that fits
    [size_t]. *)
Definition nul_free (s : string) : Prop :=
  cstr s = s /\ Z.of_nat (String.length s) < ULONG_MODULUS.

End Callback.

(** ** The process: state and the monad of C code *)

Module Proc.
Export Outside.
Import CInt Callback.

(** How the [n]-th transfer ends: libcurl passes the reply to
    [write_callback] chunk by chunk, on a [response] buffer that starts
    empty; a callback that does not take a chunk whole ends the transfer
    with [CURLE_WRITE_ERROR], and otherwise the environment decides. *)
Definition transfer (e : Env) (n : nat) : Halt + Z :=
  match receive (env_curl_reply e n) EmptyString with
  | inl h => inl h
  | inr (code, _) => inr (if decide (code = CURLE_OK) then env_curl_easy_perform e n else code)
  end.

Section Monad.
Context {G : Type}.

(** The process state: the program's globals ([G]), the [running] flag both
    programs share, the trace, and the call counters that index the
    environment. *)
Record World := mkWorld {
  globals : G;
  running : bool;
  trace : list Event;
  n_time : nat;
  n_init : nat;
  n_perform : nat;
  n_signal : nat;
  n_rand : nat;
  n_sysinfo : nat
}.

Inductive Outcome (A : Type) :=
| Ret (a : A) (w : World)
| Halted (h : Halt) (w : World).
#[global] Arguments Ret {A} a w.
#[global] Arguments Halted {A} h w.

Definition M (A : Type) : Type := Env -> World -> Outcome A.

Definition ret {A} (a : A) : M A := fun _ w => Ret a w.

Definition bind {A B} (m : M A) (k : A -> M B) : M B :=
  fun e w =>
    match m e w with
    | Ret a w' => k a e w'
    | Halted h w' => Halted h w'
    end.

Definition halt {A} (h : Halt) : M A := fun _ w => Halted h w.

Definition with_globals (g : G) (w : World) : World :=
  mkWorld g (running w) (trace w) (n_time w) (n_init w) (n_perform w)
          (n_signal w) (n_rand w) (n_sysinfo w).

Definition with_running (b : bool) (w : World) : World :=
  mkWorld (globals w) b (trace w) (n_time w) (n_init w) (n_perform w)
          (n_signal w) (n_rand w) (n_sysinfo w).

Definition get : M G := fun _ w => Ret (globals w) w.
Definition put (g : G) : M unit := fun _ w => Ret tt (with_globals g w).
Definition modify (f : G -> G) : M unit := fun _ w => Ret tt (with_globals (f (globals w)) w).

Definition set_running (b : bool) : M unit := fun _ w => Ret tt (with_running b w).

Definition emit (ev : Event) : M unit :=
  fun _ w =>
    Ret tt (mkWorld (globals w) (running w) (trace w ++ [ev]) (n_time w) (n_init w)
                    (n_perform w) (n_signal w) (n_rand w) (n_sysinfo w)).

(** [time (NULL)] *)
Definition time : M Z :=
  fun e w =>
    Ret (env_time e (n_time w))
        (mkWorld (globals w) (running w) (trace w) (S (n_time w)) (n_init w)
                 (n_perform w) (n_signal w) (n_rand w) (n_sysinfo w)).

(** [rand ()] *)
Definition rand : M Z :=
  fun e w =>
    Ret (env_rand e (n_rand w))
        (mkWorld (globals w) (running w) (trace w) (n_time w) (n_init w)
                 (n_perform w) (n_signal w) (S (n_rand w)) (n_sysinfo w)).

(** [sysinfo (&si)] *)
Definition sysinfo : M Sysinfo :=
  fun e w =>
    Ret (env_sysinfo e (n_sysinfo w))
        (mkWorld (globals w) (running w) (trace w) (n_time w) (n_init w)
                 (n_perform w) (n_signal w) (n_rand w) (S (n_sysinfo w))).

(** [curl_easy_init ()]; the result is whether the handle is not [NULL]. *)
Definition curl_easy_init : M bool :=
  fun e w =>
    let ok := env_curl_easy_init e (n_init w) in
    Ret ok
        (mkWorld (globals w) (running w) (trace w ++ [EvCurlEasyInit ok]) (n_time w)
                 (S (n_init w)) (n_perform w) (n_signal w) (n_rand w) (n_sysinfo w)).

(** [curl_easy_perform] on a handle set up for [req] (with the 10 second
    timeout both programs set).  Each of the four callers sets
    [write_callback] as [CURLOPT_WRITEFUNCTION] and its own
    [char response[MAX_BUFFER] = {0}] as [CURLOPT_WRITEDATA], so the
    transfer runs the callback on the reply; no caller reads [response]
    afterwards, and the model drops it.  The event records the request and
    how the transfer ends on the wire; the call returns that code unless
    the callback stops the transfer. *)
Definition curl_easy_perform (req : Request) : M Z :=
  fun e w =>
    let w' :=
      mkWorld (globals w) (running w)
              (trace w ++ [EvCurlPerform req (env_curl_easy_perform e (n_perform w))])
              (n_time w) (n_init w) (S (n_perform w)) (n_signal w) (n_rand w)
              (n_sysinfo w) in
    match transfer e (n_perform w) with
    | inl h => Halted h w'
    | inr res => Ret res w'
    end.

(** [fopen (filename, "r")]: the contents of the file, [None] for [NULL]. *)
Definition fopen (filename : string) : M (option string) :=
  fun e w => Ret (env_fopen e filename) w.

End Monad.

#[global] Arguments World G : clear implicits.
#[global] Arguments Outcome G A : clear implicits.
#[global] Arguments M G A : clear implicits.

#[global] Instance M_ret G : MRet (M G) := fun A => ret.
#[global] Instance M_bind G : MBind (M G) := fun A B k m => bind m k.

(** The state in which a run ends, whether the code returns or halts. *)
Definition final {G A} (o : Outcome G A) : World G :=
  match o with Ret _ w => w | Halted _ w => w end.

End Proc.

(** ** Code the two programs share verbatim *)

Module Common.
Import CInt Proc.
Local Open Scope string_scope.
Local Open Scope Z_scope.

Section Shared.
Context {G : Type}.

(** [log_message]: reads the clock for the time stamp and prints one line. *)
Definition log_message (level : string) (message : Msg) : M G unit :=
  now ← time;
  emit (EvLog now level message).

(** [signal_handler] *)
Definition signal_handler : M G unit :=
  log_message "INFO" (Literal "Received shutdown signal");;
  set_running false.

(** A read of the volatile [running].  Signals are asynchronous; the
    handler's only effect on the program is through [running], so its runs
    are placed just before the reads.  The line that the handler logs, and
    its reading of the clock, are placed there too: where they fall among
    the output and the clock readings since the previous read of [running]
    is not modelled. *)
Definition read_running : M G bool :=
  fun e w =>
    let w1 := mkWorld (globals w) (running w) (trace w) (n_time w) (n_init w)
                      (n_perform w) (S (n_signal w)) (n_rand w) (n_sysinfo w) in
    if env_signal e (n_signal w)
    then (signal_handler;; ret false) e w1
    else Ret (running w1) w1.

(** [for (int i = 0; i < bound; i++) body (i)], for a [bound] the body
    leaves alone: [Z.to_nat bound] rounds. *)
Fixpoint for_from (rounds : nat) (i : Z) (body : Z -> M G unit) : M G unit :=
  match rounds with
  | O => mret tt
  | S n => body i;; for_from n (i + 1) body
  end.

Definition for_upto (bound : Z) (body : Z -> M G unit) : M G unit :=
  for_from (Z.to_nat bound) 0 body.

(** An array of [MAX_CHANNELS] elements is a list of that length; an access
    outside it is undefined behaviour. *)
Definition load (a : list Z) (i : Z) : M G Z :=
  match (if decide (0 <= i) then a !! Z.to_nat i else None) with
  | Some x => mret x
  | None => halt (Undefined "array read out of bounds")
  end.

Definition store (a : list Z) (i v : Z) : M G (list Z) :=
  if decide (0 <= i < Z.of_nat (length a))
  then mret (<[Z.to_nat i := v]> a)
  else halt (Undefined "array write out of bounds").

(** The argument loop of [main]: the configuration file to load, or what an
    early [return 0] prints. *)
Fixpoint parse_args (product program : string) (args : list string) (config_file : string)
  : string + Text :=
  match args with
  | [] => inl config_file
  | a :: rest =>
      if String.eqb a "--config" then
        match rest with
        | path :: rest' => parse_args product program rest' path
        | [] => inl config_file
        end
      else if String.eqb a "--version" then inr (VersionLine product)
      else if String.eqb a "--help" then inr (Usage program)
      else parse_args product program rest config_file
  end.

End Shared.
End Common.

(** ** [switch.c] *)

Module Switch.
Import CInt CLib Proc Common.
Local Open Scope string_scope.
Local Open Scope Z_scope.

Definition VERSION : string := "1.0.0".
Definition CONFIG_LINE_MAX : nat := 256.
Definition MAX_CHANNELS : Z := 4.

Record Config := mkConfig {
  device_id : string;
  device_name : string;
  panel_url : string;
  report_interval : Z;
  poll_commands_interval : Z;
  num_channels : Z;
  verbose : Z
}.

Record SwitchState := mkSwitchState {
  channel : list Z;
  last_toggle : list Z;
  toggle_count : list Z
}.

(** The file-scope variables, and [last_report], the [static] local of
    [main].  ([running] is in the process state, the mutex is not modelled:
    the listener thread never touches [switch_state], so every access is the
    main thread's.) *)
Record Globals := mkGlobals {
  config : Config;
  switch_state : SwitchState;
  last_report : Z
}.

(** Static storage starts zeroed. *)
Definition globals0 : Globals :=
  mkGlobals (mkConfig "" "" "" 0 0 0 0)
            (mkSwitchState (replicate 4 0) (replicate 4 0) (replicate 4 0)) 0.

(** The three arrays have [MAX_CHANNELS] elements. *)
Definition arrays_ok (s : SwitchState) : Prop :=
  length (channel s) = Z.to_nat MAX_CHANNELS /\
  length (last_toggle s) = Z.to_nat MAX_CHANNELS /\
  length (toggle_count s) = Z.to_nat MAX_CHANNELS.

(** The type of the program's code. *)
Abbreviation P := (M Globals).

Definition set_config (c : Config) : P unit :=
  modify (fun g => mkGlobals c (switch_state g) (last_report g)).

Definition set_switch_state (s : SwitchState) : P unit :=
  modify (fun g => mkGlobals (config g) s (last_report g)).

Definition set_last_report (t : Z) : P unit :=
  modify (fun g => mkGlobals (config g) (switch_state g) t).

(** *** [load_config] *)

(** The defaults that [load_config] sets before it reads the file. *)
Definition defaults (c : Config) : Config :=
  mkConfig (device_id c) (device_name c) (panel_url c) (report_interval c) 5 4 (verbose c).

(** One round of the [while (fgets (line, sizeof (line), file))] loop. *)
Definition config_line (buffer : string) (c : Config) : Config :=
  let line := cstr buffer in
  let skip :=
    match line with
    | String c0 _ => Ascii.eqb c0 "#"%char || is_newline c0
    | EmptyString => false
    end in
  if skip then c else
  match sscanf_key_value line with
  | Some (key, value) =>
      let k := skip_blanks key in
      let v := skip_blanks value in
      if String.eqb k "device_id" then
        mkConfig (strncpy 63 v) (device_name c) (panel_url c) (report_interval c)
                 (poll_commands_interval c) (num_channels c) (verbose c)
      else if String.eqb k "device_name" then
        mkConfig (device_id c) (strncpy 127 v) (panel_url c) (report_interval c)
                 (poll_commands_interval c) (num_channels c) (verbose c)
      else if String.eqb k "panel_url" then
        mkConfig (device_id c) (device_name c) (strncpy 255 v) (report_interval c)
                 (poll_commands_interval c) (num_channels c) (verbose c)
      else if String.eqb k "report_interval" then
        mkConfig (device_id c) (device_name c) (panel_url c) (atoi v)
                 (poll_commands_interval c) (num_channels c) (verbose c)
      else if String.eqb k "num_channels" then
        let n := atoi v in
        mkConfig (device_id c) (device_name c) (panel_url c) (report_interval c)
                 (poll_commands_interval c)
                 (if decide (n > MAX_CHANNELS) then MAX_CHANNELS else n) (verbose c)
      else if String.eqb k "verbose" then
        mkConfig (device_id c) (device_name c) (panel_url c) (report_interval c)
                 (poll_commands_interval c) (num_channels c) (atoi v)
      else c
  | None => c
  end.

(** The configuration that the text of a file leaves in [config]. *)
Definition read_config (text : string) (c : Config) : Config :=
  fold_left (fun c buffer => config_line buffer c) (fgets_all CONFIG_LINE_MAX text) (defaults c).

Definition load_config (filename : string) : P unit :=
  file ← fopen filename;
  match file with
  | None => emit (EvStderr (CannotOpen filename));; halt (Exited 1)
  | Some text => g ← get; set_config (read_config text (config g))
  end.

(** *** The switch state *)

Definition set_switch (ch state : Z) : P unit :=
  g ← get;
  if decide (ch < 0 \/ ch >= num_channels (config g)) then mret tt
  else
    let s := switch_state g in
    current ← load (channel s) ch;
    if decide (current <> state) then
      channel' ← store (channel s) ch state;
      now ← time;
      last_toggle' ← store (last_toggle s) ch now;
      count ← load (toggle_count s) ch;
      toggle_count' ← store (toggle_count s) ch (ulong (count + 1));
      set_switch_state (mkSwitchState channel' last_toggle' toggle_count');;
      if truthy (verbose (config g))
      then log_message "INFO" (MsgChannel ch (truthy state))
      else mret tt
    else mret tt.

Definition get_switch (ch : Z) : P Z :=
  g ← get;
  if decide (ch < 0 \/ ch >= num_channels (config g)) then mret 0
  else load (channel (switch_state g)) ch.

Definition toggle_switch (ch : Z) : P unit :=
  current ← get_switch ch;
  set_switch ch (lnot current).

Definition print_status : P unit :=
  emit (EvStdout StatusHeader);;
  g ← get;
  for_upto (num_channels (config g)) (fun i =>
    g ← get;
    state ← load (channel (switch_state g)) i;
    count ← load (toggle_count (switch_state g)) i;
    emit (EvStdout (StatusRow i state count)));;
  emit (EvStdout StatusFooter).

Definition execute_command (command : string) (ch : Z) : P unit :=
  log_message "INFO" (MsgCommand command ch);;
  if String.eqb command "on" then set_switch ch 1
  else if String.eqb command "off" then set_switch ch 0
  else if String.eqb command "toggle" then toggle_switch ch
  else if String.eqb command "status" then print_status
  else if String.eqb command "all_on" then
    g ← get; for_upto (num_channels (config g)) (fun i => set_switch i 1)
  else if String.eqb command "all_off" then
    g ← get; for_upto (num_channels (config g)) (fun i => set_switch i 0)
  else mret tt.

(** *** Talking to the panel *)

(** [(res == CURLE_OK) ? 0 : -1] *)
Definition status_of (res : Z) : Z := if decide (res = CURLE_OK) then 0 else -1.

Definition register_device : P Z :=
  g ← get;
  let url := panel_url (config g) ++ "/devices" in
  let post_data :=
    RegisterSwitch (device_name (config g)) VERSION (num_channels (config g)) in
  curl ← curl_easy_init;
  if negb curl then mret (-1)
  else
    res ← curl_easy_perform (mkRequest POST url post_data);
    mret (status_of res).

(** The loop of [report_status] that writes [get_switch (i)] for each
    channel into [channels_data]. *)
Fixpoint channels_data (rounds : nat) (i : Z) (acc : list Z) : P (list Z) :=
  match rounds with
  | O => mret acc
  | S n => v ← get_switch i; channels_data n (i + 1) (acc ++ [v])
  end.

Definition report_status : P Z :=
  g ← get;
  channels ← channels_data (Z.to_nat (num_channels (config g))) 0 [];
  let url := panel_url (config g) ++ "/devices/" ++ device_id (config g) in
  count0 ← load (toggle_count (switch_state g)) 0;
  count1 ← load (toggle_count (switch_state g)) 1;
  let post_data := SwitchStatus channels (ulong (count0 + count1)) in
  curl ← curl_easy_init;
  if negb curl then mret (-1)
  else
    res ← curl_easy_perform (mkRequest PUT url post_data);
    mret (status_of res).

(** *** [main] *)

(** [sscanf (input, "%s %d", cmd, &channel)] with [channel] preset to 0:
    the word, and the channel. [None] when there is no word, and [cmd] is
    left unset. *)
Definition sscanf_command (input : string) : option (string * Z) :=
  let (cmd, rest) := word (skip_space input) in
  match cmd with
  | EmptyString => None
  | _ => Some (cmd, default 0 (scan_int rest))
  end.

(** The periodic report at the end of a round of the command loop. *)
Definition report_if_due : P unit :=
  now ← time;
  g ← get;
  let elapsed := now - last_report g in
  if decide (in_long elapsed) then
    if decide (elapsed >= report_interval (config g)) then
      report_status;;
      now' ← time;
      set_last_report now'
    else mret tt
  else halt (Undefined "time_t subtraction overflows").

(** The command loop, [while (running) { ... }], on the buffers that the
    successive [fgets (input, sizeof (input), stdin)] calls return; when
    they are used up, [fgets] returns [NULL] and the loop is left. *)
Fixpoint command_loop (buffers : list string) : P unit :=
  go ← read_running;
  if (go : bool) then
    emit (EvStdout Prompt);;
    match buffers with
    | [] => mret tt
    | buffer :: rest =>
        let input := chomp (cstr buffer) in
        if is_empty input then command_loop rest
        else
          match sscanf_command input with
          | None => halt (Undefined "cmd is read before it is set")
          | Some (cmd, ch) =>
              if (32 <=? String.length cmd)%nat
              then halt (Undefined "cmd[32] overflows")
              else
                (if String.eqb cmd "quit" || String.eqb cmd "exit" then set_running false
                 else if String.eqb cmd "status" then print_status
                 else if String.eqb cmd "help" then emit (EvStdout CommandsLine)
                 else execute_command cmd ch);;
                report_if_due;;
                command_loop rest
          end
    end
  else mret tt.

(** The loop on the text that standard input holds. *)
Definition main_loop (input : string) : P unit := command_loop (fgets_all 128 input).

(** [pthread_join (listener_thread, NULL)].  The listener runs
    [while (running) sleep (...)]: the join returns once [running] is 0. *)
Definition pthread_join : P unit :=
  alive ← read_running;
  if (alive : bool) then halt Blocked else emit EvThreadJoin.

(** [main] from [signal (SIGINT, ...)] to [pthread_create].  The listener
    thread that starts there logs one line and then only sleeps; what it
    prints is not part of the main thread's trace. *)
Definition startup : P unit :=
  emit EvSignalInstall;;
  emit EvSignalInstall;;
  emit EvCurlGlobalInit;;
  g ← get;
  (if is_empty (device_id (config g)) then
     log_message "INFO" (Literal "Registering device...");;
     register_device;;
     mret tt
   else mret tt);;
  log_message "INFO" (Literal "Starting switch firmware...");;
  emit (EvStdout (DeviceLine (device_name (config g))));;
  emit (EvStdout (ChannelsLine (num_channels (config g))));;
  emit (EvStdout HelpHint);;
  emit EvThreadCreate.

(** [main] after the command loop. *)
Definition cleanup : P Z :=
  log_message "INFO" (Literal "Shutting down...");;
  pthread_join;;
  emit EvCurlGlobalCleanup;;
  emit (EvStdout (Banner "Switch Firmware Stopped"));;
  mret 0.

(** [main] once the configuration is loaded. *)
Definition run (input : string) : P Z := startup;; main_loop input;; cleanup.

Definition main (program : string) (args : list string) (input : string) : P Z :=
  match parse_args "Karyx IoT Switch Firmware" program args "config.ini" with
  | inr text => emit (EvStdout text);; mret 0
  | inl config_file =>
      emit (EvStdout (Banner "Karyx IoT Switch Firmware"));;
      load_config config_file;;
      run input
  end.

(** The process as [exec] hands it to [main]. *)
Definition boot : World Globals :=
  mkWorld globals0 true [] 0 0 0 0 0 0.

End Switch.

(** ** [sensor.c] *)

Module Sensor.
Import CInt CLib Proc Common.
Local Open Scope string_scope.
Local Open Scope Z_scope.

Definition VERSION : string := "1.0.0".
Definition CONFIG_LINE_MAX : nat := 256.

Record Config := mkConfig {
  device_id : string;
  device_name : string;
  panel_url : string;
  report_interval : Z;
  verbose : Z
}.

(** The only file-scope variable besides [running] is [config]. *)
Abbreviation P := (M Config).

(** Static storage starts zeroed. *)
Definition config0 : Config := mkConfig "" "" "" 0 0.

(** *** [load_config] *)

(** One round of the [while (fgets (line, sizeof (line), file))] loop. *)
Definition config_line (buffer : string) (c : Config) : Config :=
  let line := cstr buffer in
  let skip :=
    match line with
    | String c0 _ => Ascii.eqb c0 "#"%char || is_newline c0
    | EmptyString => false
    end in
  if skip then c else
  match sscanf_key_value line with
  | Some (key, value) =>
      let k := skip_blanks key in
      let v := skip_blanks value in
      if String.eqb k "device_id" then
        mkConfig (strncpy 63 v) (device_name c) (panel_url c) (report_interval c) (verbose c)
      else if String.eqb k "device_name" then
        mkConfig (device_id c) (strncpy 127 v) (panel_url c) (report_interval c) (verbose c)
      else if String.eqb k "panel_url" then
        mkConfig (device_id c) (device_name c) (strncpy 255 v) (report_interval c) (verbose c)
      else if String.eqb k "report_interval" then
        mkConfig (device_id c) (device_name c) (panel_url c) (atoi v) (verbose c)
      else if String.eqb k "verbose" then
        mkConfig (device_id c) (device_name c) (panel_url c) (report_interval c) (atoi v)
      else c
  | None => c
  end.

Definition read_config (text : string) (c : Config) : Config :=
  fold_left (fun c buffer => config_line buffer c) (fgets_all CONFIG_LINE_MAX text) c.

Definition load_config (filename : string) : P unit :=
  file ← fopen filename;
  match file with
  | None => emit (EvStderr (CannotOpen filename));; halt (Exited 1)
  | Some text => c ← get; put (read_config text c)
  end.

(** *** Sampling *)

(** [22.0 + ((float) rand () / RAND_MAX) * 8.0] *)
Definition read_temperature : P Reading := r ← rand; mret (mkReading 22 8 r).

(** [40.0 + ((float) rand () / RAND_MAX) * 20.0] *)
Definition read_humidity : P Reading := r ← rand; mret (mkReading 40 20 r).

(** *** Talking to the panel *)

Definition register_device : P Z :=
  c ← get;
  let url := panel_url c ++ "/devices" in
  let post_data := RegisterSensor (device_name c) VERSION in
  curl ← curl_easy_init;
  if negb curl then
    log_message "ERROR" (Literal "Failed to initialize CURL");;
    mret (-1)
  else
    res ← curl_easy_perform (mkRequest POST url post_data);
    if decide (res <> CURLE_OK) then
      log_message "ERROR" (Literal "Device registration failed");;
      mret (-1)
    else
      log_message "INFO" (Literal "Device registered successfully");;
      mret 0.

(** [100 - ((si.freeram * 100) / si.totalram)] in [unsigned long], read by
    [%ld]; [si.freeram] and [si.totalram] are [unsigned long] values. *)
Definition memory_usage (si : Sysinfo) : Z :=
  ulong_as_long (ulong (100 - ulong (si_freeram si * 100) / si_totalram si)).

Definition memory_usage_percent (si : Sysinfo) : P Z :=
  if decide (si_totalram si = 0) then halt (Undefined "division by zero")
  else mret (memory_usage si).

Definition report_metrics (temp humidity : Reading) : P Z :=
  si ← sysinfo;
  c ← get;
  let url := panel_url c ++ "/devices/" ++ device_id c in
  mem ← memory_usage_percent si;
  let post_data := SensorMetrics temp humidity (si_uptime si) mem in
  curl ← curl_easy_init;
  if negb curl then
    log_message "ERROR" (Literal "Failed to initialize CURL");;
    mret (-1)
  else
    res ← curl_easy_perform (mkRequest PUT url post_data);
    if decide (res <> CURLE_OK) then
      log_message "WARN" (Literal "Failed to report metrics");;
      mret (-1)
    else
      (if truthy (verbose c)
       then log_message "INFO" (MsgReported temp humidity)
       else mret tt);;
      mret 0.

(** *** [main] *)

(** [for (int i = 0; i < config.report_interval && running; i++) sleep (1);]
    with [rounds] the seconds still to sleep: [running] is read only while
    [i < config.report_interval]. *)
Fixpoint sleep_interval (rounds : nat) : P unit :=
  match rounds with
  | O => mret tt
  | S n =>
      go ← read_running;
      if (go : bool) then emit (EvSleep 1);; sleep_interval n else mret tt
  end.

(** One round of the main loop, after [running] was read as nonzero.
    [cycle] is the counter before [cycle++]; the result is the counter
    after it. *)
Definition cycle_body (cycle : Z) : P Z :=
  if decide (cycle = INT_MAX) then halt (Undefined "cycle++ overflows")
  else
    let cycle := cycle + 1 in
    temperature ← read_temperature;
    humidity ← read_humidity;
    emit (EvStdout (CycleLine cycle temperature humidity));;
    report_metrics temperature humidity;;
    c ← get;
    sleep_interval (Z.to_nat (report_interval c));;
    mret cycle.

(** The main loop, [while (running) { ... }]: it ends when [running] is
    read as 0, and only a signal clears it, so the model takes the number
    of rounds it may run as [fuel]. *)
Fixpoint main_loop (fuel : nat) (cycle : Z) : P unit :=
  match fuel with
  | O => halt Pending
  | S n =>
      go ← read_running;
      if (go : bool) then
        cycle' ← cycle_body cycle;
        main_loop n cycle'
      else mret tt
  end.

(** [main] from [signal (SIGINT, ...)] to the last [printf] before the main
    loop; [Some status] is an early [return status]. *)
Definition startup : P (option Z) :=
  emit EvSignalInstall;;
  emit EvSignalInstall;;
  seed ← time;
  emit (EvSrand seed);;
  emit EvCurlGlobalInit;;
  c ← get;
  failed ←
    (if is_empty (device_id c) then
       log_message "INFO" (Literal "Registering device with panel...");;
       status ← register_device;
       if decide (status <> 0) then
         log_message "ERROR" (Literal "Failed to register device");;
         emit EvCurlGlobalCleanup;;
         mret true
       else mret false
     else mret false);
  if (failed : bool) then mret (Some 1)
  else
    log_message "INFO" (Literal "Starting sensor monitoring...");;
    emit (EvStdout (DeviceLine (device_name c)));;
    emit (EvStdout (PanelLine (panel_url c)));;
    emit (EvStdout (IntervalLine (report_interval c)));;
    mret None.

(** [main] after the main loop. *)
Definition cleanup : P Z :=
  log_message "INFO" (Literal "Shutting down sensor firmware...");;
  emit EvCurlGlobalCleanup;;
  emit (EvStdout (Banner "Sensor Firmware Stopped"));;
  mret 0.

(** [main] once the configuration is loaded. *)
Definition run (fuel : nat) : P Z :=
  early ← startup;
  match early with
  | Some status => mret status
  | None => main_loop fuel 0;; cleanup
  end.

Definition main (fuel : nat) (program : string) (args : list string) : P Z :=
  match parse_args "Karyx IoT Sensor Firmware" program args "config.ini" with
  | inr text => emit (EvStdout text);; mret 0
  | inl config_file =>
      emit (EvStdout (Banner "Karyx IoT Sensor Firmware"));;
      log_message "INFO" (Literal "Loading configuration...");;
      load_config config_file;;
      run fuel
  end.

(** The process as [exec] hands it to [main]. *)
Definition boot : World Config := mkWorld config0 true [] 0 0 0 0 0 0.

End Sensor.

(** * Specifications

    Predicates and observers that the statements below are written with,
    and the concrete environments and states they are tried on. *)

Module TraceSpec.
Import CInt Proc.
Local Open Scope string_scope.
Local Open Scope list_scope.
Local Open Scope Z_scope.

(** Every event that [m] appends to the trace satisfies [Q], however [m]
    ends. *)
Definition appends {G A} (Q : Event -> Prop) (m : M G A) : Prop :=
  forall e w, exists t, trace (final (m e w)) = trace w ++ t /\ Forall Q t.

(** The HTTP requests in a trace: registrations are the POSTs, reports the
    PUTs; [curl_easy_init] calls precede both. *)
Definition is_registration (ev : Event) : bool :=
  match ev with
  | EvCurlPerform (mkRequest POST _ _) _ => true
  | _ => false
  end.

Definition is_report (ev : Event) : bool :=
  match ev with
  | EvCurlPerform (mkRequest PUT _ _) _ => true
  | _ => false
  end.

Definition is_curl_init (ev : Event) : bool :=
  match ev with
  | EvCurlEasyInit _ => true
  | _ => false
  end.

(** The number of events of a kind in a trace. *)
Fixpoint count (f : Event -> bool) (t : list Event) : nat :=
  match t with
  | [] => 0
  | ev :: t' => (if f ev then 1 else 0) + count f t'
  end.

Definition no_registration (ev : Event) : Prop := is_registration ev = false.


(** The world after a read of [running] that no signal precedes. *)
Definition polled {G} (w : World G) : World G :=
  mkWorld (globals w) (running w) (trace w) (n_time w) (n_init w) (n_perform w)
          (S (n_signal w)) (n_rand w) (n_sysinfo w).

(** No signal arrives before any of the next [count] reads of [running]
    after the first [from]. *)
Definition quiet (e : Env) (from count : nat) : Prop :=
  forall j, (j < count)%nat -> env_signal e (from + j) = false.

(** The reply to transfer [n] is gathered in [response]: the callback takes
    every chunk and the buffer holds them all. *)
Definition reply_fits (e : Env) (n : nat) : Prop :=
  exists buffer, Callback.receive (env_curl_reply e n) EmptyString = inr (CURLE_OK, buffer).

(** The undefined behaviours of [write_callback]. *)
Definition reply_fault (h : Halt) : Prop :=
  h = Undefined "strncat overflows response" \/
  h = Undefined "strncat reads past contents".

(** The world after a [curl_easy_perform] call for [req], however it
    ends. *)
Definition performed {G} (req : Request) (e : Env) (w : World G) : World G :=
  mkWorld (globals w) (running w)
          (trace w ++ [EvCurlPerform req (env_curl_easy_perform e (n_perform w))])
          (n_time w) (n_init w) (S (n_perform w)) (n_signal w) (n_rand w) (n_sysinfo w).

End TraceSpec.

Module SwitchSpec.
Import CInt CLib Proc Common Switch.
Local Open Scope string_scope.
Local Open Scope list_scope.
Local Open Scope Z_scope.

(** What [load_config] guarantees and the declarations of the arrays give:
    the bounds checks of [set_switch] and [get_switch] then keep every
    access inside the arrays. *)
Definition state_ok (g : Globals) : Prop :=
  arrays_ok (switch_state g) /\ num_channels (config g) <= MAX_CHANNELS.

(** A channel index that passes the bounds check. *)
Definition valid (g : Globals) (ch : Z) : Prop := 0 <= ch < num_channels (config g).

(** The state that a write of a new value leaves. *)
Definition written (s : SwitchState) (ch state now count : Z) : SwitchState :=
  mkSwitchState (<[Z.to_nat ch := state]> (channel s))
                (<[Z.to_nat ch := now]> (last_toggle s))
                (<[Z.to_nat ch := ulong (count + 1)]> (toggle_count s)).

(** How an operation may move the toggle counters: every counter stays, or
    it is one of the [touched] ones and goes up by one ([unsigned long]
    arithmetic). *)
Definition counts_step (touched : nat -> Prop) (s s' : SwitchState) : Prop :=
  forall i c,
    toggle_count s !! i = Some c ->
    toggle_count s' !! i = Some c \/
    (touched i /\ toggle_count s' !! i = Some (ulong (c + 1))).

(** What every operation on the switch state keeps. *)
Definition op_post (touched : nat -> Prop) (w w' : World Globals) : Prop :=
  state_ok (globals w') /\
  config (globals w') = config (globals w) /\
  counts_step touched (switch_state (globals w)) (switch_state (globals w')).

(** What [report_status] appends to the trace, by the results of the two
    libcurl calls. *)
Definition status_events (e : Env) (w : World Globals) (channels : list Z) (total : Z)
  : list Event :=
  let c := config (globals w) in
  if env_curl_easy_init e (n_init w) then
    [EvCurlEasyInit true;
     EvCurlPerform
       (mkRequest PUT (String.append (panel_url c) (String.append "/devices/" (device_id c)))
                  (SwitchStatus channels total))
       (env_curl_easy_perform e (n_perform w))]
  else [EvCurlEasyInit false].

(** The operations on the switch state, and a run of several. *)
Inductive Op :=
| OpSet (ch state : Z)
| OpGet (ch : Z)
| OpToggle (ch : Z)
| OpPrint
| OpReport
| OpExecute (command : string) (ch : Z).

Definition run_op (op : Op) : P unit :=
  match op with
  | OpSet ch state => set_switch ch state
  | OpGet ch => get_switch ch;; mret tt
  | OpToggle ch => toggle_switch ch
  | OpPrint => print_status
  | OpReport => report_status;; mret tt
  | OpExecute command ch => execute_command command ch
  end.

Fixpoint run_ops (ops : list Op) : P unit :=
  match ops with
  | [] => mret tt
  | op :: rest => run_op op;; run_ops rest
  end.

(** What [load_config] keeps of [num_channels]. *)
Definition capped (c : Config) : Prop := INT_MIN <= num_channels c <= MAX_CHANNELS.

End SwitchSpec.

Module SensorSpec.
Import CInt CLib Proc Common Sensor TraceSpec.
Local Open Scope string_scope.
Local Open Scope list_scope.
Local Open Scope Z_scope.

(** The request that [report_metrics] makes in [w]. *)
Definition metrics_request (e : Env) (w : World Config) (temp humidity : Reading) : Request :=
  let si := env_sysinfo e (n_sysinfo w) in
  mkRequest PUT
            (String.append (panel_url (globals w))
                           (String.append "/devices/" (device_id (globals w))))
            (SensorMetrics temp humidity (si_uptime si) (memory_usage si)).

(** What [report_metrics] appends to the trace, by the results of the two
    libcurl calls. *)
Definition report_events (e : Env) (w : World Config) (temp humidity : Reading) : list Event :=
  if env_curl_easy_init e (n_init w) then
    [EvCurlEasyInit true;
     EvCurlPerform (metrics_request e w temp humidity) (env_curl_easy_perform e (n_perform w))]
    ++ (if decide (env_curl_easy_perform e (n_perform w) <> CURLE_OK)
        then [EvLog (env_time e (n_time w)) "WARN" (Literal "Failed to report metrics")]
        else if truthy (verbose (globals w))
             then [EvLog (env_time e (n_time w)) "INFO" (MsgReported temp humidity)]
             else [])
  else
    [EvCurlEasyInit false;
     EvLog (env_time e (n_time w)) "ERROR" (Literal "Failed to initialize CURL")].

(** The number of [time] calls among them (one for each log line). *)
Definition report_clock (e : Env) (w : World Config) : nat :=
  if env_curl_easy_init e (n_init w) then
    if decide (env_curl_easy_perform e (n_perform w) <> CURLE_OK) then 1
    else if truthy (verbose (globals w)) then 1 else 0
  else 1.

(** The number of transfers among them. *)
Definition report_performs (e : Env) (w : World Config) : nat :=
  if env_curl_easy_init e (n_init w) then 1 else 0.

(** The readings that a round of the main loop takes in [w]. *)
Definition temperature_at (e : Env) (w : World Config) : Reading :=
  mkReading 22 8 (env_rand e (n_rand w)).

Definition humidity_at (e : Env) (w : World Config) : Reading :=
  mkReading 40 20 (env_rand e (S (n_rand w))).

(** What one round of the sensor's main loop appends to the trace when no
    signal arrives in it. *)
Definition cycle_events (e : Env) (w : World Config) (cycle : Z) : list Event :=
  [EvStdout (CycleLine (cycle + 1) (temperature_at e w) (humidity_at e w))]
  ++ report_events e w (temperature_at e w) (humidity_at e w)
  ++ replicate (Z.to_nat (report_interval (globals w))) (EvSleep 1).

(** The world at the end of that round. *)
Definition cycle_end (e : Env) (w : World Config) (cycle : Z) : World Config :=
  mkWorld (globals w) (running w) (trace w ++ cycle_events e w cycle)
          (n_time w + report_clock e w) (S (n_init w))
          (n_perform w + report_performs e w)
          (n_signal w + Z.to_nat (report_interval (globals w)))
          (S (S (n_rand w))) (S (n_sysinfo w)).

End SensorSpec.

(** ** Concrete environments and states *)

Module Samples.
Import CInt Proc Switch.
Local Open Scope string_scope.
Local Open Scope list_scope.
Local Open Scope Z_scope.

(** A panel that answers and a quiet process: no signal arrives. *)
Definition sample_env : Env :=
  mkEnv (fun n => 1700000000 + Z.of_nat n) (fun _ => true) (fun _ => 0) (fun _ => false)
        (fun n => Z.of_nat n) (fun _ => mkSysinfo 3600 1024 4096)
        (fun _ => None)
        (fun _ => ["{status:ok}"]).

(** A switch of four channels, all off and never toggled, not registered. *)
Definition four_off : World Globals :=
  mkWorld (mkGlobals (mkConfig "" "relay" "http://panel" 30 5 4 0)
                     (mkSwitchState [0; 0; 0; 0] [0; 0; 0; 0] [0; 0; 0; 0]) 0)
          true [] 0 0 0 0 0 0.

(** A registered switch on which only channels 2 and 3 were ever toggled. *)
Definition toggled_2_and_3 : World Globals :=
  mkWorld (mkGlobals (mkConfig "sw-1" "relay" "http://panel" 30 5 4 0)
                     (mkSwitchState [0; 0; 1; 1] [0; 0; 1700000000; 1700000001] [0; 0; 5; 7]) 0)
          true [] 0 0 0 0 0 0.

(** A configuration file that asks for no channels. *)
Definition zero_channels_env : Env :=
  mkEnv (fun n => 1700000000 + Z.of_nat n) (fun _ => true) (fun _ => 0) (fun _ => false)
        (fun n => Z.of_nat n) (fun _ => mkSysinfo 3600 1024 4096)
        (fun _ => Some "device_name=relay
num_channels=0
")
        (fun _ => ["{status:ok}"]).

(** A configuration file that asks for minus three channels. *)
Definition negative_channels_env : Env :=
  mkEnv (fun n => 1700000000 + Z.of_nat n) (fun _ => true) (fun _ => 0) (fun _ => false)
        (fun n => Z.of_nat n) (fun _ => mkSysinfo 3600 1024 4096)
        (fun _ => Some "num_channels=-3
verbose=1
")
        (fun _ => ["{status:ok}"]).

(** The panel is unreachable: every transfer fails with
    [CURLE_COULDNT_CONNECT]; the configuration file names no [device_id]. *)
Definition outage_env : Env :=
  mkEnv (fun n => 1700000000 + Z.of_nat n) (fun _ => true) (fun _ => 7) (fun _ => false)
        (fun n => Z.of_nat n) (fun _ => mkSysinfo 3600 1024 4096)
        (fun _ => Some "device_name=relay
panel_url=http://panel
report_interval=2
")
        (fun _ => []).

(** A sensor with no [device_id], about to register. *)
Definition unregistered_sensor : World Sensor.Config :=
  mkWorld (Sensor.mkConfig "" "probe" "http://panel" 2 0) true [] 0 0 0 0 0 0.

(** A registered sensor that reports every two seconds. *)
Definition reporting_sensor : World Sensor.Config :=
  mkWorld (Sensor.mkConfig "sn-1" "probe" "http://panel" 2 0) true [] 0 0 0 0 0 0.

(** A registered switch with four channels, and a panel that answers. *)
Definition console_env : Env :=
  mkEnv (fun n => 1700000000 + Z.of_nat n) (fun _ => true) (fun _ => 0) (fun _ => false)
        (fun n => Z.of_nat n) (fun _ => mkSysinfo 3600 1024 4096)
        (fun _ => Some "# switch
device_id=sw-1
device_name=relay
panel_url=http://panel
report_interval=3600
num_channels=9
")
        (fun _ => ["{status:"; "ok}"]).

(** A panel that answers every request with 2048 bytes, one more than
    [response] holds beside the closing NUL. *)
Definition long_reply : string := string_of_list_ascii (replicate 2048 "x"%char).

Definition flood_env : Env :=
  mkEnv (fun n => 1700000000 + Z.of_nat n) (fun _ => true) (fun _ => 0) (fun _ => false)
        (fun n => Z.of_nat n) (fun _ => mkSysinfo 3600 1024 4096)
        (fun _ => None)
        (fun _ => [long_reply]).

End Samples.

(** ** Further vocabulary *)

Module SwitchShape.
Import CInt CLib Proc Common Switch TraceSpec SwitchSpec.
Local Open Scope string_scope.
Local Open Scope list_scope.
Local Open Scope Z_scope.

(** The arrays of [s'] are those of [s] at every index but [ch]. *)
Definition same_elsewhere (ch : Z) (s s' : SwitchState) : Prop :=
  forall j : nat,
    j <> Z.to_nat ch ->
    channel s' !! j = channel s !! j /\
    last_toggle s' !! j = last_toggle s !! j /\
    toggle_count s' !! j = toggle_count s !! j.

(** Every channel with an index from [lo] up to [hi] holds [v] in [s'], and
    its counter went up by one if it held another value in [s]; the other
    elements of the arrays are those of [s]. *)
Definition set_all (v : Z) (lo hi : nat) (s s' : SwitchState) : Prop :=
  forall j : nat,
    ((lo <= j < hi)%nat ->
     channel s' !! j = Some v /\
     forall cur c,
       channel s !! j = Some cur -> toggle_count s !! j = Some c ->
       toggle_count s' !! j = Some (if decide (cur = v) then c else ulong (c + 1))) /\
    (~ (lo <= j < hi)%nat ->
     channel s' !! j = channel s !! j /\
     last_toggle s' !! j = last_toggle s !! j /\
     toggle_count s' !! j = toggle_count s !! j).

(** The commands that [execute_command] acts on, and those among them
    that address one channel. *)
Definition known_command (c : string) : bool :=
  String.eqb c "on" || String.eqb c "off" || String.eqb c "toggle" ||
  String.eqb c "status" || String.eqb c "all_on" || String.eqb c "all_off".

Definition addresses_channel (c : string) : bool :=
  String.eqb c "on" || String.eqb c "off" || String.eqb c "toggle".

(** The row that [print_status] prints for channel [i]. *)
Definition status_row (s : SwitchState) (i : nat) : Event :=
  EvStdout (StatusRow (Z.of_nat i) (default 0 (channel s !! i))
                      (default 0 (toggle_count s !! i))).

(** [m] leaves the observation [f] of the process state as it finds it,
    however it ends. *)
Definition stays {G A X} (f : World G -> X) (m : M G A) : Prop :=
  forall e w, f (final (m e w)) = f w.

(** The undefined behaviours of [main]'s own handling of a command line. *)
Definition input_fault (h : Halt) : Prop :=
  h = Undefined "cmd is read before it is set" \/
  h = Undefined "cmd[32] overflows" \/
  h = Undefined "time_t subtraction overflows".

(** What can stop the switch's command loop short of a return: those, and
    a reply of the panel that [write_callback] cannot hold. *)
Definition switch_fault (h : Halt) : Prop := input_fault h \/ reply_fault h.

(** From a state that is [state_ok], [m] ends in one, with the
    configuration it found, and if it halts, it halts for a reason in
    [ok]. *)
Definition guards {A} (ok : Halt -> Prop) (m : P A) : Prop :=
  forall e w,
    state_ok (globals w) ->
    match m e w with
    | Ret _ w' =>
        state_ok (globals w') /\ config (globals w') = config (globals w)
    | Halted h w' =>
        ok h /\ state_ok (globals w') /\ config (globals w') = config (globals w)
    end.
(** The configuration in a process state. *)
Abbreviation config_of := (fun w : World Globals => config (globals w)).

End SwitchShape.

Module ConfigShape.
Import CInt CLib Proc.
Local Open Scope string_scope.
Local Open Scope list_scope.
Local Open Scope Z_scope.

(** The buffers of a stream, put end to end. *)
Definition join (buffers : list string) : string := fold_right String.append "" buffers.

(** Whether a character occurs in a string. *)
Fixpoint has_char (c : ascii) (s : string) : bool :=
  match s with
  | EmptyString => false
  | String c' r => Ascii.eqb c' c || has_char c r
  end.

(** A value that [%191[^\n]] reads whole from a line it ends: not empty,
    at most 191 characters, no newline and no NUL in it. *)
Definition plain_value (v : string) : Prop :=
  v <> EmptyString /\ (String.length v <= 191)%nat /\
  has_char "010"%char v = false /\ has_char "000"%char v = false.

(** Every field of the switch's [Config] fits its C type: the strings
    their arrays with the closing NUL, the numbers an [int]. *)
Definition switch_config_fits (c : Switch.Config) : Prop :=
  (String.length (Switch.device_id c) <= 63)%nat /\
  (String.length (Switch.device_name c) <= 127)%nat /\
  (String.length (Switch.panel_url c) <= 255)%nat /\
  in_int (Switch.report_interval c) /\ in_int (Switch.poll_commands_interval c) /\
  in_int (Switch.num_channels c) /\ in_int (Switch.verbose c).

Definition sensor_config_fits (c : Sensor.Config) : Prop :=
  (String.length (Sensor.device_id c) <= 63)%nat /\
  (String.length (Sensor.device_name c) <= 127)%nat /\
  (String.length (Sensor.panel_url c) <= 255)%nat /\
  in_int (Sensor.report_interval c) /\ in_int (Sensor.verbose c).

(** A line that [load_config] skips or that [sscanf] cannot split: it
    starts with [#] or a newline, or holds no [=]. *)
Definition sets_nothing (line : string) : Prop :=
  match line with
  | String c0 _ => c0 = "#"%char \/ c0 = "010"%char
  | EmptyString => False
  end \/ has_char "="%char line = false.

(** Whether a text ends with a newline. *)
Fixpoint ends_with_newline (s : string) : bool :=
  match s with
  | EmptyString => false
  | String c EmptyString => is_newline c
  | String _ r => ends_with_newline r
  end.

(** A configuration file that asks for its own polling interval. *)
Definition tuned_env : Env :=
  mkEnv (fun n => 1700000000 + Z.of_nat n) (fun _ => true) (fun _ => 0) (fun _ => false)
        (fun n => Z.of_nat n) (fun _ => mkSysinfo 3600 1024 4096)
        (fun _ => Some "device_id=sw-1
poll_commands_interval=60
")
        (fun _ => ["{status:ok}"]).

End ConfigShape.

Module SensorShape.
Import CInt CLib Proc Common Sensor TraceSpec SensorSpec.
Local Open Scope string_scope.
Local Open Scope list_scope.
Local Open Scope Z_scope.

Definition is_sleep (ev : Event) : bool :=
  match ev with
  | EvSleep _ => true
  | _ => false
  end.

(** The line that [signal_handler] logs at clock reading [now]. *)
Definition shutdown_line (e : Env) (now : nat) : Event :=
  EvLog (env_time e now) "INFO" (Literal "Received shutdown signal").

(** The world after [n] rounds of the sensor's main loop that no signal
    disturbs, the first of them started in [w] with counter [cycle]. *)
Fixpoint after_cycles (e : Env) (n : nat) (w : World Config) (cycle : Z) : World Config :=
  match n with
  | O => w
  | S m => after_cycles e m (cycle_end e (polled w) cycle) (cycle + 1)
  end.

(** The world at the end of a round whose sleep a signal cuts short after
    [j] seconds, the handler having run. *)
Definition cycle_cut (e : Env) (w : World Config) (cycle : Z) (j : nat) : World Config :=
  mkWorld (globals w) false
          (trace w
           ++ [EvStdout (CycleLine (cycle + 1) (temperature_at e w) (humidity_at e w))]
           ++ report_events e w (temperature_at e w) (humidity_at e w)
           ++ replicate j (EvSleep 1)
           ++ [shutdown_line e (n_time w + report_clock e w)])
          (S (n_time w + report_clock e w)) (S (n_init w))
          (n_perform w + report_performs e w)
          (n_signal w + S j) (S (S (n_rand w))) (S (n_sysinfo w)).

(** A panel that answers, and a signal that arrives before the third read
    of [running]. *)
Definition interrupted_env : Env :=
  mkEnv (fun n => 1700000000 + Z.of_nat n) (fun _ => true) (fun _ => 0)
        (fun n => Nat.eqb n 2)
        (fun n => Z.of_nat n) (fun _ => mkSysinfo 3600 1024 4096)
        (fun _ => None)
        (fun _ => ["{status:ok}"]).

End SensorShape.

(** * Properties *)

(** ** Running monadic code *)

Module Steps.
Import CInt Proc Common TraceSpec.
Local Open Scope string_scope.
Local Open Scope list_scope.
Local Open Scope Z_scope.

Lemma run_bind {G A B} (m : M G A) (k : A -> M G B) e w :
  (m ≫= k) e w =
  match m e w with Ret a w' => k a e w' | Halted h w' => Halted h w' end.
Proof. reflexivity. Qed.

Lemma run_ret {G A} (a : A) e (w : World G) : (mret a : M G A) e w = Ret a w.
Proof. reflexivity. Qed.

Lemma run_bind_ret {G A B} (m : M G A) (k : A -> M G B) e w a w' :
  m e w = Ret a w' -> (m ≫= k) e w = k a e w'.
Proof. intros H. rewrite run_bind, H. reflexivity. Qed.

Lemma run_bind_halted {G A B} (m : M G A) (k : A -> M G B) e w h w' :
  m e w = Halted h w' -> (m ≫= k) e w = Halted h w'.
Proof. intros H. rewrite run_bind, H. reflexivity. Qed.

Lemma load_ok {G} (a : list Z) i x e (w : World G) :
  0 <= i -> a !! Z.to_nat i = Some x -> load a i e w = Ret x w.
Proof. intros Hi Hx. unfold load. rewrite decide_True by done. rewrite Hx. reflexivity. Qed.

Lemma store_ok {G} (a : list Z) i v e (w : World G) :
  0 <= i < Z.of_nat (length a) -> store a i v e w = Ret (<[Z.to_nat i := v]> a) w.
Proof. intros Hi. unfold store. rewrite decide_True by done. reflexivity. Qed.

(** An index within the length of an array has an element. *)
Lemma lookup_in_array (a : list Z) (n : nat) i :
  length a = n -> 0 <= i < Z.of_nat n -> exists x, a !! Z.to_nat i = Some x.
Proof.
  intros Hlen Hi. apply lookup_lt_is_Some_2. lia.
Qed.

Lemma log_message_run {G} level msg e (w : World G) :
  log_message level msg e w =
  Ret tt (mkWorld (globals w) (running w)
                  (trace w ++ [EvLog (env_time e (n_time w)) level msg])
                  (S (n_time w)) (n_init w) (n_perform w) (n_signal w) (n_rand w)
                  (n_sysinfo w)).
Proof. reflexivity. Qed.

Lemma ret_world_eq {G A} (a : A) (g : G) r r' t t' nt nt' ni ni' np np' ns ns' nr nr' nsi nsi' :
  r = r' -> t = t' -> nt = nt' -> ni = ni' -> np = np' -> ns = ns' -> nr = nr' ->
  nsi = nsi' ->
  Ret a (mkWorld g r t nt ni np ns nr nsi) =
  Ret a (mkWorld g r' t' nt' ni' np' ns' nr' nsi').
Proof. intros. subst. reflexivity. Qed.

Ltac same_world :=
  apply ret_world_eq;
  first [ reflexivity | congruence | lia
        | cbn [app]; rewrite <- ?app_assoc, ?app_nil_r; reflexivity ].

(** Evaluation of straight-line code. *)
Ltac run_code :=
  repeat first
    [ rewrite run_bind
    | rewrite run_ret
    | rewrite log_message_run
    | progress cbn [emit get put modify set_running time rand sysinfo fopen
                    curl_easy_init halt
                    globals running trace n_time n_init n_perform n_signal n_rand
                    n_sysinfo negb final] ].

(** *** Transfers *)

Lemma receive_fault chunks :
  forall buffer h, Callback.receive chunks buffer = inl h -> reply_fault h.
Proof.
  induction chunks as [|chunk rest IH]; intros buffer h; cbn [Callback.receive];
    [discriminate|].
  unfold Callback.write_callback.
  repeat case_decide; try (intros [= <-]; unfold reply_fault; auto; fail).
  apply IH.
Qed.

Lemma transfer_fits e n : reply_fits e n -> transfer e n = inr (env_curl_easy_perform e n).
Proof.
  intros [buffer H]. unfold transfer. rewrite H. rewrite decide_True by reflexivity.
  reflexivity.
Qed.

Lemma transfer_fault e n h : transfer e n = inl h -> reply_fault h.
Proof.
  unfold transfer.
  destruct (Callback.receive (env_curl_reply e n) EmptyString) as [h'|[code buffer]] eqn:H;
    [|discriminate].
  intros [= <-]. eapply receive_fault. exact H.
Qed.

Lemma curl_easy_perform_final {G} req e (w : World G) :
  final (curl_easy_perform req e w) = performed req e w.
Proof. unfold curl_easy_perform. destruct (transfer e (n_perform w)); reflexivity. Qed.

Lemma curl_easy_perform_fits {G} req e (w : World G) :
  reply_fits e (n_perform w) ->
  curl_easy_perform req e w = Ret (env_curl_easy_perform e (n_perform w)) (performed req e w).
Proof.
  intros H. unfold curl_easy_perform. rewrite (transfer_fits _ _ H). reflexivity.
Qed.

(** A transfer returns, or the callback has run into undefined
    behaviour. *)
Lemma curl_easy_perform_cases {G} req e (w : World G) :
  (exists res, curl_easy_perform req e w = Ret res (performed req e w)) \/
  (exists h, reply_fault h /\ curl_easy_perform req e w = Halted h (performed req e w)).
Proof.
  unfold curl_easy_perform. destruct (transfer e (n_perform w)) as [h|res] eqn:H.
  - right. exists h. split; [eapply transfer_fault; exact H | reflexivity].
  - left. exists res. reflexivity.
Qed.

(** A transfer whose reply fits, and the two ways a transfer can end. *)
Ltac perform_fits H :=
  match goal with
  | |- context [curl_easy_perform ?req ?e ?w1] =>
      rewrite (curl_easy_perform_fits req e w1 H); unfold performed
  end.

Ltac perform_cases :=
  match goal with
  | |- context [curl_easy_perform ?req ?e ?w1] =>
      let res := fresh "res" in
      let h := fresh "h" in
      let Hh := fresh "Hfault" in
      let Hc := fresh "Hperform" in
      destruct (curl_easy_perform_cases req e w1) as [[res Hc]|(h & Hh & Hc)];
      rewrite Hc; unfold performed
  end.

Section Appends.
Context {G : Type} (Q : Event -> Prop).

Lemma appends_same {A} (m : M G A) :
  (forall e w, trace (final (m e w)) = trace w) -> appends Q m.
Proof.
  intros H e w. exists []. rewrite app_nil_r. split; [apply H | constructor].
Qed.

Lemma appends_ret {A} (a : A) : appends Q (mret a : M G A).
Proof. apply appends_same. reflexivity. Qed.

Lemma appends_halt {A} h : appends Q (halt h : M G A).
Proof. apply appends_same. reflexivity. Qed.

Lemma appends_bind {A B} (m : M G A) (k : A -> M G B) :
  appends Q m -> (forall a, appends Q (k a)) -> appends Q (m ≫= k).
Proof.
  intros Hm Hk e w. rewrite run_bind.
  destruct (Hm e w) as (t1 & Ht1 & HQ1).
  destruct (m e w) as [a w1|h w1]; cbn [final] in *.
  - destruct (Hk a e w1) as (t2 & Ht2 & HQ2).
    exists (t1 ++ t2). rewrite Ht2, Ht1, app_assoc. split; [reflexivity|].
    apply Forall_app. split; assumption.
  - exists t1. split; assumption.
Qed.

Lemma appends_emit ev : Q ev -> appends Q (emit ev : M G unit).
Proof.
  intros H e w. exists [ev]. split; [reflexivity|]. repeat constructor. exact H.
Qed.

Lemma appends_get : appends Q (get : M G G).
Proof. apply appends_same. reflexivity. Qed.

Lemma appends_put g : appends Q (put g : M G unit).
Proof. apply appends_same. reflexivity. Qed.

Lemma appends_modify f : appends Q (modify f : M G unit).
Proof. apply appends_same. reflexivity. Qed.

Lemma appends_set_running b : appends Q (set_running b : M G unit).
Proof. apply appends_same. reflexivity. Qed.

Lemma appends_time : appends Q (time : M G Z).
Proof. apply appends_same. reflexivity. Qed.

Lemma appends_rand : appends Q (rand : M G Z).
Proof. apply appends_same. reflexivity. Qed.

Lemma appends_sysinfo : appends Q (sysinfo : M G Sysinfo).
Proof. apply appends_same. reflexivity. Qed.

Lemma appends_fopen f : appends Q (fopen f : M G (option string)).
Proof. apply appends_same. reflexivity. Qed.

Lemma appends_load a i : appends Q (load a i : M G Z).
Proof.
  apply appends_same. intros e w. unfold load.
  destruct (if decide (0 <= i) then a !! Z.to_nat i else None); reflexivity.
Qed.

Lemma appends_store a i v : appends Q (store a i v : M G (list Z)).
Proof.
  apply appends_same. intros e w. unfold store. case_decide; reflexivity.
Qed.

Lemma appends_curl_easy_init :
  (forall ok, Q (EvCurlEasyInit ok)) -> appends Q (curl_easy_init : M G bool).
Proof.
  intros H e w. eexists [_]. split; [reflexivity|]. repeat constructor. apply H.
Qed.

Lemma appends_curl_easy_perform req :
  (forall res, Q (EvCurlPerform req res)) -> appends Q (curl_easy_perform req : M G Z).
Proof.
  intros H e w. rewrite curl_easy_perform_final.
  eexists [_]. split; [reflexivity|]. repeat constructor. apply H.
Qed.

Lemma appends_log_message level msg :
  (forall ts, Q (EvLog ts level msg)) -> appends Q (log_message level msg : M G unit).
Proof.
  intros H e w. eexists [_]. split; [reflexivity|]. repeat constructor. apply H.
Qed.

Lemma appends_read_running :
  (forall ts, Q (EvLog ts "INFO" (Literal "Received shutdown signal"))) ->
  appends Q (read_running : M G bool).
Proof.
  intros H e w. unfold read_running.
  destruct (env_signal e (n_signal w)).
  - eexists [_]. split; [reflexivity|]. repeat constructor. apply H.
  - exists []. rewrite app_nil_r. split; [reflexivity | constructor].
Qed.

Lemma appends_for_from (body : Z -> M G unit) rounds :
  (forall i, appends Q (body i)) -> forall i0, appends Q (for_from rounds i0 body).
Proof.
  intros Hb. induction rounds as [|n IH]; intros i0; cbn [for_from].
  - apply appends_ret.
  - apply appends_bind; [apply Hb | intros _; apply IH].
Qed.

End Appends.

Lemma count_app f t1 t2 : count f (t1 ++ t2) = (count f t1 + count f t2)%nat.
Proof. induction t1 as [|ev t1 IH]; cbn; [reflexivity | rewrite IH; lia]. Qed.

Lemma count_none f t : Forall (fun ev => f ev = false) t -> count f t = 0%nat.
Proof.
  induction 1 as [|ev t Hev _ IH]; cbn; [reflexivity | rewrite Hev, IH; reflexivity].
Qed.

(** One step of a proof that a piece of code appends only [Q] events. *)
Ltac appends_step :=
  lazymatch goal with
  | |- appends _ (_ ≫= _) => apply appends_bind; [|intros ?]
  | |- appends _ (mret _) => apply appends_ret
  | |- appends _ (halt _) => apply appends_halt
  | |- appends _ (emit _) => apply appends_emit; reflexivity
  | |- appends _ get => apply appends_get
  | |- appends _ (put _) => apply appends_put
  | |- appends _ (modify _) => apply appends_modify
  | |- appends _ (set_running _) => apply appends_set_running
  | |- appends _ time => apply appends_time
  | |- appends _ rand => apply appends_rand
  | |- appends _ sysinfo => apply appends_sysinfo
  | |- appends _ (fopen _) => apply appends_fopen
  | |- appends _ (load _ _) => apply appends_load
  | |- appends _ (store _ _ _) => apply appends_store
  | |- appends _ curl_easy_init => apply appends_curl_easy_init; reflexivity
  | |- appends _ (curl_easy_perform _) => apply appends_curl_easy_perform; reflexivity
  | |- appends _ (log_message _ _) => apply appends_log_message; reflexivity
  | |- appends _ read_running => apply appends_read_running; reflexivity
  | |- appends _ (for_from _ _ _) => apply appends_for_from; intros ?
  | |- appends _ (for_upto _ _) => apply appends_for_from; intros ?
  | |- appends _ (if ?b then _ else _) => destruct b
  | |- appends _ (match ?x with _ => _ end) => destruct x
  end.

Ltac appends_auto := repeat appends_step.

End Steps.

(** ** Lines and scans *)

Module TextFacts.
Import CInt CLib Proc ConfigShape.
Local Open Scope string_scope.
Local Open Scope list_scope.
Local Open Scope Z_scope.

Lemma append_assoc s1 s2 s3 :
  String.append (String.append s1 s2) s3 = String.append s1 (String.append s2 s3).
Proof. induction s1 as [|c s1 IH]; cbn; [reflexivity | rewrite IH; reflexivity]. Qed.

Lemma has_char_append c s1 s2 :
  has_char c (String.append s1 s2) = has_char c s1 || has_char c s2.
Proof.
  induction s1 as [|a s1 IH]; cbn; [reflexivity|]. rewrite IH, orb_assoc. reflexivity.
Qed.

Lemma fgets_from_append cap t1 t2 :
  forall room acc,
    ends_with_newline t1 = true ->
    fgets_from cap room acc (String.append t1 t2) =
    fgets_from cap room acc t1 ++ fgets_from cap cap [] t2.
Proof.
  induction t1 as [|c r IH]; intros room acc Hend; [discriminate|].
  destruct r as [|c' r'].
  - cbn in Hend. cbn. rewrite Hend. cbn. reflexivity.
  - assert (ends_with_newline (String c' r') = true) as Hend' by exact Hend.
    change (String.append (String c (String c' r')) t2)
      with (String c (String.append (String c' r') t2)).
    cbn [fgets_from].
    destruct (is_newline c || (room <=? 1)%nat).
    + rewrite IH by exact Hend'. reflexivity.
    + apply IH. exact Hend'.
Qed.

Lemma cstr_nul_free s : has_char "000"%char s = false -> cstr s = s.
Proof.
  induction s as [|c s IH]; cbn; [reflexivity|]. intros H.
  apply orb_false_iff in H as [Hc Hs]. unfold is_nul. rewrite Hc, IH by exact Hs.
  reflexivity.
Qed.

(** A scanset [%n[^d]] stops at the first [d]. *)
Lemma scanset_until d s rest :
  forall limit,
    (String.length s <= limit)%nat ->
    has_char d s = false ->
    scanset limit (fun c => negb (Ascii.eqb c d)) (String.append s (String d rest)) =
    (s, String d rest).
Proof.
  induction s as [|c s IH]; intros limit Hlen Hno.
  - cbn [String.append]. destruct limit; cbn; [reflexivity|].
    rewrite Ascii.eqb_refl. reflexivity.
  - cbn in Hno. apply orb_false_iff in Hno as [Hc Hs].
    destruct limit as [|limit]; [cbn in Hlen; lia|]. cbn [String.append scanset].
    rewrite Hc. cbn [negb]. rewrite IH by (cbn in Hlen; lia || exact Hs). reflexivity.
Qed.

(** One line that fits the buffer is one [fgets] result. *)
Lemma fgets_from_line cap line :
  forall room acc,
    has_char "010"%char line = false ->
    (String.length line < room)%nat ->
    fgets_from cap room acc (String.append line (String "010"%char EmptyString)) =
    [string_of_list_ascii (rev acc ++ list_ascii_of_string line ++ ["010"%char])].
Proof.
  induction line as [|c line IH]; intros room acc Hno Hroom.
  - cbn. reflexivity.
  - cbn in Hno. apply orb_false_iff in Hno as [Hc Hs]. cbn in Hroom.
    cbn [String.append fgets_from]. unfold is_newline. rewrite Hc. cbn [orb].
    destruct (Nat.leb_spec room 1) as [Hle|Hgt]; [lia|].
    rewrite IH by (exact Hs || lia). cbn [rev list_ascii_of_string].
    rewrite <- !app_assoc. reflexivity.
Qed.

Lemma string_of_list_ascii_app l1 l2 :
  string_of_list_ascii (l1 ++ l2) =
  String.append (string_of_list_ascii l1) (string_of_list_ascii l2).
Proof. induction l1 as [|a l1 IH]; cbn; [reflexivity | rewrite IH; reflexivity]. Qed.

(** What [fgets] hands over for a text that ends with the line
    [key=value]. *)
Lemma fgets_all_last_line size before line :
  before = EmptyString \/ ends_with_newline before = true ->
  has_char "010"%char line = false ->
  (String.length line < size - 1)%nat ->
  fgets_all size (String.append before (String.append line (String "010"%char EmptyString))) =
  fgets_all size before ++ [String.append line (String "010"%char EmptyString)].
Proof.
  intros Hbefore Hno Hlen. unfold fgets_all.
  assert (fgets_from (size - 1) (size - 1) []
            (String.append line (String "010"%char EmptyString)) =
          [String.append line (String "010"%char EmptyString)]) as Hline.
  { rewrite fgets_from_line by assumption. cbn [rev app].
    rewrite string_of_list_ascii_app, string_of_list_ascii_of_string. reflexivity. }
  destruct Hbefore as [-> | Hend].
  - cbn [String.append]. rewrite Hline. reflexivity.
  - rewrite fgets_from_append by exact Hend. rewrite Hline. reflexivity.
Qed.

Lemma ends_with_newline_append a b :
  ends_with_newline b = true -> ends_with_newline (String.append a b) = true.
Proof.
  intros Hb. induction a as [|c a IH]; [exact Hb|].
  cbn [String.append]. destruct (String.append a b) eqn:E; [discriminate IH | exact IH].
Qed.

Lemma ends_with_newline_line line :
  ends_with_newline (String.append line (String "010"%char EmptyString)) = true.
Proof. apply ends_with_newline_append. reflexivity. Qed.

(** What [fgets] hands over for a text that holds the line [line]. *)
Lemma fgets_all_line_inside size before line after :
  before = EmptyString \/ ends_with_newline before = true ->
  has_char "010"%char line = false ->
  (String.length line < size - 1)%nat ->
  fgets_all size (String.append before (String.append line (String "010"%char after))) =
  fgets_all size before ++ [String.append line (String "010"%char EmptyString)]
    ++ fgets_all size after.
Proof.
  intros Hbefore Hno Hlen.
  replace (String.append before (String.append line (String "010"%char after)))
    with (String.append
            (String.append before (String.append line (String "010"%char EmptyString)))
            after)
    by (rewrite !append_assoc; reflexivity).
  unfold fgets_all at 1.
  rewrite fgets_from_append by (apply ends_with_newline_append, ends_with_newline_line).
  fold (fgets_all size (String.append before
                          (String.append line (String "010"%char EmptyString)))).
  fold (fgets_all size after).
  rewrite fgets_all_last_line by assumption. rewrite <- app_assoc. reflexivity.
Qed.

(** [sscanf] on the line [key=value]. *)
Lemma sscanf_assignment key value :
  key <> EmptyString -> (String.length key <= 63)%nat -> has_char "="%char key = false ->
  plain_value value ->
  sscanf_key_value
    (String.append key (String "="%char (String.append value (String "010"%char EmptyString)))) =
  Some (key, value).
Proof.
  intros Hkey Hlen Hno (Hvalue & Hvlen & Hvno & _). unfold sscanf_key_value.
  rewrite scanset_until by assumption.
  destruct key as [|k0 key]; [contradiction|].
  change (fun c : ascii => negb (is_newline c))
    with (fun c : ascii => negb (Ascii.eqb c "010"%char)).
  rewrite scanset_until by assumption.
  destruct value as [|v0 value]; [contradiction|]. reflexivity.
Qed.

End TextFacts.

(** ** The switch state: [set_switch], [get_switch], [execute_command] *)

Module SwitchFacts.
Import CInt CLib Proc Common Switch TraceSpec SwitchSpec Samples ConfigShape Steps TextFacts.
Local Open Scope string_scope.
Local Open Scope list_scope.
Local Open Scope Z_scope.

Lemma valid_in_array g ch :
  state_ok g -> valid g ch -> 0 <= ch < 4.
Proof. unfold state_ok, valid, MAX_CHANNELS. lia. Qed.

Lemma set_switch_out_of_range e (w : World Globals) ch v :
  ch < 0 \/ ch >= num_channels (config (globals w)) ->
  set_switch ch v e w = Ret tt w.
Proof.
  intros H. unfold set_switch. rewrite run_bind. cbn.
  rewrite decide_True by done. reflexivity.
Qed.

Lemma get_switch_out_of_range e (w : World Globals) ch :
  ch < 0 \/ ch >= num_channels (config (globals w)) ->
  get_switch ch e w = Ret 0 w.
Proof.
  intros H. unfold get_switch. rewrite run_bind. cbn.
  rewrite decide_True by done. reflexivity.
Qed.

Lemma get_switch_valid e (w : World Globals) ch x :
  valid (globals w) ch ->
  channel (switch_state (globals w)) !! Z.to_nat ch = Some x ->
  get_switch ch e w = Ret x w.
Proof.
  intros Hv Hx. unfold get_switch. rewrite run_bind. cbn.
  rewrite decide_False by (unfold valid in Hv; lia).
  apply load_ok; [unfold valid in Hv; lia | done].
Qed.

Lemma set_switch_same e (w : World Globals) ch v :
  valid (globals w) ch ->
  channel (switch_state (globals w)) !! Z.to_nat ch = Some v ->
  set_switch ch v e w = Ret tt w.
Proof.
  intros Hv Hx. unfold set_switch. rewrite run_bind. cbn.
  rewrite decide_False by (unfold valid in Hv; lia).
  rewrite (run_bind_ret _ _ _ _ v w) by (apply load_ok; [unfold valid in Hv; lia | done]).
  rewrite decide_False by (intros Hne; apply Hne; reflexivity).
  reflexivity.
Qed.

Lemma set_switch_change e (w : World Globals) ch v cur count :
  state_ok (globals w) ->
  valid (globals w) ch ->
  channel (switch_state (globals w)) !! Z.to_nat ch = Some cur ->
  toggle_count (switch_state (globals w)) !! Z.to_nat ch = Some count ->
  cur <> v ->
  exists w',
    set_switch ch v e w = Ret tt w' /\
    globals w' =
      mkGlobals (config (globals w))
                (written (switch_state (globals w)) ch v (env_time e (n_time w)) count)
                (last_report (globals w)) /\
    running w' = running w /\
    n_init w' = n_init w /\ n_perform w' = n_perform w /\
    trace w' =
      trace w ++
      (if truthy (verbose (config (globals w)))
       then [EvLog (env_time e (S (n_time w))) "INFO" (MsgChannel ch (truthy v))]
       else []).
Proof.
  intros [(Hc & Hl & Ht) HN] Hv Hcur Hcount Hne.
  pose proof (valid_in_array _ _ (conj (conj Hc (conj Hl Ht)) HN) Hv) as Hch.
  unfold MAX_CHANNELS in *. simpl Z.to_nat in *.
  unfold set_switch. rewrite run_bind. cbn.
  rewrite decide_False by (unfold valid in Hv; lia).
  rewrite (run_bind_ret _ _ _ _ cur w) by (apply load_ok; [lia | done]).
  rewrite decide_True by done.
  rewrite (run_bind_ret _ _ _ _ _ w) by (apply store_ok; lia).
  rewrite run_bind. cbn.
  rewrite (run_bind_ret _ _ _ _ _ _) by (apply store_ok; cbn; lia).
  rewrite (run_bind_ret _ _ _ _ count _) by (apply load_ok; [lia | done]).
  rewrite (run_bind_ret _ _ _ _ _ _) by (apply store_ok; cbn; lia).
  rewrite run_bind. cbn.
  destruct (truthy (verbose (config (globals w)))); cbn.
  - eexists. split; [reflexivity|]. cbn. rewrite ?app_nil_r. repeat split; reflexivity.
  - eexists. split; [reflexivity|]. cbn. rewrite ?app_nil_r. repeat split; reflexivity.
Qed.

Lemma counts_step_refl T s : counts_step T s s.
Proof. intros i c H. left. exact H. Qed.

Lemma counts_step_weaken (T T' : nat -> Prop) s s' :
  (forall i, T i -> T' i) -> counts_step T s s' -> counts_step T' s s'.
Proof.
  intros HT H i c Hc. destruct (H i c Hc) as [?|[? ?]]; [left|right]; auto.
Qed.

Lemma counts_step_trans (T1 T2 T : nat -> Prop) s s1 s2 :
  (forall i, T1 i -> T2 i -> False) ->
  (forall i, T1 i \/ T2 i -> T i) ->
  counts_step T1 s s1 -> counts_step T2 s1 s2 -> counts_step T s s2.
Proof.
  intros Hdis HT H1 H2 i c Hc.
  destruct (H1 i c Hc) as [Hsame|[Ht1 Hup]].
  - destruct (H2 i c Hsame) as [?|[? ?]]; [left|right]; auto.
  - destruct (H2 i _ Hup) as [?|[Ht2 _]].
    + right. auto.
    + exfalso. eauto.
Qed.

Lemma op_post_refl T w : state_ok (globals w) -> op_post T w w.
Proof. intros H. split; [exact H|]. split; [reflexivity|apply counts_step_refl]. Qed.

Lemma op_post_trans (T1 T2 T : nat -> Prop) w w1 w2 :
  (forall i, T1 i -> T2 i -> False) ->
  (forall i, T1 i \/ T2 i -> T i) ->
  op_post T1 w w1 -> op_post T2 w1 w2 -> op_post T w w2.
Proof.
  intros Hdis HT (_ & Hc1 & Hs1) (Hok & Hc2 & Hs2).
  split; [exact Hok|]. split; [congruence|].
  eapply counts_step_trans; eauto.
Qed.

Lemma written_ok s ch v now count :
  arrays_ok s -> arrays_ok (written s ch v now count).
Proof.
  unfold arrays_ok, written. cbn. rewrite !length_insert. auto.
Qed.

Lemma set_switch_post e (w : World Globals) ch v :
  state_ok (globals w) ->
  exists w', set_switch ch v e w = Ret tt w' /\ op_post (eq (Z.to_nat ch)) w w'.
Proof.
  intros Hok.
  destruct (decide (ch < 0 \/ ch >= num_channels (config (globals w)))) as [Hout|Hin].
  { exists w. split; [by apply set_switch_out_of_range | by apply op_post_refl]. }
  assert (valid (globals w) ch) as Hv by (unfold valid; lia).
  pose proof (valid_in_array _ _ Hok Hv) as Hch.
  destruct Hok as [(Hc & Hl & Ht) HN].
  destruct (lookup_in_array (channel (switch_state (globals w))) 4 ch Hc) as [cur Hcur]; [lia|].
  destruct (lookup_in_array (toggle_count (switch_state (globals w))) 4 ch Ht) as [count Hcount]; [lia|].
  destruct (decide (cur = v)) as [->|Hne].
  { exists w. split; [by apply set_switch_same |].
    apply op_post_refl. by repeat split. }
  destruct (set_switch_change e w ch v cur count) as (w' & Hrun & Hg & _); try done.
  exists w'. split; [exact Hrun|]. unfold op_post, state_ok. rewrite Hg. cbn.
  split; [split; [by apply written_ok | done]|]. split; [done|].
  intros i c Hi. unfold written. cbn.
  destruct (decide (i = Z.to_nat ch)) as [->|Hi'].
  - right. split; [done|]. rewrite Hcount in Hi. injection Hi as <-.
    apply list_lookup_insert_eq. lia.
  - left. rewrite list_lookup_insert_ne by done. exact Hi.
Qed.

Lemma get_switch_total e (w : World Globals) ch :
  state_ok (globals w) ->
  exists x, get_switch ch e w = Ret x w /\
    (valid (globals w) ch -> channel (switch_state (globals w)) !! Z.to_nat ch = Some x) /\
    (~ valid (globals w) ch -> x = 0).
Proof.
  intros Hok.
  destruct (decide (ch < 0 \/ ch >= num_channels (config (globals w)))) as [Hout|Hin].
  { exists 0. split; [by apply get_switch_out_of_range|]. unfold valid. split; [lia|done]. }
  assert (valid (globals w) ch) as Hv by (unfold valid; lia).
  pose proof (valid_in_array _ _ Hok Hv) as Hch.
  destruct Hok as [(Hc & _) _].
  destruct (lookup_in_array (channel (switch_state (globals w))) 4 ch Hc) as [cur Hcur]; [lia|].
  exists cur. split; [by apply get_switch_valid|]. split; [done|]. intros Hn. by destruct Hn.
Qed.

Lemma toggle_switch_post e (w : World Globals) ch :
  state_ok (globals w) ->
  exists w', toggle_switch ch e w = Ret tt w' /\ op_post (eq (Z.to_nat ch)) w w'.
Proof.
  intros Hok. unfold toggle_switch.
  destruct (get_switch_total e w ch Hok) as (x & Hget & _).
  rewrite (run_bind_ret _ _ _ _ _ _ Hget).
  by apply set_switch_post.
Qed.

Lemma for_set_switch_post e v rounds :
  forall i0 (w : World Globals),
    0 <= i0 -> state_ok (globals w) ->
    exists w', for_from rounds i0 (fun i => set_switch i v) e w = Ret tt w' /\
               op_post (fun i => (Z.to_nat i0 <= i)%nat) w w'.
Proof.
  induction rounds as [|n IH]; intros i0 w Hi0 Hok.
  - exists w. split; [reflexivity | by apply op_post_refl].
  - cbn [for_from].
    destruct (set_switch_post e w i0 v Hok) as (w1 & Hrun1 & Hpost1).
    rewrite (run_bind_ret _ _ _ _ _ _ Hrun1).
    destruct (IH (i0 + 1) w1) as (w2 & Hrun2 & Hpost2); [lia | apply Hpost1 |].
    exists w2. split; [exact Hrun2|].
    eapply op_post_trans; [| | exact Hpost1 | exact Hpost2]; cbn; intros i; lia.
Qed.

Lemma status_rows_run e rounds :
  forall i0 (w : World Globals),
    0 <= i0 -> i0 + Z.of_nat rounds <= 4 -> arrays_ok (switch_state (globals w)) ->
    exists w',
      for_from rounds i0 (fun i =>
        g ← get;
        state ← load (channel (switch_state g)) i;
        count ← load (toggle_count (switch_state g)) i;
        emit (EvStdout (StatusRow i state count))) e w = Ret tt w' /\
      globals w' = globals w.
Proof.
  induction rounds as [|n IH]; intros i0 w Hi0 Hle Harr.
  - exists w. split; reflexivity.
  - cbn [for_from]. rewrite run_bind. rewrite run_bind. cbn [get].
    pose proof Harr as (Hc & _ & Ht).
    destruct (lookup_in_array (channel (switch_state (globals w))) 4 i0 Hc) as [x Hx]; [lia|].
    destruct (lookup_in_array (toggle_count (switch_state (globals w))) 4 i0 Ht) as [c Hcnt]; [lia|].
    rewrite (run_bind_ret _ _ _ _ x w) by (apply load_ok; [lia|done]).
    rewrite (run_bind_ret _ _ _ _ c w) by (apply load_ok; [lia|done]).
    cbn [emit].
    match goal with |- context [for_from n (i0 + 1) ?b e ?w1] =>
      destruct (IH (i0 + 1) w1) as (w2 & Hrun & Hg) end; [lia | lia | exact Harr |].
    exists w2. split; [exact Hrun | exact Hg].
Qed.

Lemma print_status_run e (w : World Globals) :
  state_ok (globals w) ->
  exists w', print_status e w = Ret tt w' /\ globals w' = globals w.
Proof.
  intros [Harr HN]. unfold print_status, for_upto.
  rewrite run_bind. cbn [emit]. rewrite run_bind. cbn [get globals].
  rewrite run_bind.
  match goal with |- context [for_from ?r 0 ?b e ?w1] =>
    destruct (status_rows_run e r 0 w1) as (w2 & Hrun & Hg) end;
    [lia | unfold MAX_CHANNELS in HN; lia | exact Harr |].
  rewrite Hrun. cbn [emit]. eexists. split; [reflexivity|]. cbn. exact Hg.
Qed.

Lemma op_post_any (T : nat -> Prop) w w' : op_post T w w' -> op_post (fun _ => True) w w'.
Proof.
  intros (Hok & Hc & Hs). split; [exact Hok|]. split; [exact Hc|].
  eapply counts_step_weaken; [|exact Hs]. auto.
Qed.

Lemma op_post_globals (T : nat -> Prop) (w w0 w' : World Globals) :
  globals w0 = globals w -> op_post T w0 w' -> op_post T w w'.
Proof. unfold op_post. intros <-. auto. Qed.

Lemma execute_command_post e (w : World Globals) command ch :
  state_ok (globals w) ->
  exists w', execute_command command ch e w = Ret tt w' /\ op_post (fun _ => True) w w'.
Proof.
  intros Hok. unfold execute_command.
  rewrite run_bind, log_message_run.
  set (w0 := mkWorld _ _ _ _ _ _ _ _ _).
  assert (globals w0 = globals w) as Hg0 by reflexivity.
  assert (state_ok (globals w0)) as Hok0 by (rewrite Hg0; exact Hok).
  destruct (String.eqb command "on").
  { destruct (set_switch_post e w0 ch 1 Hok0) as (w' & Hrun & Hp).
    exists w'. split; [exact Hrun|]. eapply op_post_globals, op_post_any; eauto. }
  destruct (String.eqb command "off").
  { destruct (set_switch_post e w0 ch 0 Hok0) as (w' & Hrun & Hp).
    exists w'. split; [exact Hrun|]. eapply op_post_globals, op_post_any; eauto. }
  destruct (String.eqb command "toggle").
  { destruct (toggle_switch_post e w0 ch Hok0) as (w' & Hrun & Hp).
    exists w'. split; [exact Hrun|]. eapply op_post_globals, op_post_any; eauto. }
  destruct (String.eqb command "status").
  { destruct (print_status_run e w0 Hok0) as (w' & Hrun & Hg).
    exists w'. split; [exact Hrun|]. eapply op_post_globals; [exact Hg0|].
    unfold op_post. rewrite Hg. split; [exact Hok0|]. split; [reflexivity|].
    apply counts_step_refl. }
  destruct (String.eqb command "all_on").
  { rewrite run_bind. cbn [get]. unfold for_upto.
    destruct (for_set_switch_post e 1 (Z.to_nat (num_channels (config (globals w0)))) 0 w0)
      as (w' & Hrun & Hp); [lia | exact Hok0 |].
    exists w'. split; [exact Hrun|]. eapply op_post_globals, op_post_any; eauto. }
  destruct (String.eqb command "all_off").
  { rewrite run_bind. cbn [get]. unfold for_upto.
    destruct (for_set_switch_post e 0 (Z.to_nat (num_channels (config (globals w0)))) 0 w0)
      as (w' & Hrun & Hp); [lia | exact Hok0 |].
    exists w'. split; [exact Hrun|]. eapply op_post_globals, op_post_any; eauto. }
  exists w0. split; [reflexivity|]. eapply op_post_globals; [exact Hg0|].
  by apply op_post_refl.
Qed.

Lemma channels_data_run e rounds :
  forall i0 acc (w : World Globals),
    state_ok (globals w) ->
    exists l, channels_data rounds i0 acc e w = Ret l w.
Proof.
  induction rounds as [|n IH]; intros i0 acc w Hok.
  - exists acc. reflexivity.
  - cbn [channels_data].
    destruct (get_switch_total e w i0 Hok) as (x & Hget & _).
    rewrite (run_bind_ret _ _ _ _ _ _ Hget). apply IH, Hok.
Qed.

Lemma report_status_run e (w : World Globals) c0 c1 :
  state_ok (globals w) ->
  toggle_count (switch_state (globals w)) !! 0%nat = Some c0 ->
  toggle_count (switch_state (globals w)) !! 1%nat = Some c1 ->
  exists channels,
    globals (final (report_status e w)) = globals w /\
    trace (final (report_status e w)) =
      trace w ++ status_events e w channels (ulong (c0 + c1)) /\
    ((exists status, report_status e w = Ret status (final (report_status e w))) \/
     (exists h, reply_fault h /\
                report_status e w = Halted h (final (report_status e w)))) /\
    (env_curl_easy_init e (n_init w) = true -> reply_fits e (n_perform w) ->
     report_status e w =
     Ret (status_of (env_curl_easy_perform e (n_perform w))) (final (report_status e w))) /\
    (env_curl_easy_init e (n_init w) = false ->
     report_status e w = Ret (-1) (final (report_status e w))).
Proof.
  intros Hok H0 H1. unfold report_status.
  rewrite run_bind. cbn [get].
  destruct (channels_data_run e (Z.to_nat (num_channels (config (globals w)))) 0 [] w Hok)
    as (l & Hl).
  rewrite (run_bind_ret _ _ _ _ _ _ Hl).
  rewrite (run_bind_ret _ _ _ _ c0 w) by (apply load_ok; [lia|exact H0]).
  rewrite (run_bind_ret _ _ _ _ c1 w) by (apply load_ok; [lia|exact H1]).
  rewrite run_bind. unfold status_events. cbn [curl_easy_init].
  exists l. destruct (env_curl_easy_init e (n_init w)); cbn [negb].
  - rewrite run_bind.
    match goal with |- context [curl_easy_perform ?req e ?w1] =>
      pose proof (curl_easy_perform_final req e w1) as Hfin;
      pose proof (curl_easy_perform_cases req e w1) as Hcases;
      pose proof (curl_easy_perform_fits req e w1) as Hfits;
      destruct (curl_easy_perform req e w1) as [res w2|h w2] end;
      cbn [final] in *; subst w2; rewrite ?run_ret; unfold performed in *;
      cbn [final globals trace n_perform] in *.
    + split; [reflexivity|]. split; [rewrite <- app_assoc; reflexivity|].
      split; [left; eexists; reflexivity|]. split; [|discriminate].
      intros _ Hreply. specialize (Hfits Hreply). injection Hfits as ->. reflexivity.
    + split; [reflexivity|]. split; [rewrite <- app_assoc; reflexivity|].
      destruct Hcases as [[res Hres]|(h' & Hh & Heq)]; [discriminate|].
      injection Heq as ->.
      split; [right; eexists; split; [exact Hh | reflexivity]|]. split; [|discriminate].
      intros _ Hreply. specialize (Hfits Hreply). discriminate.
  - cbn. split; [reflexivity|]. split; [reflexivity|].
    split; [left; eexists; reflexivity|]. split; [discriminate | reflexivity].
Qed.

Lemma op_post_same (w w' : World Globals) :
  state_ok (globals w) -> globals w' = globals w -> op_post (fun _ => True) w w'.
Proof.
  intros Hok Hg. unfold op_post. rewrite Hg.
  split; [exact Hok|]. split; [reflexivity | apply counts_step_refl].
Qed.

(** Every operation returns, but for a report whose reply does not fit
    [response]. *)
Lemma run_op_post e (w : World Globals) op :
  state_ok (globals w) ->
  match run_op op e w with
  | Ret _ w' => op_post (fun _ => True) w w'
  | Halted h w' => op = OpReport /\ reply_fault h /\ globals w' = globals w
  end.
Proof.
  intros Hok. destruct op as [ch v|ch|ch| | |command ch]; cbn [run_op].
  - destruct (set_switch_post e w ch v Hok) as (w' & Hrun & Hp).
    rewrite Hrun. by eapply op_post_any.
  - destruct (get_switch_total e w ch Hok) as (x & Hrun & _).
    rewrite (run_bind_ret _ _ _ _ _ _ Hrun). by apply op_post_refl.
  - destruct (toggle_switch_post e w ch Hok) as (w' & Hrun & Hp).
    rewrite Hrun. by eapply op_post_any.
  - destruct (print_status_run e w Hok) as (w' & Hrun & Hg).
    rewrite Hrun. by apply op_post_same.
  - pose proof Hok as [(_ & _ & Ht) _].
    destruct (lookup_in_array (toggle_count (switch_state (globals w))) 4 0 Ht) as [c0 H0]; [lia|].
    destruct (lookup_in_array (toggle_count (switch_state (globals w))) 4 1 Ht) as [c1 H1]; [lia|].
    destruct (report_status_run e w c0 c1 Hok H0 H1) as (l & Hg & _ & Hcases & _).
    rewrite run_bind.
    destruct Hcases as [[status Hrun]|(h & Hh & Hrun)]; rewrite Hrun.
    + by apply op_post_same.
    + auto.
  - destruct (execute_command_post e w command ch Hok) as (w' & Hrun & Hp).
    rewrite Hrun. exact Hp.
Qed.

Lemma ulong_succ c : 0 <= c < ULONG_MODULUS - 1 -> ulong (c + 1) = c + 1.
Proof. intros H. unfold ulong. apply Z.mod_small. lia. Qed.

(** Along any run of operations the counter of a channel does not go down,
    as long as the run is too short to reach [ULONG_MAX]. *)
Lemma toggle_count_along_a_run e ops :
  forall (w : World Globals) i c,
    state_ok (globals w) ->
    toggle_count (switch_state (globals w)) !! i = Some c ->
    0 <= c -> c + Z.of_nat (length ops) < ULONG_MODULUS ->
    exists c',
      toggle_count (switch_state (globals (final (run_ops ops e w)))) !! i = Some c' /\
      c <= c' <= c + Z.of_nat (length ops).
Proof.
  induction ops as [|op ops IH]; intros w i c Hok Hc H0 Hlen.
  - exists c. split; [exact Hc | cbn; lia].
  - cbn [run_ops]. cbn [length] in Hlen. rewrite run_bind.
    pose proof (run_op_post e w op Hok) as Hpost.
    destruct (run_op op e w) as [[] w1|h w1].
    + destruct Hpost as (Hok1 & _ & Hstep).
      destruct (Hstep _ _ Hc) as [Hsame|[_ Hup]].
      * destruct (IH w1 i c Hok1 Hsame H0) as (c' & Hc' & Hle); [lia|].
        exists c'. split; [exact Hc'|]. cbn [length]. lia.
      * rewrite ulong_succ in Hup by lia.
        destruct (IH w1 i (c + 1) Hok1 Hup) as (c' & Hc' & Hle); [lia | lia |].
        exists c'. split; [exact Hc'|]. cbn [length]. lia.
    + destruct Hpost as (_ & _ & Hg). cbn [final]. rewrite Hg.
      exists c. split; [exact Hc|]. cbn [length]. lia.
Qed.

(** Claim C3, as amended.  While [toggle_count[i]] is below [ULONG_MAX], no
    operation on the switch state lowers it or raises it by more than one,
    however the operation ends; every operation returns, a report provided
    that the reply of the panel fits [response]; and a [set_switch] that
    changes the stored value of channel [i] raises the counter by exactly
    one, but for a counter at [ULONG_MAX], which it takes to 0. *)
Theorem toggle_count_steps_up_below_wrap e (w : World Globals) i c :
  state_ok (globals w) ->
  valid (globals w) i ->
  toggle_count (switch_state (globals w)) !! Z.to_nat i = Some c ->
  0 <= c < ULONG_MODULUS ->
  (c < ULONG_MODULUS - 1 ->
   forall op, exists c',
      toggle_count (switch_state (globals (final (run_op op e w)))) !! Z.to_nat i = Some c' /\
      c <= c' <= c + 1) /\
  (forall op,
      (op = OpReport -> env_curl_easy_init e (n_init w) = true -> reply_fits e (n_perform w)) ->
      exists w', run_op op e w = Ret tt w') /\
  (forall state cur,
      channel (switch_state (globals w)) !! Z.to_nat i = Some cur ->
      cur <> state ->
      exists w',
        set_switch i state e w = Ret tt w' /\
        toggle_count (switch_state (globals w')) !! Z.to_nat i =
          Some (if decide (c = ULONG_MODULUS - 1) then 0 else c + 1)).
Proof.
  intros Hok Hv Hc Hrange. split; [|split].
  - intros Hbelow op. pose proof (run_op_post e w op Hok) as Hpost.
    destruct (run_op op e w) as [[] w'|h w']; cbn [final].
    + destruct Hpost as (_ & _ & Hstep).
      destruct (Hstep _ _ Hc) as [Hsame|[_ Hup]].
      * exists c. split; [exact Hsame | lia].
      * exists (c + 1). rewrite ulong_succ in Hup by lia. split; [exact Hup | lia].
    + destruct Hpost as (_ & _ & Hg). rewrite Hg. exists c. split; [exact Hc | lia].
  - intros op Hreply. pose proof (run_op_post e w op Hok) as Hpost.
    destruct (run_op op e w) as [[] w'|h w'] eqn:Hrun; [exists w'; reflexivity|].
    destruct Hpost as (-> & Hh & _). exfalso. cbn [run_op] in Hrun.
    pose proof Hok as [(_ & _ & Ht) _].
    destruct (lookup_in_array (toggle_count (switch_state (globals w))) 4 0 Ht) as [c0 H0]; [lia|].
    destruct (lookup_in_array (toggle_count (switch_state (globals w))) 4 1 Ht) as [c1 H1]; [lia|].
    destruct (report_status_run e w c0 c1 Hok H0 H1) as (l & _ & _ & _ & Hfits & Hnone).
    rewrite run_bind in Hrun.
    destruct (env_curl_easy_init e (n_init w)) eqn:Hinit.
    + rewrite (Hfits eq_refl (Hreply eq_refl eq_refl)) in Hrun. discriminate.
    + rewrite (Hnone eq_refl) in Hrun. discriminate.
  - intros state cur Hcur Hne.
    destruct (set_switch_change e w i state cur c Hok Hv Hcur Hc Hne) as (w' & Hrun & Hg & _).
    exists w'. split; [exact Hrun|]. rewrite Hg. cbn.
    rewrite list_lookup_insert_eq by (eapply lookup_lt_Some; exact Hc).
    f_equal. case_decide as Htop.
    + subst c. reflexivity.
    + apply ulong_succ. lia.
Qed.

Lemma four_off_ok : state_ok (globals four_off).
Proof. repeat split; cbn; unfold MAX_CHANNELS; lia. Defined.

(** [set_switch] and [get_switch] on a state that is known element by
    element. *)
Lemma set_switch_step e (w : World Globals) ch v cfg chs lts cnts lr cur count :
  globals w = mkGlobals cfg (mkSwitchState chs lts cnts) lr ->
  length chs = 4%nat -> length lts = 4%nat -> length cnts = 4%nat ->
  num_channels cfg <= 4 ->
  0 <= ch < num_channels cfg ->
  chs !! Z.to_nat ch = Some cur ->
  cnts !! Z.to_nat ch = Some count ->
  exists w' now,
    set_switch ch v e w = Ret tt w' /\
    globals w' =
      mkGlobals cfg
        (if decide (cur = v) then mkSwitchState chs lts cnts
         else mkSwitchState (<[Z.to_nat ch := v]> chs) (<[Z.to_nat ch := now]> lts)
                            (<[Z.to_nat ch := ulong (count + 1)]> cnts))
        lr.
Proof.
  intros Hg Hc Hl Ht HN Hch Hcur Hcount.
  assert (state_ok (globals w)) as Hok by (rewrite Hg; repeat split; assumption).
  assert (valid (globals w) ch) as Hv by (rewrite Hg; exact Hch).
  case_decide as Heq.
  - subst v. exists w, 0. split; [|exact Hg].
    apply set_switch_same; [exact Hv|]. rewrite Hg. exact Hcur.
  - destruct (set_switch_change e w ch v cur count Hok Hv) as (w' & Hrun & Hg' & _);
      [rewrite Hg; exact Hcur | rewrite Hg; exact Hcount | exact Heq |].
    exists w', (env_time e (n_time w)). split; [exact Hrun|].
    rewrite Hg'. rewrite Hg. reflexivity.
Qed.

Lemma get_switch_step e (w : World Globals) ch cfg chs lts cnts lr cur :
  globals w = mkGlobals cfg (mkSwitchState chs lts cnts) lr ->
  0 <= ch < num_channels cfg ->
  chs !! Z.to_nat ch = Some cur ->
  get_switch ch e w = Ret cur w.
Proof.
  intros Hg Hch Hcur. apply get_switch_valid; rewrite Hg; assumption.
Qed.

Ltac write_channel Hg :=
  let w' := fresh "w" in
  let now := fresh "now" in
  let Hrun := fresh "Hrun" in
  let Hg' := fresh "Hg" in
  let step e w ch v :=
    edestruct (set_switch_step e w ch v) as (w' & now & Hrun & Hg');
    [ exact Hg | reflexivity | reflexivity | reflexivity
    | cbn; lia | cbn; lia | reflexivity | reflexivity | ] in
  match goal with
  | |- context [(set_switch ?ch ?v ≫= ?k) ?e ?w] =>
      step e w ch v; rewrite (run_bind_ret _ _ _ _ _ _ Hrun)
  | |- context [set_switch ?ch ?v ?e ?w] =>
      step e w ch v; rewrite Hrun
  end;
  cbv beta iota;
  first [rewrite decide_False in Hg' by lia | rewrite decide_True in Hg' by lia];
  simpl in Hg'; clear Hrun.

Ltac log_command :=
  unfold execute_command; rewrite (run_bind_ret _ _ _ _ _ _ (log_message_run _ _ _ _));
  cbn [String.eqb Ascii.eqb Bool.eqb].

(** Claim C1.  From four channels that are off with all counters zero, the
    commands [on 2], [toggle 2], [off 2], [all_on] leave every channel on
    and [toggle_count[2]] at 3 (whatever the configuration besides
    [num_channels = 4], the clock and the earlier trace are). *)
Theorem scenario_on_toggle_off_all_on
    e id name url interval poll vb l0 l1 l2 l3 report run tr nt ni np ns nr nsi :
  let w := mkWorld (mkGlobals (mkConfig id name url interval poll 4 vb)
                              (mkSwitchState [0; 0; 0; 0] [l0; l1; l2; l3] [0; 0; 0; 0])
                              report)
                   run tr nt ni np ns nr nsi in
  exists w',
    (execute_command "on" 2;; execute_command "toggle" 2;;
     execute_command "off" 2;; execute_command "all_on" 0) e w = Ret tt w' /\
    channel (switch_state (globals w')) = [1; 1; 1; 1] /\
    toggle_count (switch_state (globals w')) !! 2%nat = Some 3 /\
    toggle_count (switch_state (globals w')) = [1; 1; 3; 1].
Proof.
  intros w.
  assert (globals w = mkGlobals (mkConfig id name url interval poll 4 vb)
                        (mkSwitchState [0; 0; 0; 0] [l0; l1; l2; l3] [0; 0; 0; 0]) report)
    as Hg by reflexivity.
  clearbody w.
  rewrite run_bind. log_command. write_channel Hg.
  rewrite run_bind. log_command. unfold toggle_switch.
  rewrite (run_bind_ret _ _ _ _ 1 _) by (eapply get_switch_step; [exact Hg0 | cbn; lia | reflexivity]).
  change (lnot 1) with 0.
  write_channel Hg0.
  rewrite run_bind. log_command. write_channel Hg1.
  assert (num_channels (config (globals w2)) = 4) as HN by (rewrite Hg2; reflexivity).
  log_command. rewrite run_bind. cbn [get globals]. rewrite HN. unfold for_upto. change (Z.to_nat 4) with 4%nat.
  cbn [for_from].
  write_channel Hg2. write_channel Hg3. write_channel Hg4. write_channel Hg5.
  exists w6. split; [reflexivity|]. rewrite Hg6. cbn.
  split; [reflexivity|]. split; reflexivity.
Qed.

(** Claim C2, as amended.  For an index outside [0, num_channels),
    [set_switch] returns (it has no result) and [get_switch] returns 0, and
    both leave the whole process state as it was: channels, time stamps,
    counters, and the trace, to which nothing is logged. *)
Theorem out_of_range_is_silent_noop e (w : World Globals) ch v :
  ch < 0 \/ ch >= num_channels (config (globals w)) ->
  set_switch ch v e w = Ret tt w /\ get_switch ch e w = Ret 0 w.
Proof.
  intros H. split; [by apply set_switch_out_of_range | by apply get_switch_out_of_range].
Qed.

(** Claim C2, the amended statement at index 99 of a four-channel switch. *)
Lemma out_of_range_is_silent_noop_witness :
  (99 < 0 \/ 99 >= num_channels (config (globals four_off))) /\
  set_switch 99 1 sample_env four_off = Ret tt four_off /\
  get_switch 99 sample_env four_off = Ret 0 four_off.
Proof.
  assert (99 < 0 \/ 99 >= num_channels (config (globals four_off))) as H
    by (right; cbn; lia).
  split; [exact H|]. exact (out_of_range_is_silent_noop sample_env four_off 99 1 H).
Defined.

(** Claim C2 as stated fails: the caller is not told.  On a four-channel
    switch that is off, [get_switch 99] and [get_switch 0] return the same
    value in the same state, as do [set_switch 99 0] and [set_switch 0 0],
    so nothing computed from what [get_switch] returns tells an index out
    of range from one in range. *)
Lemma out_of_range_not_reported :
  (99 < 0 \/ 99 >= num_channels (config (globals four_off))) /\
  valid (globals four_off) 0 /\
  get_switch 99 sample_env four_off = get_switch 0 sample_env four_off /\
  set_switch 99 0 sample_env four_off = set_switch 0 0 sample_env four_off /\
  ~ (exists reports_out_of_range : Outcome Globals Z -> bool,
        forall ch, reports_out_of_range (get_switch ch sample_env four_off) = true <->
                   (ch < 0 \/ ch >= num_channels (config (globals four_off)))).
Proof.
  assert (get_switch 99 sample_env four_off = get_switch 0 sample_env four_off) as Hsame
    by (vm_compute; reflexivity).
  split; [right; cbn; lia|]. split; [unfold valid; cbn; lia|].
  split; [exact Hsame|]. split; [vm_compute; reflexivity|].
  intros [f Hf].
  pose proof (proj2 (Hf 99)) as H99. pose proof (proj1 (Hf 0)) as H0.
  rewrite Hsame in H99.
  cbn [four_off globals config num_channels] in H0, H99.
  specialize (H99 ltac:(lia)). specialize (H0 H99). lia.
Qed.

(** Claim C4.  Writing the value a valid channel already holds leaves the
    whole process state as it was: no counter, no time stamp and no other
    channel changes, the clock is not read and nothing is logged. *)
Theorem same_value_write_changes_nothing e (w : World Globals) ch v :
  valid (globals w) ch ->
  channel (switch_state (globals w)) !! Z.to_nat ch = Some v ->
  set_switch ch v e w = Ret tt w.
Proof. apply set_switch_same. Qed.

(** Claim C4 on channel 2 of a switch that is off. *)
Lemma same_value_write_changes_nothing_witness :
  valid (globals four_off) 2 /\
  channel (switch_state (globals four_off)) !! Z.to_nat 2 = Some 0 /\
  set_switch 2 0 sample_env four_off = Ret tt four_off.
Proof.
  assert (valid (globals four_off) 2) as Hv by (unfold valid; cbn; lia).
  assert (channel (switch_state (globals four_off)) !! Z.to_nat 2 = Some 0) as Hc
    by reflexivity.
  split; [exact Hv|]. split; [exact Hc|].
  exact (same_value_write_changes_nothing sample_env four_off 2 0 Hv Hc).
Defined.

(** Claim C5.  On a valid channel, [set_switch ch v] followed by
    [get_switch ch] returns [v]. *)
Theorem read_after_write e (w : World Globals) ch v :
  state_ok (globals w) ->
  valid (globals w) ch ->
  exists w', set_switch ch v e w = Ret tt w' /\ get_switch ch e w' = Ret v w'.
Proof.
  intros Hok Hv.
  pose proof (valid_in_array _ _ Hok Hv) as Hch.
  pose proof Hok as [(Hc & _ & Ht) _].
  destruct (lookup_in_array (channel (switch_state (globals w))) 4 ch Hc) as [cur Hcur]; [lia|].
  destruct (lookup_in_array (toggle_count (switch_state (globals w))) 4 ch Ht) as [count Hcount]; [lia|].
  destruct (decide (cur = v)) as [->|Hne].
  - exists w. split; [by apply set_switch_same | by apply get_switch_valid].
  - destruct (set_switch_change e w ch v cur count Hok Hv Hcur Hcount Hne) as (w' & Hrun & Hg & _).
    exists w'. split; [exact Hrun|].
    apply get_switch_valid; rewrite Hg; [exact Hv|]. cbn.
    apply list_lookup_insert_eq. eapply lookup_lt_Some. exact Hcur.
Qed.

(** Claim C5 on channel 3 of a switch that is off. *)
Lemma read_after_write_witness :
  state_ok (globals four_off) /\ valid (globals four_off) 3 /\
  exists w', set_switch 3 1 sample_env four_off = Ret tt w' /\
             get_switch 3 sample_env w' = Ret 1 w'.
Proof.
  assert (valid (globals four_off) 3) as Hv by (unfold valid; cbn; lia).
  split; [exact four_off_ok|]. split; [exact Hv|].
  exact (read_after_write sample_env four_off 3 1 four_off_ok Hv).
Defined.

(** Claim C3, the amended statement on channel 2 of a fresh switch. *)
Lemma toggle_count_steps_up_below_wrap_witness :
  state_ok (globals four_off) /\ valid (globals four_off) 2 /\
  toggle_count (switch_state (globals four_off)) !! Z.to_nat 2 = Some 0 /\
  0 <= 0 < ULONG_MODULUS /\
  (forall op, exists c',
      toggle_count (switch_state (globals (final (run_op op sample_env four_off))))
        !! Z.to_nat 2 = Some c' /\
      0 <= c' <= 0 + 1) /\
  (forall state cur,
      channel (switch_state (globals four_off)) !! Z.to_nat 2 = Some cur ->
      cur <> state ->
      exists w',
        set_switch 2 state sample_env four_off = Ret tt w' /\
        toggle_count (switch_state (globals w')) !! Z.to_nat 2 = Some (0 + 1)).
Proof.
  assert (valid (globals four_off) 2) as Hv by (unfold valid; cbn; lia).
  assert (toggle_count (switch_state (globals four_off)) !! Z.to_nat 2 = Some 0) as Hc
    by reflexivity.
  assert (0 <= 0 < ULONG_MODULUS) as Hr by (unfold ULONG_MODULUS; lia).
  assert (0 < ULONG_MODULUS - 1) as Hbelow by (unfold ULONG_MODULUS; lia).
  split; [exact four_off_ok|]. split; [exact Hv|]. split; [exact Hc|]. split; [exact Hr|].
  destruct (toggle_count_steps_up_below_wrap sample_env four_off 2 0 four_off_ok Hv Hc Hr)
    as (Hany & _ & Hset).
  split; [exact (Hany Hbelow) | exact Hset].
Defined.

Lemma ulong_add_succ c n : ulong (ulong (c + n) + 1) = ulong (c + (n + 1)).
Proof.
  unfold ulong, ULONG_MODULUS. rewrite Z.add_mod_idemp_l by lia. f_equal. lia.
Qed.

Lemma toggle_switch_step e (w : World Globals) ch cur c :
  state_ok (globals w) -> valid (globals w) ch ->
  channel (switch_state (globals w)) !! Z.to_nat ch = Some cur ->
  toggle_count (switch_state (globals w)) !! Z.to_nat ch = Some c ->
  exists w', toggle_switch ch e w = Ret tt w' /\
    state_ok (globals w') /\ config (globals w') = config (globals w) /\
    channel (switch_state (globals w')) !! Z.to_nat ch = Some (lnot cur) /\
    toggle_count (switch_state (globals w')) !! Z.to_nat ch = Some (ulong (c + 1)).
Proof.
  intros Hok Hv Hcur Hc. unfold toggle_switch.
  rewrite (run_bind_ret _ _ _ _ _ _ (get_switch_valid e w ch cur Hv Hcur)).
  assert (cur <> lnot cur) as Hne by (unfold lnot; case_decide; lia).
  destruct (set_switch_change e w ch (lnot cur) cur c Hok Hv Hcur Hc Hne)
    as (w' & Hrun & Hg & _).
  exists w'. split; [exact Hrun|]. rewrite Hg. cbn.
  split; [split; [apply written_ok|]; apply Hok|]. split; [reflexivity|].
  split; apply list_lookup_insert_eq; eapply lookup_lt_Some; eassumption.
Qed.

(** The command [toggle ch], typed [n] times. *)
Lemma toggle_commands_state e n :
  forall (w : World Globals) ch cur c,
    state_ok (globals w) -> valid (globals w) ch ->
    channel (switch_state (globals w)) !! Z.to_nat ch = Some cur ->
    cur = 0 \/ cur = 1 ->
    toggle_count (switch_state (globals w)) !! Z.to_nat ch = Some (ulong c) ->
    exists w',
      run_ops (replicate n (OpExecute "toggle" ch)) e w = Ret tt w' /\
      state_ok (globals w') /\ valid (globals w') ch /\
      channel (switch_state (globals w')) !! Z.to_nat ch = Some ((cur + Z.of_nat n) mod 2) /\
      toggle_count (switch_state (globals w')) !! Z.to_nat ch = Some (ulong (c + Z.of_nat n)).
Proof.
  induction n as [|n IH]; intros w ch cur c Hok Hv Hcur Hbit Hc.
  - exists w. split; [reflexivity|]. rewrite !Z.add_0_r.
    split; [exact Hok|]. split; [exact Hv|]. split; [|exact Hc].
    rewrite Hcur. f_equal. destruct Hbit as [-> | ->]; reflexivity.
  - cbn [replicate run_ops run_op]. rewrite run_bind. log_command.
    match goal with |- context [toggle_switch ch e ?w0] =>
      destruct (toggle_switch_step e w0 ch cur (ulong c) Hok Hv Hcur Hc)
        as (w1 & Hrun & Hok1 & Hcfg & Hcur1 & Hc1) end.
    rewrite Hrun.
    assert (ulong (ulong c + 1) = ulong (c + 1)) as E
      by (rewrite <- (Z.add_0_r c) at 1; rewrite ulong_add_succ; f_equal).
    rewrite E in Hc1.
    assert (valid (globals w1) ch) as Hv1 by (unfold valid in *; rewrite Hcfg; exact Hv).
    destruct (IH w1 ch (lnot cur) (c + 1) Hok1 Hv1 Hcur1) as (w2 & Hrun2 & Hok2 & Hv2 & Hcur2 & Hc2);
      [unfold lnot; case_decide; auto | exact Hc1 |].
    exists w2. split; [exact Hrun2|]. split; [exact Hok2|]. split; [exact Hv2|].
    split.
    + rewrite Hcur2. f_equal.
      replace (cur + Z.of_nat (S n)) with (cur + 1 + Z.of_nat n) by lia.
      rewrite <- (Z.add_mod_idemp_l (cur + 1)) by lia.
      rewrite <- (Z.add_mod_idemp_l (lnot cur)) by lia.
      do 2 f_equal. destruct Hbit as [-> | ->]; reflexivity.
    + rewrite Hc2. do 2 f_equal. lia.
Qed.

(** Claim C3 as stated fails when the counter is at [ULONG_MAX], a state
    that the program reaches: after [2^64 - 1] [toggle 0] commands on a
    fresh switch, channel 0 is on and [toggle_count[0]] is [2^64 - 1]; the
    command [off 0] then takes the counter to 0, which is neither no smaller
    nor one more. *)
Lemma toggle_count_wraps_to_zero :
  exists w,
    run_ops (replicate (Z.to_nat 18446744073709551615) (OpExecute "toggle" 0))
            sample_env four_off = Ret tt w /\
    state_ok (globals w) /\ valid (globals w) 0 /\
    channel (switch_state (globals w)) !! 0%nat = Some 1 /\
    toggle_count (switch_state (globals w)) !! 0%nat = Some 18446744073709551615 /\
    exists w',
      execute_command "off" 0 sample_env w = Ret tt w' /\
      channel (switch_state (globals w')) !! 0%nat = Some 0 /\
      toggle_count (switch_state (globals w')) !! 0%nat = Some 0 /\
      ~ (18446744073709551615 <= 0) /\ 0 <> 18446744073709551615 + 1.
Proof.
  assert (exists n, n = Z.to_nat 18446744073709551615 /\
                    Z.of_nat n = 18446744073709551615) as (n & <- & Hn)
    by (eexists; split; [reflexivity | apply Z2Nat.id; lia]).
  assert (valid (globals four_off) 0) as Hv0 by (unfold valid; cbn; lia).
  destruct (toggle_commands_state sample_env n four_off 0 0 0 four_off_ok Hv0 eq_refl
              (or_introl eq_refl) eq_refl)
    as (w & Hrun & Hok & Hv & Hcur & Hc).
  rewrite Hn in Hcur, Hc. change (Z.to_nat 0) with 0%nat in Hcur, Hc.
  change ((0 + 18446744073709551615) mod 2) with 1 in Hcur.
  change (ulong (0 + 18446744073709551615)) with 18446744073709551615 in Hc.
  exists w. split; [exact Hrun|]. split; [exact Hok|]. split; [exact Hv|].
  split; [exact Hcur|]. split; [exact Hc|].
  log_command.
  match goal with |- context [set_switch 0 0 sample_env ?w0] =>
    destruct (set_switch_change sample_env w0 0 0 1 18446744073709551615 Hok Hv Hcur Hc)
      as (w' & Hset & Hg & _); [lia|] end.
  exists w'. split; [exact Hset|]. rewrite Hg.
  cbn [globals switch_state written channel toggle_count].
  change (Z.to_nat 0) with 0%nat.
  rewrite !list_lookup_insert_eq by (eapply lookup_lt_Some; eassumption).
  split; [reflexivity|]. split; [reflexivity|]. split; lia.
Qed.

(** Claim C10.  [report_status] reports [toggle_count[0] + toggle_count[1]]
    (in [unsigned long]) as [total_toggles], whatever the counters of
    channels 2 and 3 and whatever [num_channels] is; the PUT that carries it
    is the only request made, however the call ends; and the call returns
    when libcurl gives no handle or the reply fits [response]. *)
Theorem total_toggles_counts_channels_0_and_1 e (w : World Globals) c0 c1 c2 c3 :
  state_ok (globals w) ->
  toggle_count (switch_state (globals w)) = [c0; c1; c2; c3] ->
  exists channels w',
    final (report_status e w) = w' /\
    globals w' = globals w /\
    trace w' = trace w ++ status_events e w channels (ulong (c0 + c1)) /\
    ((env_curl_easy_init e (n_init w) = true -> reply_fits e (n_perform w)) ->
     exists status, report_status e w = Ret status w').
Proof.
  intros Hok Ht.
  destruct (report_status_run e w c0 c1 Hok) as (channels & Hg & Htrace & _ & Hfits & Hnone);
    [rewrite Ht; reflexivity | rewrite Ht; reflexivity |].
  exists channels, (final (report_status e w)).
  split; [reflexivity|]. split; [exact Hg|]. split; [exact Htrace|].
  intros Hreply. destruct (env_curl_easy_init e (n_init w)) eqn:Hinit.
  - eexists. apply Hfits; [reflexivity | apply Hreply; reflexivity].
  - eexists. apply Hnone. reflexivity.
Qed.

(** Claim C10 on a four-channel switch whose channels 2 and 3 were toggled
    5 and 7 times: the reported total is 0. *)
Lemma total_toggles_counts_channels_0_and_1_witness :
  state_ok (globals toggled_2_and_3) /\
  toggle_count (switch_state (globals toggled_2_and_3)) = [0; 0; 5; 7] /\
  exists channels status w',
    report_status sample_env toggled_2_and_3 = Ret status w' /\
    globals w' = globals toggled_2_and_3 /\
    trace w' = trace toggled_2_and_3 ++
               status_events sample_env toggled_2_and_3 channels (ulong (0 + 0)).
Proof.
  assert (state_ok (globals toggled_2_and_3)) as Hok
    by (repeat split; cbn; unfold MAX_CHANNELS; lia).
  assert (reply_fits sample_env (n_perform toggled_2_and_3)) as Hreply
    by (eexists; reflexivity).
  split; [exact Hok|]. split; [reflexivity|].
  destruct (total_toggles_counts_channels_0_and_1 sample_env toggled_2_and_3 0 0 5 7 Hok eq_refl)
    as (channels & w' & _ & Hg & Htrace & Hret).
  destruct (Hret (fun _ => Hreply)) as (status & Hrun).
  exists channels, status, w'. split; [exact Hrun|]. split; [exact Hg | exact Htrace].
Defined.

(** The request that switch sends. *)
Example total_toggles_misses_channels_2_and_3 :
  trace (final (report_status sample_env toggled_2_and_3)) =
  [EvCurlEasyInit true;
   EvCurlPerform (mkRequest PUT "http://panel/devices/sw-1" (SwitchStatus [0; 0; 1; 1] 0)) 0].
Proof. vm_compute. reflexivity. Qed.

Lemma to_int_range z : INT_MIN <= to_int z <= INT_MAX.
Proof.
  unfold to_int, INT_MIN, INT_MAX.
  pose proof (Z.mod_pos_bound (z + 2147483648) 4294967296). lia.
Qed.

Lemma atoi_range s : INT_MIN <= atoi s <= INT_MAX.
Proof. apply to_int_range. Qed.

Lemma config_line_capped buffer c : capped c -> capped (config_line buffer c).
Proof.
  intros Hc. unfold config_line.
  destruct (match cstr buffer with
            | String c0 _ => Ascii.eqb c0 "#"%char || is_newline c0
            | EmptyString => false
            end); [exact Hc|].
  destruct (sscanf_key_value (cstr buffer)) as [[key value]|]; [|exact Hc].
  repeat (match goal with |- capped (if ?b then _ else _) => destruct b end);
    try exact Hc.
  unfold capped. cbn [num_channels].
  pose proof (atoi_range (skip_blanks value)).
  case_decide; unfold MAX_CHANNELS, INT_MIN in *; lia.
Qed.

Lemma read_config_capped text c : capped (read_config text c).
Proof.
  unfold read_config.
  assert (capped (defaults c)) as H0 by (unfold capped, defaults, MAX_CHANNELS, INT_MIN; cbn; lia).
  revert H0. generalize (defaults c). generalize (fgets_all CONFIG_LINE_MAX text).
  induction l as [|b l IH]; intros c' Hc'; cbn [fold_left]; [exact Hc'|].
  apply IH, config_line_capped, Hc'.
Qed.

(** [load_config] establishes [state_ok]: the arrays are declared with
    [MAX_CHANNELS] elements and [num_channels] is capped. *)
Lemma state_ok_after_load_config e (w w' : World Globals) filename :
  arrays_ok (switch_state (globals w)) ->
  load_config filename e w = Ret tt w' ->
  state_ok (globals w').
Proof.
  intros Harr. unfold load_config. rewrite run_bind. cbn [fopen].
  destruct (env_fopen e filename) as [text|].
  - rewrite run_bind. cbn. intros [= <-]. cbn.
    split; [exact Harr | apply read_config_capped].
  - rewrite run_bind. cbn. discriminate.
Qed.

Lemma boot_arrays_ok : arrays_ok (switch_state (globals boot)).
Proof. repeat split. Qed.

(** The line [num_channels=value] sets [num_channels] to what [atoi] reads,
    or to [MAX_CHANNELS] when that is more. *)
Lemma config_line_num_channels value c :
  plain_value value ->
  config_line (String.append "num_channels="
                 (String.append value (String "010"%char EmptyString))) c =
  mkConfig (device_id c) (device_name c) (panel_url c) (report_interval c)
           (poll_commands_interval c)
           (if decide (atoi (skip_blanks value) > MAX_CHANNELS)
            then MAX_CHANNELS else atoi (skip_blanks value))
           (verbose c).
Proof.
  intros Hvalue. unfold config_line.
  rewrite cstr_nul_free.
  - change (String.append "num_channels="
              (String.append value (String "010"%char EmptyString)))
      with (String.append "num_channels"
              (String "="%char (String.append value (String "010"%char EmptyString)))).
    rewrite sscanf_assignment; [ | discriminate | cbn; lia | reflexivity | exact Hvalue ].
    reflexivity.
  - destruct Hvalue as (_ & _ & _ & Hnul).
    change (has_char "000"%char
              (String.append value (String "010"%char EmptyString)) = false).
    rewrite has_char_append, Hnul. reflexivity.
Qed.

(** Claim C9, as amended.  After [load_config], [num_channels] is an [int]
    of at most [MAX_CHANNELS], and the switch state is not touched; when
    the file holds a line [num_channels=value] and no later line writes
    [num_channels], that is what [atoi] reads in the value, or
    [MAX_CHANNELS] when that is more: a value below 1 is kept as read.
    When the file cannot be opened the process exits with status 1. *)
Theorem num_channels_capped_above e (w : World Globals) filename :
  match load_config filename e w with
  | Ret _ w' =>
      INT_MIN <= num_channels (config (globals w')) <= MAX_CHANNELS /\
      switch_state (globals w') = switch_state (globals w) /\
      (forall before value after,
          env_fopen e filename =
            Some (String.append before
                    (String.append "num_channels="
                       (String.append value (String "010"%char after)))) ->
          before = EmptyString \/ ends_with_newline before = true ->
          plain_value value ->
          Forall (fun buffer =>
                    forall c, num_channels (config_line buffer c) = num_channels c)
                 (fgets_all CONFIG_LINE_MAX after) ->
          let n := atoi (skip_blanks value) in
          num_channels (config (globals w')) =
            (if decide (n > MAX_CHANNELS) then MAX_CHANNELS else n) /\
          (n < 1 -> num_channels (config (globals w')) = n))
  | Halted h w' =>
      h = Exited 1 /\ env_fopen e filename = None /\ globals w' = globals w
  end.
Proof.
  unfold load_config. rewrite run_bind. cbn [fopen].
  destruct (env_fopen e filename) as [text|].
  - rewrite run_bind. cbn [get]. unfold set_config, modify, with_globals.
    cbn [globals config switch_state].
    split; [apply read_config_capped|]. split; [reflexivity|].
    intros before value after [= ->] Hbefore Hvalue Hafter.
    set (n := atoi (skip_blanks value)).
    assert (num_channels
              (read_config
                 (String.append before
                    (String.append "num_channels="
                       (String.append value (String "010"%char after))))
                 (config (globals w))) =
            (if decide (n > MAX_CHANNELS) then MAX_CHANNELS else n)) as Hn.
    { unfold read_config.
      change (String.append "num_channels="
                (String.append value (String "010"%char after)))
        with (String.append (String.append "num_channels=" value)
                (String "010"%char after)).
      pose proof Hvalue as (Hne & Hlen & Hnl & Hnul).
      rewrite fgets_all_line_inside;
        [ | exact Hbefore
          | change (has_char "010"%char value = false); exact Hnl
          | unfold CONFIG_LINE_MAX;
            change (String.length (String.append "num_channels=" value))
              with (13 + String.length value)%nat; lia ].
      rewrite !fold_left_app. cbn [fold_left].
      change (String.append (String.append "num_channels=" value)
                (String "010"%char EmptyString))
        with (String.append "num_channels="
                (String.append value (String "010"%char EmptyString))).
      rewrite config_line_num_channels by exact Hvalue.
      match goal with |- num_channels (fold_left _ _ ?c0) = _ =>
        transitivity (num_channels c0); [|reflexivity]; generalize c0 end.
      induction Hafter as [|buffer rest Hbuffer _ IH]; intros c0; cbn [fold_left];
        [reflexivity|].
      rewrite IH. apply Hbuffer. }
    split; [exact Hn|]. intros Hlow. etransitivity; [exact Hn|].
    rewrite decide_False by (unfold MAX_CHANNELS; lia). reflexivity.
  - rewrite run_bind. cbn. auto.
Qed.

(** Claim C9, as amended, on a file that asks for no channels, and on one
    that asks for minus three. *)
Lemma num_channels_capped_above_witness :
  plain_value "0" /\ plain_value "-3" /\
  (exists w',
      load_config "config.ini" zero_channels_env boot = Ret tt w' /\
      num_channels (config (globals w')) = atoi "0") /\
  (exists w',
      load_config "config.ini" negative_channels_env boot = Ret tt w' /\
      num_channels (config (globals w')) = atoi "-3").
Proof.
  assert (plain_value "0") as H0 by (repeat split; [discriminate | cbn; lia]).
  assert (plain_value "-3") as H3 by (repeat split; [discriminate | cbn; lia]).
  split; [exact H0|]. split; [exact H3|]. split.
  - pose proof (num_channels_capped_above zero_channels_env boot "config.ini") as H.
    destruct (load_config "config.ini" zero_channels_env boot) as [[] w'|h w'] eqn:Hrun.
    + destruct H as (_ & _ & Hkeep). exists w'. split; [reflexivity|].
      apply (Hkeep "device_name=relay
" "0" EmptyString eq_refl (or_intror eq_refl) H0); [constructor|].
      vm_compute. reflexivity.
    + destruct H as (_ & Hnone & _). discriminate Hnone.
  - pose proof (num_channels_capped_above negative_channels_env boot "config.ini") as H.
    destruct (load_config "config.ini" negative_channels_env boot) as [[] w'|h w'] eqn:Hrun.
    + destruct H as (_ & _ & Hkeep). exists w'. split; [reflexivity|].
      apply (Hkeep EmptyString "-3" "verbose=1
" eq_refl (or_introl eq_refl) H3).
      * repeat constructor.
      * vm_compute. reflexivity.
    + destruct H as (_ & Hnone & _). discriminate Hnone.
Defined.

(** Claim C9 as stated fails: there is no lower clamp.  A file with
    [num_channels=0] leaves [config.num_channels] at 0. *)
Lemma num_channels_zero_is_kept :
  exists w',
    load_config "config.ini" zero_channels_env boot = Ret tt w' /\
    num_channels (config (globals w')) = 0 /\
    ~ (1 <= num_channels (config (globals w')) <= 4).
Proof.
  eexists. split; [vm_compute; reflexivity|]. cbn. split; [reflexivity | lia].
Qed.

(** Nor is a negative number, or text that is no number, raised to 1. *)
Example num_channels_below_zero_is_kept :
  num_channels (read_config "num_channels=-3
" (config globals0)) = -3 /\
  num_channels (read_config "num_channels = 2
num_channels=two
" (config globals0)) = 0.
Proof. vm_compute. split; reflexivity. Qed.

(** *** The trace of the switch program *)

Lemma set_switch_appends ch v : appends no_registration (set_switch ch v).
Proof. unfold set_switch, set_switch_state. appends_auto. Qed.

Lemma get_switch_appends ch : appends no_registration (get_switch ch).
Proof. unfold get_switch. appends_auto. Qed.

Lemma print_status_appends : appends no_registration print_status.
Proof. unfold print_status. appends_auto. Qed.

Lemma execute_command_appends command ch :
  appends no_registration (execute_command command ch).
Proof.
  unfold execute_command, toggle_switch. appends_auto;
    first [apply set_switch_appends | apply get_switch_appends | apply print_status_appends].
Qed.

Lemma channels_data_appends rounds :
  forall i acc, appends no_registration (channels_data rounds i acc).
Proof.
  induction rounds as [|n IH]; intros i acc; cbn [channels_data].
  - apply appends_ret.
  - apply appends_bind; [apply get_switch_appends | intros ?; apply IH].
Qed.

Lemma report_status_appends : appends no_registration report_status.
Proof.
  unfold report_status. appends_auto; apply channels_data_appends.
Qed.

Lemma report_if_due_appends : appends no_registration report_if_due.
Proof.
  unfold report_if_due, set_last_report. appends_auto; apply report_status_appends.
Qed.

Lemma command_loop_appends buffers : appends no_registration (command_loop buffers).
Proof.
  induction buffers as [|buffer rest IH]; cbn [command_loop]; [appends_auto|].
  appends_auto;
    first [ exact IH | apply print_status_appends | apply execute_command_appends
          | apply report_if_due_appends ].
Qed.

Lemma switch_main_loop_appends input : appends no_registration (main_loop input).
Proof. apply command_loop_appends. Qed.

Lemma switch_cleanup_appends : appends no_registration cleanup.
Proof. unfold cleanup, pthread_join. appends_auto. Qed.


(** The startup code of the switch, however it ends: it returns, or the
    reply to the registration did not fit [response]. *)
Lemma switch_startup_trace e (w : World Globals) :
  exists t,
    trace (final (startup e w)) = trace w ++ t /\
    globals (final (startup e w)) = globals w /\
    count is_curl_init t = (if is_empty (device_id (config (globals w))) then 1 else 0)%nat /\
    count is_registration t =
      (if is_empty (device_id (config (globals w))) && env_curl_easy_init e (n_init w)
       then 1 else 0)%nat /\
    count is_report t = 0%nat /\
    match startup e w with
    | Ret _ _ => True
    | Halted h _ => reply_fault h
    end.
Proof.
  unfold startup, register_device.
  destruct (is_empty (device_id (config (globals w)))) eqn:Hid.
  - run_code. rewrite Hid. run_code.
    destruct (env_curl_easy_init e (n_init w)) eqn:Hinit; run_code;
      [perform_cases; run_code|];
      eexists; cbn [final globals trace];
      (split; [rewrite <- !app_assoc; cbn [app]; reflexivity|]);
      cbn; repeat split; auto.
  - run_code. rewrite Hid. run_code.
    eexists. cbn [final globals trace].
    split; [rewrite <- !app_assoc; cbn [app]; reflexivity|].
    cbn. repeat split; reflexivity.
Qed.

End SwitchFacts.

(** ** The sensor's reporting loop *)

Module SensorFacts.
Import CInt CLib Proc Common Sensor TraceSpec SensorSpec Samples Steps.
Local Open Scope string_scope.
Local Open Scope list_scope.
Local Open Scope Z_scope.

Lemma report_metrics_run e (w : World Config) temp humidity :
  si_totalram (env_sysinfo e (n_sysinfo w)) <> 0 ->
  (env_curl_easy_init e (n_init w) = true -> reply_fits e (n_perform w)) ->
  exists status,
    report_metrics temp humidity e w =
    Ret status
        (mkWorld (globals w) (running w) (trace w ++ report_events e w temp humidity)
                 (n_time w + report_clock e w) (S (n_init w))
                 (n_perform w + report_performs e w) (n_signal w) (n_rand w)
                 (S (n_sysinfo w))).
Proof.
  intros Hram Hreply. unfold report_metrics, memory_usage_percent, report_events, report_clock,
    report_performs, metrics_request.
  rewrite run_bind. cbn [sysinfo]. rewrite run_bind. cbn [get globals].
  rewrite decide_False by exact Hram.
  rewrite run_bind, run_ret. rewrite run_bind. cbn [curl_easy_init n_init].
  destruct (env_curl_easy_init e (n_init w)); cbn [negb].
  - rewrite run_bind. perform_fits (Hreply eq_refl). cbn [n_perform].
    case_decide.
    + rewrite run_bind, log_message_run. cbn. eexists. same_world.
    + rewrite run_bind. destruct (truthy (verbose (globals w))).
      * rewrite log_message_run. cbn. eexists. same_world.
      * cbn. eexists. same_world.
  - rewrite run_bind, log_message_run. cbn. eexists. same_world.
Qed.

Lemma read_running_quiet {G} e (w : World G) :
  env_signal e (n_signal w) = false ->
  read_running e w = Ret (running w) (polled w).
Proof. intros H. unfold read_running. rewrite H. reflexivity. Qed.

Lemma quiet_head e from count : quiet e from (S count) -> env_signal e from = false.
Proof. intros H. specialize (H 0%nat). rewrite Nat.add_0_r in H. apply H. lia. Qed.

Lemma quiet_tail e from count : quiet e from (S count) -> quiet e (S from) count.
Proof.
  intros H j Hj. specialize (H (S j)). rewrite Nat.add_succ_r in H. apply H. lia.
Qed.

Lemma quiet_shift e from a b : quiet e from (a + b) -> quiet e (from + a) b.
Proof.
  intros H j Hj. rewrite <- Nat.add_assoc. apply H. lia.
Qed.

Lemma quiet_less e from a b : (a <= b)%nat -> quiet e from b -> quiet e from a.
Proof. intros Hle H j Hj. apply H. lia. Qed.

Lemma sleep_interval_run e rounds :
  forall (w : World Config),
    running w = true ->
    quiet e (n_signal w) rounds ->
    sleep_interval rounds e w =
    Ret tt (mkWorld (globals w) (running w) (trace w ++ replicate rounds (EvSleep 1))
                    (n_time w) (n_init w) (n_perform w) (n_signal w + rounds)
                    (n_rand w) (n_sysinfo w)).
Proof.
  induction rounds as [|n IH]; intros w Hrun Hq.
  - cbn. destruct w. cbn. same_world.
  - cbn [sleep_interval].
    rewrite (run_bind_ret _ _ _ _ _ _ (read_running_quiet e w (quiet_head _ _ _ Hq))).
    rewrite Hrun. rewrite run_bind. cbn [emit].
    rewrite IH; [| exact Hrun | apply (quiet_tail _ _ _ Hq)].
    cbn. same_world.
Qed.

Lemma cycle_body_run e (w : World Config) cycle :
  running w = true ->
  quiet e (n_signal w) (Z.to_nat (report_interval (globals w))) ->
  cycle <> INT_MAX ->
  si_totalram (env_sysinfo e (n_sysinfo w)) <> 0 ->
  (env_curl_easy_init e (n_init w) = true -> reply_fits e (n_perform w)) ->
  cycle_body cycle e w = Ret (cycle + 1) (cycle_end e w cycle).
Proof.
  intros Hrun Hq Hcycle Hram Hreply. unfold cycle_body.
  rewrite decide_False by exact Hcycle.
  unfold read_temperature, read_humidity.
  rewrite run_bind, run_bind. cbn [rand]. rewrite run_ret.
  rewrite run_bind, run_bind. cbn [rand n_rand]. rewrite run_ret.
  rewrite run_bind. cbn [emit].
  match goal with |- context [(report_metrics ?t ?h ≫= _) e ?w1] =>
    destruct (report_metrics_run e w1 t h Hram Hreply) as (status & Hrep) end.
  rewrite (run_bind_ret _ _ _ _ _ _ Hrep).
  rewrite run_bind. cbn [get globals].
  rewrite run_bind, sleep_interval_run by (cbn; assumption).
  rewrite run_ret. unfold cycle_end, cycle_events. cbn.
  same_world.
Qed.

Lemma main_loop_cycle e (w : World Config) fuel cycle :
  running w = true ->
  quiet e (n_signal w) (S (Z.to_nat (report_interval (globals w)))) ->
  cycle <> INT_MAX ->
  si_totalram (env_sysinfo e (n_sysinfo w)) <> 0 ->
  (env_curl_easy_init e (n_init w) = true -> reply_fits e (n_perform w)) ->
  main_loop (S fuel) cycle e w = main_loop fuel (cycle + 1) e (cycle_end e (polled w) cycle).
Proof.
  intros Hrun Hq Hcycle Hram Hreply. cbn [main_loop].
  rewrite (run_bind_ret _ _ _ _ _ _ (read_running_quiet e w (quiet_head _ _ _ Hq))).
  rewrite Hrun.
  rewrite (run_bind_ret _ _ _ _ _ _
             (cycle_body_run e (polled w) cycle Hrun (quiet_tail _ _ _ Hq) Hcycle Hram Hreply)).
  reflexivity.
Qed.



(** Three cycles of that sensor: three transfers, six seconds of sleep, six
    readings, and the loop still running. *)
Example sensor_reports_every_cycle_during_an_outage :
  let o := main_loop 3 0 outage_env reporting_sensor in
  (exists w, o = Halted Pending w) /\
  count is_report (trace (final o)) = 3%nat /\
  count (fun ev => match ev with EvSleep _ => true | _ => false end) (trace (final o)) = 6%nat /\
  n_rand (final o) = 6%nat.
Proof. vm_compute. repeat split; try reflexivity. eexists. reflexivity. Qed.

(** *** The trace of the sensor program *)

Lemma report_metrics_appends temp humidity :
  appends no_registration (report_metrics temp humidity).
Proof. unfold report_metrics, memory_usage_percent. appends_auto. Qed.

Lemma sleep_interval_appends rounds : appends no_registration (sleep_interval rounds).
Proof.
  induction rounds as [|n IH]; cbn [sleep_interval]; [apply appends_ret|].
  appends_auto. exact IH.
Qed.

Lemma cycle_body_appends cycle : appends no_registration (cycle_body cycle).
Proof.
  unfold cycle_body, read_temperature, read_humidity.
  appends_auto; first [apply report_metrics_appends | apply sleep_interval_appends].
Qed.

Lemma sensor_main_loop_appends fuel : forall cycle, appends no_registration (main_loop fuel cycle).
Proof.
  induction fuel as [|n IH]; intros cycle; cbn [main_loop]; [apply appends_halt|].
  appends_auto; first [apply cycle_body_appends | apply IH].
Qed.

Lemma sensor_cleanup_appends : appends no_registration cleanup.
Proof. unfold cleanup. appends_auto. Qed.


(** The startup code of the sensor, however it ends: it returns, or the
    reply to the registration did not fit [response]. *)
Lemma sensor_startup_trace e (w : World Config) :
  exists t,
    trace (final (startup e w)) = trace w ++ t /\
    globals (final (startup e w)) = globals w /\
    count is_curl_init t = (if is_empty (device_id (globals w)) then 1 else 0)%nat /\
    count is_registration t =
      (if is_empty (device_id (globals w)) && env_curl_easy_init e (n_init w)
       then 1 else 0)%nat /\
    count is_report t = 0%nat /\
    match startup e w with
    | Ret _ _ => True
    | Halted h _ => reply_fault h
    end.
Proof.
  unfold startup, register_device.
  destruct (is_empty (device_id (globals w))) eqn:Hid.
  - run_code. rewrite Hid. run_code.
    destruct (env_curl_easy_init e (n_init w)) eqn:Hinit; run_code.
    + perform_cases; run_code.
      * case_decide as Hres; run_code;
          [rewrite decide_True by lia | rewrite decide_False by lia]; run_code;
          eexists; cbn [final globals trace];
          (split; [rewrite <- !app_assoc; cbn [app]; reflexivity|]);
          cbn; repeat split; reflexivity.
      * eexists. cbn [final globals trace].
        split; [rewrite <- !app_assoc; cbn [app]; reflexivity|].
        cbn. repeat split; auto.
    + rewrite decide_True by lia. run_code.
      eexists. cbn [final globals trace].
      split; [rewrite <- !app_assoc; cbn [app]; reflexivity|].
      cbn. repeat split; reflexivity.
  - run_code. rewrite Hid. run_code.
    eexists. cbn [final globals trace].
    split; [rewrite <- !app_assoc; cbn [app]; reflexivity|].
    cbn. repeat split; reflexivity.
Qed.

End SensorFacts.

(** ** Registration at startup, in both programs *)

Module MainFacts.
Import CInt CLib Proc Common TraceSpec SwitchSpec SensorSpec Samples Steps SwitchFacts SensorFacts.
Local Open Scope string_scope.
Local Open Scope list_scope.
Local Open Scope Z_scope.



Lemma run_trace_sensor e (w : World Sensor.Config) fuel :
  exists t,
    trace (final (Sensor.run fuel e w)) = trace w ++ t /\
    count is_registration t =
      (if is_empty (Sensor.device_id (globals w)) && env_curl_easy_init e (n_init w)
       then 1 else 0)%nat.
Proof.
  destruct (sensor_startup_trace e w) as (t1 & Htrace & _ & _ & Hreg & _).
  unfold Sensor.run. rewrite run_bind.
  destruct (Sensor.startup e w) as [early w1|h w1]; cbn [final] in Htrace;
    [|exists t1; split; [exact Htrace | exact Hreg]].
  destruct early as [status|].
  - exists t1. split; [exact Htrace | exact Hreg].
  - destruct (appends_bind no_registration (Sensor.main_loop fuel 0) (fun _ => Sensor.cleanup)
                (sensor_main_loop_appends fuel 0)
                (fun _ => sensor_cleanup_appends) e w1) as (t2 & Ht2 & Hno).
    exists (t1 ++ t2). rewrite Ht2, Htrace, app_assoc. split; [reflexivity|].
    rewrite count_app, Hreg, (count_none _ _ Hno). lia.
Qed.

Lemma run_trace_switch e (w : World Switch.Globals) input :
  exists t,
    trace (final (Switch.run input e w)) = trace w ++ t /\
    count is_registration t =
      (if is_empty (Switch.device_id (Switch.config (globals w)))
          && env_curl_easy_init e (n_init w)
       then 1 else 0)%nat.
Proof.
  destruct (switch_startup_trace e w) as (t1 & Htrace & _ & _ & Hreg & _).
  unfold Switch.run. rewrite run_bind.
  destruct (Switch.startup e w) as [[] w1|h w1]; cbn [final] in Htrace;
    [|exists t1; split; [exact Htrace | exact Hreg]].
  destruct (appends_bind no_registration (Switch.main_loop input) (fun _ => Switch.cleanup)
              (switch_main_loop_appends input)
              (fun _ => switch_cleanup_appends) e w1) as (t2 & Ht2 & Hno).
  exists (t1 ++ t2). rewrite Ht2, Htrace, app_assoc. split; [reflexivity|].
  rewrite count_app, Hreg, (count_none _ _ Hno). lia.
Qed.

(** Claim C7.  In both programs the startup code calls [curl_easy_init]
    once when [device_id] is empty and not at all otherwise, and the only
    POST of a whole run is the one that follows that call (when libcurl
    gives a handle): a configured [device_id] means no registration
    request, at startup or later. *)
Theorem registration_exactly_when_device_id_is_empty
    e_sensor (w_sensor : World Sensor.Config) fuel
    e_switch (w_switch : World Switch.Globals) input :
  let unset_sensor := is_empty (Sensor.device_id (globals w_sensor)) in
  let unset_switch := is_empty (Switch.device_id (Switch.config (globals w_switch))) in
  (exists t,
      trace (final (Sensor.startup e_sensor w_sensor)) = trace w_sensor ++ t /\
      count is_curl_init t = (if unset_sensor then 1 else 0)%nat /\
      count is_registration t =
        (if unset_sensor && env_curl_easy_init e_sensor (n_init w_sensor) then 1 else 0)%nat) /\
  (exists t,
      trace (final (Sensor.run fuel e_sensor w_sensor)) = trace w_sensor ++ t /\
      count is_registration t =
        (if unset_sensor && env_curl_easy_init e_sensor (n_init w_sensor) then 1 else 0)%nat) /\
  (exists t,
      trace (final (Switch.startup e_switch w_switch)) = trace w_switch ++ t /\
      count is_curl_init t = (if unset_switch then 1 else 0)%nat /\
      count is_registration t =
        (if unset_switch && env_curl_easy_init e_switch (n_init w_switch) then 1 else 0)%nat) /\
  (exists t,
      trace (final (Switch.run input e_switch w_switch)) = trace w_switch ++ t /\
      count is_registration t =
        (if unset_switch && env_curl_easy_init e_switch (n_init w_switch) then 1 else 0)%nat).
Proof.
  intros unset_sensor unset_switch. split; [|split; [|split]].
  - destruct (sensor_startup_trace e_sensor w_sensor) as (t & Htrace & _ & Hinit & Hreg & _).
    exists t. auto.
  - apply run_trace_sensor.
  - destruct (switch_startup_trace e_switch w_switch) as (t & Htrace & _ & Hinit & Hreg & _).
    exists t. auto.
  - apply run_trace_switch.
Qed.

(** *** Whole runs on concrete inputs *)

(** A panel that answers the registration with 2048 bytes: in both
    programs [write_callback] writes past [response] during the transfer,
    and [main] gets no further. *)
Example oversized_reply_is_undefined_behaviour :
  (exists w,
      Switch.run "status" flood_env four_off =
        Halted (Undefined "strncat overflows response") w /\
      count is_registration (trace w) = 1%nat /\
      last (trace w) <> Some EvThreadCreate) /\
  (exists w,
      Sensor.run 3 flood_env unregistered_sensor =
        Halted (Undefined "strncat overflows response") w /\
      count is_registration (trace w) = 1%nat /\ n_rand w = 0%nat).
Proof.
  split; eexists; (split; [vm_compute; reflexivity|]); split; try reflexivity.
  vm_compute. discriminate.
Qed.

(** The scenario of claim C1 typed at the console of a registered switch
    whose file asks for nine channels. *)
Example scenario_at_the_console :
  let o := Switch.main "switch_firmware" []
             "on 2
toggle 2
off 2
all_on
quit
" console_env Switch.boot in
  (exists w, o = Ret 0 w) /\
  Switch.num_channels (Switch.config (globals (final o))) = 4 /\
  Switch.channel (Switch.switch_state (globals (final o))) = [1; 1; 1; 1] /\
  Switch.toggle_count (Switch.switch_state (globals (final o))) = [1; 1; 3; 1] /\
  count is_registration (trace (final o)) = 0%nat /\
  count is_report (trace (final o)) = 1%nat.
Proof. vm_compute. repeat split; try reflexivity. eexists. reflexivity. Qed.

(** The switch of claim C6 serving a command after its registration
    failed. *)
Example switch_serves_commands_after_failed_registration :
  let o := Switch.main "switch_firmware" []
             "on 2
quit
" outage_env Switch.boot in
  (exists w, o = Ret 0 w) /\
  Switch.channel (Switch.switch_state (globals (final o))) = [0; 0; 1; 0] /\
  count is_registration (trace (final o)) = 1%nat.
Proof. vm_compute. repeat split; try reflexivity. eexists. reflexivity. Qed.

(** The sensor of claim C6, from [main]. *)
Example sensor_exits_after_failed_registration :
  exists w,
    Sensor.main 5 "sensor_firmware" [] outage_env Sensor.boot = Ret 1 w /\
    count is_report (trace w) = 0%nat /\ n_rand w = 0%nat.
Proof. eexists. split; [vm_compute; reflexivity|]. split; reflexivity. Qed.

End MainFacts.

(** ** The switch: operations, reports and the command loop *)

Module SwitchLaws.
Import CInt CLib Proc Common Switch TraceSpec SwitchSpec Samples SwitchShape Steps SwitchFacts.
Local Open Scope string_scope.
Local Open Scope list_scope.
Local Open Scope Z_scope.

Lemma same_elsewhere_refl ch s : same_elsewhere ch s s.
Proof. intros j _. auto. Qed.

Lemma written_elsewhere s ch v now count : same_elsewhere ch s (written s ch v now count).
Proof.
  intros j Hj. unfold written. cbn.
  rewrite !list_lookup_insert_ne by congruence. auto.
Qed.

(** What a call of [set_switch] does, in each of its three cases. *)
Lemma set_switch_cases e (w : World Globals) ch v :
  state_ok (globals w) ->
  (~ valid (globals w) ch /\ set_switch ch v e w = Ret tt w) \/
  (valid (globals w) ch /\
   channel (switch_state (globals w)) !! Z.to_nat ch = Some v /\
   set_switch ch v e w = Ret tt w) \/
  (exists cur count w',
      valid (globals w) ch /\
      channel (switch_state (globals w)) !! Z.to_nat ch = Some cur /\
      toggle_count (switch_state (globals w)) !! Z.to_nat ch = Some count /\
      cur <> v /\
      set_switch ch v e w = Ret tt w' /\
      globals w' =
        mkGlobals (config (globals w))
                  (written (switch_state (globals w)) ch v (env_time e (n_time w)) count)
                  (last_report (globals w)) /\
      running w' = running w).
Proof.
  intros Hok.
  destruct (decide (ch < 0 \/ ch >= num_channels (config (globals w)))) as [Hout|Hin].
  { left. split; [unfold valid; lia | by apply set_switch_out_of_range]. }
  assert (valid (globals w) ch) as Hv by (unfold valid; lia).
  pose proof (valid_in_array _ _ Hok Hv) as Hch.
  pose proof Hok as [(Hc & Hl & Ht) HN].
  destruct (lookup_in_array (channel (switch_state (globals w))) 4 ch Hc) as [cur Hcur]; [lia|].
  destruct (lookup_in_array (toggle_count (switch_state (globals w))) 4 ch Ht) as [count Hcount]; [lia|].
  destruct (decide (cur = v)) as [->|Hne].
  { right. left. split; [exact Hv|]. split; [exact Hcur | by apply set_switch_same]. }
  destruct (set_switch_change e w ch v cur count Hok Hv Hcur Hcount Hne)
    as (w' & Hrun & Hg & Hr & _).
  right. right. exists cur, count, w'. auto 10.
Qed.

Lemma set_switch_keeps_running e (w : World Globals) ch v :
  state_ok (globals w) -> running (final (set_switch ch v e w)) = running w.
Proof.
  intros Hok.
  destruct (set_switch_cases e w ch v Hok)
    as [[_ Hrun]|[(_ & _ & Hrun)|(cur & count & w' & _ & _ & _ & _ & Hrun & _ & Hr)]];
    rewrite Hrun; cbn; auto.
Qed.

(** X1.  From a state whose arrays have [MAX_CHANNELS] elements and whose
    [num_channels] is at most that, [set_switch] returns for every channel
    and value; it leaves the configuration, [last_report], [running] and
    every other channel's state, time stamp and counter as they were; and
    when it changes the state of a valid channel, that channel's
    [last_toggle] becomes the clock reading of the call. *)
Theorem set_switch_touches_one_channel e (w : World Globals) ch v :
  state_ok (globals w) ->
  exists w',
    set_switch ch v e w = Ret tt w' /\
    config (globals w') = config (globals w) /\
    last_report (globals w') = last_report (globals w) /\
    running w' = running w /\
    same_elsewhere ch (switch_state (globals w)) (switch_state (globals w')) /\
    (forall cur,
        valid (globals w) ch ->
        channel (switch_state (globals w)) !! Z.to_nat ch = Some cur ->
        cur <> v ->
        last_toggle (switch_state (globals w')) !! Z.to_nat ch = Some (env_time e (n_time w))).
Proof.
  intros Hok.
  destruct (set_switch_cases e w ch v Hok)
    as [[Hnv Hrun]|[(Hv & Hcur & Hrun)|(cur & count & w' & Hv & Hcur & Hcount & Hne & Hrun & Hg & Hr)]].
  - exists w. split; [exact Hrun|]. do 3 (split; [reflexivity|]).
    split; [apply same_elsewhere_refl|]. intros cur Hv. contradiction.
  - exists w. split; [exact Hrun|]. do 3 (split; [reflexivity|]).
    split; [apply same_elsewhere_refl|]. intros cur _ Hcur' Hne. congruence.
  - exists w'. split; [exact Hrun|]. rewrite Hg. cbn.
    do 2 (split; [reflexivity|]). split; [exact Hr|].
    split; [apply written_elsewhere|]. intros _ _ _ _.
    apply list_lookup_insert_eq.
    pose proof (valid_in_array _ _ Hok Hv) as Hch.
    destruct Hok as [(_ & Hl & _) _]. rewrite Hl. unfold MAX_CHANNELS. lia.
Qed.

Lemma set_switch_touches_one_channel_witness :
  state_ok (globals four_off) /\
  exists w',
    set_switch 2 1 sample_env four_off = Ret tt w' /\
    config (globals w') = config (globals four_off) /\
    same_elsewhere 2 (switch_state (globals four_off)) (switch_state (globals w')).
Proof.
  split; [exact four_off_ok|].
  destruct (set_switch_touches_one_channel sample_env four_off 2 1 four_off_ok)
    as (w' & Hrun & Hconfig & _ & _ & Hrest & _).
  exists w'. split; [exact Hrun|]. split; [exact Hconfig | exact Hrest].
Defined.

(** X2.  [set_switch] is idempotent: writing the same value to the same
    channel twice in a row is the same run as writing it once (the second
    call finds the value in place, so it neither counts nor logs). *)
Theorem set_switch_twice_is_once e (w : World Globals) ch v :
  state_ok (globals w) ->
  (set_switch ch v;; set_switch ch v) e w = set_switch ch v e w.
Proof.
  intros Hok.
  destruct (set_switch_cases e w ch v Hok)
    as [[Hnv Hrun]|[(Hv & Hcur & Hrun)|(cur & count & w' & Hv & Hcur & Hcount & Hne & Hrun & Hg & Hr)]].
  - rewrite (run_bind_ret _ _ _ _ _ _ Hrun). reflexivity.
  - rewrite (run_bind_ret _ _ _ _ _ _ Hrun). reflexivity.
  - rewrite (run_bind_ret _ _ _ _ _ _ Hrun), Hrun.
    apply set_switch_same; rewrite Hg; cbn; [exact Hv|].
    apply list_lookup_insert_eq. eapply lookup_lt_Some. exact Hcur.
Qed.

Lemma set_switch_twice_is_once_witness :
  state_ok (globals four_off) /\
  (set_switch 2 1;; set_switch 2 1) sample_env four_off = set_switch 2 1 sample_env four_off.
Proof.
  split; [exact four_off_ok|].
  exact (set_switch_twice_is_once sample_env four_off 2 1 four_off_ok).
Defined.

(** What a toggle of a valid channel does to its value and counter. *)
Lemma toggle_switch_effect e (w : World Globals) ch cur c :
  state_ok (globals w) -> valid (globals w) ch ->
  channel (switch_state (globals w)) !! Z.to_nat ch = Some cur ->
  toggle_count (switch_state (globals w)) !! Z.to_nat ch = Some c ->
  exists w', toggle_switch ch e w = Ret tt w' /\
    state_ok (globals w') /\ config (globals w') = config (globals w) /\
    channel (switch_state (globals w')) !! Z.to_nat ch = Some (lnot cur) /\
    toggle_count (switch_state (globals w')) !! Z.to_nat ch = Some (ulong (c + 1)) /\
    same_elsewhere ch (switch_state (globals w)) (switch_state (globals w')).
Proof.
  intros Hok Hv Hcur Hc. unfold toggle_switch.
  rewrite (run_bind_ret _ _ _ _ _ _ (get_switch_valid e w ch cur Hv Hcur)).
  assert (cur <> lnot cur) as Hne by (unfold lnot; case_decide; lia).
  destruct (set_switch_change e w ch (lnot cur) cur c Hok Hv Hcur Hc Hne) as (w' & Hrun & Hg & _).
  exists w'. split; [exact Hrun|]. rewrite Hg. cbn.
  split; [split; [apply written_ok|]; apply Hok|]. split; [reflexivity|].
  split; [apply list_lookup_insert_eq; eapply lookup_lt_Some; exact Hcur|].
  split; [apply list_lookup_insert_eq; eapply lookup_lt_Some; exact Hc|].
  apply written_elsewhere.
Qed.

Lemma ulong_add_2 c : ulong (ulong (c + 1) + 1) = ulong (c + 2).
Proof. rewrite ulong_add_succ. f_equal. Qed.

(** X3.  Two [toggle_switch] calls on a valid channel return, add two to
    its counter ([unsigned long] arithmetic) and leave the other channels
    alone; the state comes back only as a truth value: a state of 0 comes
    back as 0, any other state as 1. *)
Theorem toggle_twice e (w : World Globals) ch cur c :
  state_ok (globals w) -> valid (globals w) ch ->
  channel (switch_state (globals w)) !! Z.to_nat ch = Some cur ->
  toggle_count (switch_state (globals w)) !! Z.to_nat ch = Some c ->
  exists w',
    (toggle_switch ch;; toggle_switch ch) e w = Ret tt w' /\
    channel (switch_state (globals w')) !! Z.to_nat ch = Some (if decide (cur = 0) then 0 else 1) /\
    toggle_count (switch_state (globals w')) !! Z.to_nat ch = Some (ulong (c + 2)) /\
    same_elsewhere ch (switch_state (globals w)) (switch_state (globals w')).
Proof.
  intros Hok Hv Hcur Hc.
  destruct (toggle_switch_effect e w ch cur c Hok Hv Hcur Hc)
    as (w1 & Hrun1 & Hok1 & Hcfg1 & Hcur1 & Hc1 & Hs1).
  assert (valid (globals w1) ch) as Hv1 by (unfold valid in *; rewrite Hcfg1; exact Hv).
  destruct (toggle_switch_effect e w1 ch _ _ Hok1 Hv1 Hcur1 Hc1)
    as (w2 & Hrun2 & _ & _ & Hcur2 & Hc2 & Hs2).
  exists w2. rewrite (run_bind_ret _ _ _ _ _ _ Hrun1). split; [exact Hrun2|].
  split; [rewrite Hcur2; f_equal; unfold lnot; repeat case_decide; lia|].
  split; [rewrite Hc2, ulong_add_2; reflexivity|].
  intros j Hj. destruct (Hs1 j Hj) as (A1 & B1 & C1). destruct (Hs2 j Hj) as (A2 & B2 & C2).
  repeat split; congruence.
Qed.

Lemma toggle_twice_witness :
  valid (globals four_off) 1 /\
  exists w',
    (toggle_switch 1;; toggle_switch 1) sample_env four_off = Ret tt w' /\
    channel (switch_state (globals w')) !! 1%nat = Some 0 /\
    toggle_count (switch_state (globals w')) !! 1%nat = Some 2.
Proof.
  assert (valid (globals four_off) 1) as Hv by (unfold valid; cbn; lia).
  split; [exact Hv|].
  destruct (toggle_twice sample_env four_off 1 0 0 four_off_ok Hv eq_refl eq_refl)
    as (w' & Hrun & Hch & Hcount & _).
  exists w'. split; [exact Hrun|]. split; [exact Hch | exact Hcount].
Defined.

Lemma set_all_none v lo s : set_all v lo lo s s.
Proof. intros j. split; [lia | auto]. Qed.

Lemma set_all_join v a b c s s1 s2 :
  (a <= b <= c)%nat -> set_all v a b s s1 -> set_all v b c s1 s2 -> set_all v a c s s2.
Proof.
  intros Habc H1 H2 j. destruct (H1 j) as [H1in H1out]. destruct (H2 j) as [H2in H2out].
  split.
  - intros Hj. destruct (decide (j < b)%nat) as [Hlt|Hge].
    + destruct H1in as [Hv Hc]; [lia|]. destruct H2out as (A & B & C); [lia|].
      split; [congruence|]. intros cur c0 Hcur Hc0. rewrite C. eauto.
    + destruct H2in as [Hv Hc]; [lia|]. destruct H1out as (A & B & C); [lia|].
      split; [exact Hv|]. intros cur c0 Hcur Hc0. apply Hc; congruence.
  - intros Hj. destruct H1out as (A1 & B1 & C1); [lia|]. destruct H2out as (A2 & B2 & C2); [lia|].
    repeat split; congruence.
Qed.

Lemma set_switch_valid_effect e (w : World Globals) ch v :
  state_ok (globals w) -> valid (globals w) ch ->
  exists w', set_switch ch v e w = Ret tt w' /\
    state_ok (globals w') /\ config (globals w') = config (globals w) /\
    set_all v (Z.to_nat ch) (S (Z.to_nat ch))
            (switch_state (globals w)) (switch_state (globals w')).
Proof.
  intros Hok Hv.
  destruct (set_switch_cases e w ch v Hok)
    as [[Hnv Hrun]|[(_ & Hcur & Hrun)|(cur & count & w' & _ & Hcur & Hcount & Hne & Hrun & Hg & Hr)]].
  - contradiction.
  - exists w. split; [exact Hrun|]. split; [exact Hok|]. split; [reflexivity|].
    intros j. split; [|auto]. intros Hj. assert (j = Z.to_nat ch) as -> by lia.
    split; [exact Hcur|]. intros cur c Hcur' Hc.
    rewrite decide_True by congruence. exact Hc.
  - exists w'. split; [exact Hrun|]. rewrite Hg. cbn.
    split; [split; [apply written_ok|]; apply Hok|]. split; [reflexivity|].
    intros j. split.
    + intros Hj. assert (j = Z.to_nat ch) as -> by lia.
      split; [apply list_lookup_insert_eq; eapply lookup_lt_Some; exact Hcur|].
      intros cur' c Hcur' Hc.
      rewrite decide_False by congruence.
      replace c with count by congruence.
      apply list_lookup_insert_eq. eapply lookup_lt_Some. exact Hcount.
    + intros Hj. apply written_elsewhere. lia.
Qed.

Lemma for_set_switch_effect e v rounds :
  forall i0 (w : World Globals),
    0 <= i0 ->
    ((0 < rounds)%nat -> i0 + Z.of_nat rounds <= num_channels (config (globals w))) ->
    state_ok (globals w) ->
    exists w', for_from rounds i0 (fun i => set_switch i v) e w = Ret tt w' /\
      state_ok (globals w') /\ config (globals w') = config (globals w) /\
      running w' = running w /\
      set_all v (Z.to_nat i0) (Z.to_nat i0 + rounds)
              (switch_state (globals w)) (switch_state (globals w')).
Proof.
  induction rounds as [|n IH]; intros i0 w Hi0 Hle Hok.
  - exists w. split; [reflexivity|]. split; [exact Hok|]. do 2 (split; [reflexivity|]).
    rewrite Nat.add_0_r. apply set_all_none.
  - cbn [for_from].
    assert (valid (globals w) i0) as Hv by (unfold valid; lia).
    destruct (set_switch_valid_effect e w i0 v Hok Hv) as (w1 & Hrun1 & Hok1 & Hcfg1 & Hset1).
    pose proof (set_switch_keeps_running e w i0 v Hok) as Hr1.
    rewrite Hrun1 in Hr1. cbn in Hr1.
    rewrite (run_bind_ret _ _ _ _ _ _ Hrun1).
    destruct (IH (i0 + 1) w1) as (w2 & Hrun2 & Hok2 & Hcfg2 & Hr2 & Hset2);
      [lia | rewrite Hcfg1; lia | exact Hok1 |].
    exists w2. split; [exact Hrun2|]. split; [exact Hok2|].
    split; [congruence|]. split; [congruence|].
    eapply set_all_join; [|exact Hset1|].
    + lia.
    + replace (S (Z.to_nat i0)) with (Z.to_nat (i0 + 1)) by lia.
      replace (Z.to_nat i0 + S n)%nat with (Z.to_nat (i0 + 1) + n)%nat by lia.
      exact Hset2.
Qed.

(** X4.  The commands [all_on] and [all_off] ignore their channel argument
    and return; afterwards every valid channel reads as the value they
    write, each channel below [num_channels] whose state changed has its
    counter up by one, the channels from [num_channels] on are untouched,
    and the configuration is as before. *)
Theorem all_on_and_all_off e (w : World Globals) command ch v :
  state_ok (globals w) ->
  (command = "all_on" /\ v = 1) \/ (command = "all_off" /\ v = 0) ->
  exists w',
    execute_command command ch e w = Ret tt w' /\
    config (globals w') = config (globals w) /\
    set_all v 0 (Z.to_nat (num_channels (config (globals w))))
            (switch_state (globals w)) (switch_state (globals w')) /\
    (forall i, valid (globals w) i -> get_switch i e w' = Ret v w').
Proof.
  intros Hok Hcmd.
  assert (exists w',
             execute_command command ch e w = Ret tt w' /\
             state_ok (globals w') /\
             config (globals w') = config (globals w) /\
             set_all v 0 (Z.to_nat (num_channels (config (globals w))))
                     (switch_state (globals w)) (switch_state (globals w')))
    as (w' & Hrun & Hok' & Hcfg & Hset).
  { unfold execute_command. rewrite run_bind, log_message_run.
    set (w0 := mkWorld _ _ _ _ _ _ _ _ _).
    destruct (for_set_switch_effect e v (Z.to_nat (num_channels (config (globals w0)))) 0 w0)
      as (w' & Hrun & Hok' & Hcfg & _ & Hset); [lia | cbn; lia | exact Hok |].
    exists w'. split; [|auto].
    destruct Hcmd as [[-> ->]|[-> ->]]; cbn [String.eqb Ascii.eqb Bool.eqb];
      rewrite run_bind; cbn [get]; exact Hrun. }
  exists w'. split; [exact Hrun|]. split; [exact Hcfg|]. split; [exact Hset|].
  intros i Hv. apply get_switch_valid; [unfold valid in *; rewrite Hcfg; exact Hv|].
  apply (Hset (Z.to_nat i)). unfold valid in Hv. lia.
Qed.

Lemma all_on_and_all_off_witness :
  state_ok (globals four_off) /\
  exists w',
    execute_command "all_on" 0 sample_env four_off = Ret tt w' /\
    forall i, valid (globals four_off) i -> get_switch i sample_env w' = Ret 1 w'.
Proof.
  split; [exact four_off_ok|].
  destruct (all_on_and_all_off sample_env four_off "all_on" 0 1 four_off_ok
              (or_introl (conj eq_refl eq_refl)))
    as (w' & Hrun & _ & _ & Hget).
  exists w'. split; [exact Hrun | exact Hget].
Defined.

(** X5.  A command that [execute_command] does not know, and an [on],
    [off] or [toggle] for a channel outside [0 .. num_channels - 1], do
    nothing but write the [Command: ... on channel ...] log line: no error is
    printed and the state is not touched. *)
Theorem rejected_commands_are_only_logged e (w : World Globals) command ch :
  known_command command = false \/
  (addresses_channel command = true /\
   (ch < 0 \/ ch >= num_channels (config (globals w)))) ->
  execute_command command ch e w = log_message "INFO" (MsgCommand command ch) e w.
Proof.
  intros H. unfold execute_command. rewrite run_bind, log_message_run.
  set (w0 := mkWorld _ _ _ _ _ _ _ _ _).
  destruct H as [Hunknown|[Haddr Hout]].
  - unfold known_command in Hunknown.
    destruct (String.eqb command "on"); [discriminate|].
    destruct (String.eqb command "off"); [discriminate|].
    destruct (String.eqb command "toggle"); [discriminate|].
    destruct (String.eqb command "status"); [discriminate|].
    destruct (String.eqb command "all_on"); [discriminate|].
    destruct (String.eqb command "all_off"); [discriminate|].
    reflexivity.
  - assert (ch < 0 \/ ch >= num_channels (config (globals w0))) as Hout0 by exact Hout.
    unfold addresses_channel in Haddr.
    destruct (String.eqb command "on"); [by apply set_switch_out_of_range|].
    destruct (String.eqb command "off"); [by apply set_switch_out_of_range|].
    destruct (String.eqb command "toggle"); [|discriminate].
    unfold toggle_switch.
    rewrite (run_bind_ret _ _ _ _ _ _ (get_switch_out_of_range e w0 ch Hout0)).
    by apply set_switch_out_of_range.
Qed.

Lemma rejected_commands_are_only_logged_witness :
  known_command "blink" = false /\
  execute_command "blink" 0 sample_env four_off =
  log_message "INFO" (MsgCommand "blink" 0) sample_env four_off.
Proof.
  split; [reflexivity|].
  exact (rejected_commands_are_only_logged sample_env four_off "blink" 0 (or_introl eq_refl)).
Defined.

Lemma status_rows_trace e rounds :
  forall (i0 : nat) (w : World Globals),
    (i0 + rounds <= 4)%nat -> arrays_ok (switch_state (globals w)) ->
    for_from rounds (Z.of_nat i0) (fun i =>
      g ← get;
      state ← load (channel (switch_state g)) i;
      count ← load (toggle_count (switch_state g)) i;
      emit (EvStdout (StatusRow i state count))) e w =
    Ret tt (mkWorld (globals w) (running w)
                    (trace w ++ map (status_row (switch_state (globals w))) (seq i0 rounds))
                    (n_time w) (n_init w) (n_perform w) (n_signal w) (n_rand w)
                    (n_sysinfo w)).
Proof.
  induction rounds as [|n IH]; intros i0 w Hle Harr.
  - cbn. destruct w; cbn. rewrite app_nil_r. reflexivity.
  - cbn [for_from]. rewrite run_bind. rewrite run_bind. cbn [get].
    pose proof Harr as (Hc & _ & Ht).
    destruct (lookup_in_array (channel (switch_state (globals w))) 4 (Z.of_nat i0) Hc)
      as [x Hx]; [lia|].
    destruct (lookup_in_array (toggle_count (switch_state (globals w))) 4 (Z.of_nat i0) Ht)
      as [c Hcnt]; [lia|].
    rewrite (run_bind_ret _ _ _ _ x w) by (apply load_ok; [lia|done]).
    rewrite (run_bind_ret _ _ _ _ c w) by (apply load_ok; [lia|done]).
    cbn [emit].
    replace (Z.of_nat i0 + 1) with (Z.of_nat (S i0)) by lia.
    rewrite IH; [| lia | exact Harr].
    cbn [globals running trace n_time n_init n_perform n_signal n_rand n_sysinfo seq map].
    rewrite Nat2Z.id in Hx, Hcnt.
    unfold status_row at 2. rewrite Hx, Hcnt. cbn [default].
    rewrite <- app_assoc. reflexivity.
Qed.

(** X6.  [print_status] prints the header, one row for each channel below
    [num_channels] in order (its index, state and toggle count) and the
    footer, and changes nothing else in the process. *)
Theorem print_status_rows e (w : World Globals) :
  state_ok (globals w) ->
  print_status e w =
  Ret tt (mkWorld (globals w) (running w)
                  (trace w ++ [EvStdout StatusHeader]
                   ++ map (status_row (switch_state (globals w)))
                          (seq 0 (Z.to_nat (num_channels (config (globals w)))))
                   ++ [EvStdout StatusFooter])
                  (n_time w) (n_init w) (n_perform w) (n_signal w) (n_rand w)
                  (n_sysinfo w)).
Proof.
  intros [Harr HN]. unfold print_status, for_upto.
  rewrite run_bind. cbn [emit]. rewrite run_bind. cbn [get globals].
  rewrite run_bind.
  change 0 with (Z.of_nat 0) at 1.
  rewrite status_rows_trace; [| unfold MAX_CHANNELS in HN; lia | exact Harr].
  cbn [emit globals running trace n_time n_init n_perform n_signal n_rand n_sysinfo].
  apply ret_world_eq; try reflexivity.
  cbn [trace]. rewrite <- !app_assoc. reflexivity.
Qed.

Lemma print_status_rows_witness :
  state_ok (globals toggled_2_and_3) /\
  trace (final (print_status sample_env toggled_2_and_3)) =
  [EvStdout StatusHeader;
   EvStdout (StatusRow 0 0 0); EvStdout (StatusRow 1 0 0);
   EvStdout (StatusRow 2 1 5); EvStdout (StatusRow 3 1 7);
   EvStdout StatusFooter].
Proof.
  assert (state_ok (globals toggled_2_and_3)) as Hok
    by (unfold state_ok, arrays_ok, MAX_CHANNELS; cbn; lia).
  split; [exact Hok|].
  rewrite (print_status_rows sample_env toggled_2_and_3 Hok). reflexivity.
Defined.

Lemma channels_data_take e rounds :
  forall (i0 : nat) acc (w : World Globals),
    state_ok (globals w) ->
    (i0 + rounds <= Z.to_nat (num_channels (config (globals w))))%nat ->
    channels_data rounds (Z.of_nat i0) acc e w =
    Ret (acc ++ take rounds (drop i0 (channel (switch_state (globals w))))) w.
Proof.
  induction rounds as [|n IH]; intros i0 acc w Hok Hle.
  - cbn. rewrite app_nil_r. reflexivity.
  - cbn [channels_data].
    assert (valid (globals w) (Z.of_nat i0)) as Hv by (unfold valid; lia).
    pose proof (valid_in_array _ _ Hok Hv) as Hch.
    pose proof Hok as [(Hc & _) _].
    destruct (lookup_in_array (channel (switch_state (globals w))) 4 (Z.of_nat i0) Hc)
      as [x Hx]; [lia|].
    rewrite (run_bind_ret _ _ _ _ _ _ (get_switch_valid e w _ x Hv Hx)).
    replace (Z.of_nat i0 + 1) with (Z.of_nat (S i0)) by lia.
    rewrite IH by (assumption || lia).
    rewrite Nat2Z.id in Hx.
    rewrite (drop_S _ _ _ Hx). cbn [take]. rewrite <- app_assoc. reflexivity.
Qed.

Lemma report_status_world e (w : World Globals) c0 c1 :
  state_ok (globals w) ->
  toggle_count (switch_state (globals w)) !! 0%nat = Some c0 ->
  toggle_count (switch_state (globals w)) !! 1%nat = Some c1 ->
  (env_curl_easy_init e (n_init w) = true -> reply_fits e (n_perform w)) ->
  report_status e w =
  Ret (if env_curl_easy_init e (n_init w)
       then status_of (env_curl_easy_perform e (n_perform w)) else -1)
      (mkWorld (globals w) (running w)
               (trace w ++
                status_events e w
                  (take (Z.to_nat (num_channels (config (globals w))))
                        (channel (switch_state (globals w))))
                  (ulong (c0 + c1)))
               (n_time w) (S (n_init w))
               (n_perform w + if env_curl_easy_init e (n_init w) then 1 else 0)
               (n_signal w) (n_rand w) (n_sysinfo w)).
Proof.
  intros Hok H0 H1 Hreply. unfold report_status.
  rewrite run_bind. cbn [get].
  change 0 with (Z.of_nat 0) at 1.
  rewrite (run_bind_ret _ _ _ _ _ _
             (channels_data_take e (Z.to_nat (num_channels (config (globals w)))) 0 [] w Hok
                (Nat.le_refl _))).
  rewrite (run_bind_ret _ _ _ _ c0 w) by (apply load_ok; [lia|exact H0]).
  rewrite (run_bind_ret _ _ _ _ c1 w) by (apply load_ok; [lia|exact H1]).
  rewrite run_bind. unfold status_events. cbn [curl_easy_init app drop].
  destruct (env_curl_easy_init e (n_init w)); cbn [negb].
  - rewrite run_bind. perform_fits (Hreply eq_refl).
    cbn [globals n_perform trace]. cbn. same_world.
  - cbn. same_world.
Qed.

(** X7.  When libcurl gives no handle, or the reply of the panel fits
    [response], [report_status] returns: 0 exactly when there is a handle
    and the transfer succeeds, and -1 otherwise; the body it sends holds the
    states of the channels below [num_channels] and, as [total_toggles],
    the sum of the counters of channels 0 and 1; the globals and [running]
    are as before. *)
Theorem report_status_payload e (w : World Globals) c0 c1 :
  state_ok (globals w) ->
  toggle_count (switch_state (globals w)) !! 0%nat = Some c0 ->
  toggle_count (switch_state (globals w)) !! 1%nat = Some c1 ->
  (env_curl_easy_init e (n_init w) = true -> reply_fits e (n_perform w)) ->
  exists w',
    report_status e w =
      Ret (if env_curl_easy_init e (n_init w)
           then status_of (env_curl_easy_perform e (n_perform w)) else -1) w' /\
    globals w' = globals w /\ running w' = running w /\
    trace w' =
      trace w ++
      status_events e w
        (take (Z.to_nat (num_channels (config (globals w))))
              (channel (switch_state (globals w))))
        (ulong (c0 + c1)).
Proof.
  intros Hok H0 H1 Hreply.
  eexists. split; [apply (report_status_world e w c0 c1); assumption|].
  cbn. auto.
Qed.

Lemma report_status_payload_witness :
  state_ok (globals four_off) /\
  exists w',
    report_status sample_env four_off = Ret 0 w' /\
    globals w' = globals four_off.
Proof.
  split; [exact four_off_ok|].
  assert (reply_fits sample_env (n_perform four_off)) as Hreply by (eexists; reflexivity).
  destruct (report_status_payload sample_env four_off 0 0 four_off_ok eq_refl eq_refl
              (fun _ => Hreply))
    as (w' & Hrun & Hg & _).
  exists w'. split; [exact Hrun | exact Hg].
Defined.

Lemma status_events_counts e (w : World Globals) channels total :
  count is_curl_init (status_events e w channels total) = 1%nat /\
  count is_report (status_events e w channels total) =
    (if env_curl_easy_init e (n_init w) then 1 else 0)%nat.
Proof.
  unfold status_events. destruct (env_curl_easy_init e (n_init w)); cbn; auto.
Qed.

Lemma toggle_counts_0_and_1 (g : Globals) :
  state_ok g ->
  exists c0 c1,
    toggle_count (switch_state g) !! 0%nat = Some c0 /\
    toggle_count (switch_state g) !! 1%nat = Some c1.
Proof.
  intros [(_ & _ & Hlen) _]. unfold MAX_CHANNELS in Hlen.
  destruct (toggle_count (switch_state g)) as [|c0 [|c1 l]]; cbn in Hlen; try lia.
  exists c0, c1. split; reflexivity.
Qed.

(** X8.  At the end of a round of the command loop the switch reports only
    when at least [report_interval] seconds of the clock have passed since
    [last_report]: then it calls [report_status] once and, the reply of
    the panel fitting [response], stores a second clock reading in
    [last_report]; otherwise it prints and sends nothing and [last_report]
    stays.  The switch state and configuration are as before in both
    cases. *)
Theorem report_waits_for_the_interval e (w : World Globals) :
  let elapsed := env_time e (n_time w) - last_report (globals w) in
  state_ok (globals w) ->
  in_long elapsed ->
  (elapsed >= report_interval (config (globals w)) ->
   env_curl_easy_init e (n_init w) = true -> reply_fits e (n_perform w)) ->
  exists w',
    report_if_due e w = Ret tt w' /\
    config (globals w') = config (globals w) /\
    switch_state (globals w') = switch_state (globals w) /\
    running w' = running w /\
    if decide (elapsed >= report_interval (config (globals w))) then
      last_report (globals w') = env_time e (S (n_time w)) /\
      count is_curl_init (trace w') = S (count is_curl_init (trace w)) /\
      count is_report (trace w') =
        (count is_report (trace w) + if env_curl_easy_init e (n_init w) then 1 else 0)%nat
    else
      last_report (globals w') = last_report (globals w) /\ trace w' = trace w.
Proof.
  intros elapsed Hok Hlong Hreply. unfold report_if_due.
  rewrite run_bind. cbn [time]. rewrite run_bind. cbn [get globals n_time].
  fold elapsed. rewrite decide_True by exact Hlong.
  case_decide as Hdue.
  - destruct (toggle_counts_0_and_1 _ Hok) as (c0 & c1 & H0 & H1).
    rewrite run_bind.
    match goal with |- context [report_status e ?w1] =>
      rewrite (report_status_world e w1 c0 c1 Hok H0 H1 (Hreply Hdue)) end.
    rewrite run_bind. cbn [time n_time]. unfold set_last_report.
    eexists. split; [reflexivity|]. cbn.
    match goal with |- context [status_events e ?w1 ?c ?t] =>
      destruct (status_events_counts e w1 c t) as [Hi Hr] end.
    rewrite !count_app, Hi, Hr. cbn. repeat split; lia.
  - rewrite run_ret. eexists. split; [reflexivity|]. cbn. auto.
Qed.

Lemma report_waits_for_the_interval_witness :
  in_long (env_time sample_env (n_time four_off) - last_report (globals four_off)) /\
  exists w',
    report_if_due sample_env four_off = Ret tt w' /\
    switch_state (globals w') = switch_state (globals four_off).
Proof.
  assert (in_long (env_time sample_env (n_time four_off) - last_report (globals four_off)))
    as Hlong by (unfold in_long, LONG_MIN, LONG_MAX; cbn; lia).
  split; [exact Hlong|].
  assert (reply_fits sample_env (n_perform four_off)) as Hreply by (eexists; reflexivity).
  destruct (report_waits_for_the_interval sample_env four_off four_off_ok Hlong
              (fun _ _ => Hreply))
    as (w' & Hrun & _ & Hstate & _).
  exists w'. split; [exact Hrun | exact Hstate].
Defined.

Section Stays.
Context {G X : Type} (f : World G -> X).
Hypothesis frame :
  forall g r t t' nt nt' ni ni' np np' ns ns' nr nr' nsi nsi',
    f (mkWorld g r t nt ni np ns nr nsi) = f (mkWorld g r t' nt' ni' np' ns' nr' nsi').

Lemma stays_frame {A} (m : M G A) :
  (forall e w, globals (final (m e w)) = globals w /\ running (final (m e w)) = running w) ->
  stays f m.
Proof.
  intros H e w. destruct (H e w) as [Hg Hr].
  destruct (final (m e w)) as [g r t nt ni np ns nr nsi], w as [g0 r0 t0 nt0 ni0 np0 ns0 nr0 nsi0].
  cbn in Hg, Hr. subst. apply frame.
Qed.

Lemma stays_ret {A} (a : A) : stays f (mret a : M G A).
Proof. intros e w. reflexivity. Qed.

Lemma stays_halt {A} h : stays f (halt h : M G A).
Proof. intros e w. reflexivity. Qed.

Lemma stays_bind {A B} (m : M G A) (k : A -> M G B) :
  stays f m -> (forall a, stays f (k a)) -> stays f (m ≫= k).
Proof.
  intros Hm Hk e w. rewrite run_bind. specialize (Hm e w).
  destruct (m e w) as [a w1|h w1]; cbn [final] in *.
  - rewrite Hk. exact Hm.
  - exact Hm.
Qed.

Lemma stays_emit ev : stays f (emit ev : M G unit).
Proof. apply stays_frame. intros e w. split; reflexivity. Qed.

Lemma stays_get : stays f (get : M G G).
Proof. intros e w. reflexivity. Qed.

Lemma stays_time : stays f (time : M G Z).
Proof. apply stays_frame. intros e w. split; reflexivity. Qed.

Lemma stays_rand : stays f (rand : M G Z).
Proof. apply stays_frame. intros e w. split; reflexivity. Qed.

Lemma stays_sysinfo : stays f (sysinfo : M G Sysinfo).
Proof. apply stays_frame. intros e w. split; reflexivity. Qed.

Lemma stays_load a i : stays f (load a i : M G Z).
Proof.
  intros e w. unfold load.
  destruct (if decide (0 <= i) then a !! Z.to_nat i else None); reflexivity.
Qed.

Lemma stays_store a i v : stays f (store a i v : M G (list Z)).
Proof. intros e w. unfold store. case_decide; reflexivity. Qed.

Lemma stays_curl_easy_init : stays f (curl_easy_init : M G bool).
Proof. apply stays_frame. intros e w. split; reflexivity. Qed.

Lemma stays_curl_easy_perform req : stays f (curl_easy_perform req : M G Z).
Proof.
  apply stays_frame. intros e w. rewrite curl_easy_perform_final. split; reflexivity.
Qed.

Lemma stays_log_message level msg : stays f (log_message level msg : M G unit).
Proof. apply stays_frame. intros e w. split; reflexivity. Qed.

Lemma stays_modify (h : G -> G) :
  (forall w, f (with_globals (h (globals w)) w) = f w) -> stays f (modify h).
Proof. intros H e w. apply H. Qed.

Lemma stays_set_running b :
  (forall w, f (with_running b w) = f w) -> stays f (set_running b : M G unit).
Proof. intros H e w. apply H. Qed.

Lemma stays_read_running :
  (forall w, f (with_running false w) = f w) -> stays f (read_running : M G bool).
Proof.
  intros H e w. unfold read_running.
  destruct (env_signal e (n_signal w)).
  - cbn. destruct w as [g r t nt ni np ns nr nsi]. cbn.
    specialize (H (mkWorld g r t nt ni np ns nr nsi)). cbn in H. rewrite <- H.
    apply frame.
  - cbn. destruct w. apply frame.
Qed.

Lemma stays_for_from (body : Z -> M G unit) rounds :
  (forall i, stays f (body i)) -> forall i0, stays f (for_from rounds i0 body).
Proof.
  intros Hb. induction rounds as [|n IH]; intros i0; cbn [for_from].
  - apply stays_ret.
  - apply stays_bind; [apply Hb | intros _; apply IH].
Qed.

End Stays.

Ltac stays_step :=
  lazymatch goal with
  | |- stays _ (_ ≫= _) => apply stays_bind; [|intros ?]
  | |- stays _ (mret _) => apply stays_ret
  | |- stays _ (halt _) => apply stays_halt
  | |- stays _ (emit _) => apply stays_emit; intros; reflexivity
  | |- stays _ get => apply stays_get
  | |- stays _ time => apply stays_time; intros; reflexivity
  | |- stays _ rand => apply stays_rand; intros; reflexivity
  | |- stays _ sysinfo => apply stays_sysinfo; intros; reflexivity
  | |- stays _ (load _ _) => apply stays_load
  | |- stays _ (store _ _ _) => apply stays_store
  | |- stays _ curl_easy_init => apply stays_curl_easy_init; intros; reflexivity
  | |- stays _ (curl_easy_perform _) => apply stays_curl_easy_perform; intros; reflexivity
  | |- stays _ (log_message _ _) => apply stays_log_message; intros; reflexivity
  | |- stays _ (modify _) => apply stays_modify; intros; reflexivity
  | |- stays _ (set_running _) => apply stays_set_running; intros; reflexivity
  | |- stays _ read_running => apply stays_read_running; intros; reflexivity
  | |- stays _ (for_from _ _ _) => apply stays_for_from; intros ?
  | |- stays _ (for_upto _ _) => apply stays_for_from; intros ?
  | |- stays _ (if ?b then _ else _) => destruct b
  | |- stays _ (match ?x with _ => _ end) => destruct x
  end.

Ltac stays_auto := repeat stays_step.

(** *** [running] and the configuration across the switch's code *)

Lemma set_switch_stays_running ch v : stays running (set_switch ch v).
Proof. unfold set_switch, set_switch_state. stays_auto. Qed.

Lemma get_switch_stays_running ch : stays running (get_switch ch).
Proof. unfold get_switch. stays_auto. Qed.

Lemma print_status_stays_running : stays running print_status.
Proof. unfold print_status. stays_auto. Qed.

Lemma channels_data_stays_running rounds :
  forall i acc, stays running (channels_data rounds i acc).
Proof.
  induction rounds as [|n IH]; intros i acc; cbn [channels_data].
  - apply stays_ret.
  - apply stays_bind; [apply get_switch_stays_running | intros ?; apply IH].
Qed.

Lemma report_status_stays_running : stays running report_status.
Proof. unfold report_status. stays_auto; apply channels_data_stays_running. Qed.

Lemma report_if_due_stays_running : stays running report_if_due.
Proof.
  unfold report_if_due, set_last_report. stays_auto; apply report_status_stays_running.
Qed.

Lemma execute_command_stays_running command ch : stays running (execute_command command ch).
Proof.
  unfold execute_command, toggle_switch. stays_auto;
    first [ apply set_switch_stays_running | apply get_switch_stays_running
          | apply print_status_stays_running ].
Qed.

Lemma set_switch_stays_config ch v : stays config_of (set_switch ch v).
Proof. unfold set_switch, set_switch_state. stays_auto. Qed.

Lemma get_switch_stays_config ch : stays config_of (get_switch ch).
Proof. unfold get_switch. stays_auto. Qed.

Lemma print_status_stays_config : stays config_of print_status.
Proof. unfold print_status. stays_auto. Qed.

Lemma channels_data_stays_config rounds :
  forall i acc, stays config_of (channels_data rounds i acc).
Proof.
  induction rounds as [|n IH]; intros i acc; cbn [channels_data].
  - apply stays_ret.
  - apply stays_bind; [apply get_switch_stays_config | intros ?; apply IH].
Qed.

Lemma report_status_stays_config : stays config_of report_status.
Proof. unfold report_status. stays_auto; apply channels_data_stays_config. Qed.

Lemma report_if_due_stays_config : stays config_of report_if_due.
Proof.
  unfold report_if_due, set_last_report. stays_auto; apply report_status_stays_config.
Qed.

Lemma execute_command_stays_config command ch : stays config_of (execute_command command ch).
Proof.
  unfold execute_command, toggle_switch. stays_auto;
    first [ apply set_switch_stays_config | apply get_switch_stays_config
          | apply print_status_stays_config ].
Qed.

Lemma command_loop_stays_config buffers : stays config_of (command_loop buffers).
Proof.
  induction buffers as [|buffer rest IH]; cbn [command_loop]; [stays_auto|].
  stays_auto;
    first [ exact IH | apply print_status_stays_config | apply execute_command_stays_config
          | apply report_if_due_stays_config ].
Qed.

Lemma switch_run_stays_config input : stays config_of (Switch.run input).
Proof.
  unfold Switch.run, startup, register_device, main_loop, cleanup, pthread_join.
  stays_auto; apply command_loop_stays_config.
Qed.

Lemma sensor_main_loop_stays_globals fuel :
  forall cycle, stays globals (Sensor.main_loop fuel cycle).
Proof.
  assert (forall rounds, stays (G:=Sensor.Config) globals (Sensor.sleep_interval rounds)) as Hsleep.
  { induction rounds as [|n IH]; cbn [Sensor.sleep_interval]; stays_auto. exact IH. }
  induction fuel as [|n IH]; intros cycle; cbn [Sensor.main_loop]; [apply stays_halt|].
  unfold Sensor.cycle_body, Sensor.read_temperature, Sensor.read_humidity,
    Sensor.report_metrics, Sensor.memory_usage_percent.
  stays_auto; first [apply Hsleep | apply IH].
Qed.

Lemma sensor_run_stays_globals fuel : stays globals (Sensor.run fuel).
Proof.
  unfold Sensor.run, Sensor.startup, Sensor.register_device, Sensor.cleanup.
  stays_auto; apply sensor_main_loop_stays_globals.
Qed.

(** X9.  Once [load_config] has returned, nothing writes the configuration:
    however the rest of [main] ends, the switch's [config] and all of the
    sensor's globals are what they were. *)
Theorem configuration_is_read_only_after_load
    input e_switch (w_switch : World Globals) fuel e_sensor (w_sensor : World Sensor.Config) :
  config (globals (final (Switch.run input e_switch w_switch))) = config (globals w_switch) /\
  globals (final (Sensor.run fuel e_sensor w_sensor)) = globals w_sensor.
Proof.
  split; [apply switch_run_stays_config | apply sensor_run_stays_globals].
Qed.

(** *** The command loop *)

Lemma stopped_loop_reads_nothing buffers e (w : World Globals) :
  running w = false -> command_loop buffers e w = command_loop [] e w.
Proof.
  intros Hstop. destruct buffers as [|buffer rest]; [reflexivity|].
  cbn [command_loop]. rewrite !run_bind. unfold read_running.
  destruct (env_signal e (n_signal w)).
  - reflexivity.
  - cbn [running]. rewrite Hstop. reflexivity.
Qed.

(** X10.  After a [quit] or [exit] line the command loop reads no further
    input: the run is the same whatever lines follow. *)
Theorem nothing_runs_after_quit line rest rest' cmd ch e (w : World Globals) :
  sscanf_command (chomp (cstr line)) = Some (cmd, ch) ->
  cmd = "quit" \/ cmd = "exit" ->
  command_loop (line :: rest) e w = command_loop (line :: rest') e w.
Proof.
  intros Hscan Hcmd. cbn [command_loop]. rewrite !run_bind.
  destruct (read_running e w) as [[|] w1|h w1]; [|reflexivity|reflexivity].
  rewrite !run_bind. cbn [emit].
  destruct (chomp (cstr line)) as [|c0 input] eqn:Hin; [cbn in Hscan; discriminate|].
  cbn [is_empty]. rewrite Hscan.
  destruct (32 <=? String.length cmd)%nat; [reflexivity|].
  assert (String.eqb cmd "quit" || String.eqb cmd "exit" = true) as ->
    by (destruct Hcmd as [-> | ->]; reflexivity).
  rewrite !run_bind. cbn [set_running].
  set (w2 := with_running false _). rewrite !run_bind.
  pose proof (report_if_due_stays_running e w2) as Hr.
  destruct (report_if_due e w2) as [[] w3|h w3]; [|reflexivity].
  cbn [final] in Hr.
  rewrite (stopped_loop_reads_nothing rest), (stopped_loop_reads_nothing rest') by exact Hr.
  reflexivity.
Qed.

Lemma nothing_runs_after_quit_witness :
  sscanf_command (chomp (cstr "quit
")) = Some ("quit", 0) /\
  command_loop ["quit
"; "all_on
"] sample_env four_off =
  command_loop ["quit
"] sample_env four_off.
Proof.
  split; [reflexivity|].
  exact (nothing_runs_after_quit "quit
" ["all_on
"] [] "quit" 0 sample_env four_off eq_refl (or_introl eq_refl)).
Defined.

(** X11.  A line that is not empty but holds no word leaves [cmd] unset,
    and a word of 32 characters or more overflows [cmd[32]]: the loop has
    printed the prompt, and what follows is undefined behaviour; the
    globals are untouched up to there. *)
Theorem unusable_lines_are_undefined_behaviour line rest e (w : World Globals) :
  running w = true ->
  env_signal e (n_signal w) = false ->
  is_empty (chomp (cstr line)) = false ->
  let cmd := fst (word (skip_space (chomp (cstr line)))) in
  cmd = "" \/ (32 <= String.length cmd)%nat ->
  exists what w',
    command_loop (line :: rest) e w = Halted (Undefined what) w' /\
    input_fault (Undefined what) /\
    globals w' = globals w /\
    trace w' = trace w ++ [EvStdout Prompt].
Proof.
  intros Hrun Hquiet Hne cmd Hbad. cbn [command_loop]. rewrite !run_bind.
  unfold read_running. rewrite Hquiet. cbn [running]. rewrite Hrun.
  rewrite !run_bind. cbn [emit]. rewrite Hne. unfold sscanf_command.
  subst cmd. destruct (word (skip_space (chomp (cstr line)))) as [cmd after]. cbn [fst] in Hbad.
  destruct Hbad as [-> | Hlong].
  - eexists _, _. split; [reflexivity|]. split; [left; reflexivity|]. split; reflexivity.
  - destruct cmd as [|c0 cmd]; [cbn in Hlong; lia|].
    rewrite (proj2 (Nat.leb_le _ _) Hlong).
    eexists _, _. split; [reflexivity|]. split; [right; left; reflexivity|]. split; reflexivity.
Qed.

Lemma unusable_lines_are_undefined_behaviour_witness :
  (32 <= String.length (fst (word (skip_space (chomp (cstr "toggle_every_channel_of_the_switch 1
"))))))%nat /\
  exists what w',
    command_loop ["toggle_every_channel_of_the_switch 1
"; "status
"] sample_env four_off = Halted (Undefined what) w' /\
    globals w' = globals four_off.
Proof.
  assert (32 <= String.length (fst (word (skip_space (chomp (cstr
            "toggle_every_channel_of_the_switch 1
"))))))%nat as Hlong by (vm_compute; lia).
  split; [exact Hlong|].
  destruct (unusable_lines_are_undefined_behaviour "toggle_every_channel_of_the_switch 1
" ["status
"] sample_env four_off eq_refl eq_refl eq_refl (or_intror Hlong))
    as (what & w' & Hrun & _ & Hg & _).
  exists what, w'. split; [exact Hrun | exact Hg].
Defined.

Section Guards.
Context (ok : Halt -> Prop).

Lemma guards_ret {A} (a : A) : guards ok (mret a).
Proof. intros e w Hok. cbn. auto. Qed.

Lemma guards_halt {A} h : ok h -> guards ok (halt h : P A).
Proof. intros Hh e w Hok. cbn. auto. Qed.

Lemma guards_bind {A B} (m : P A) (k : A -> P B) :
  guards ok m -> (forall a, guards ok (k a)) -> guards ok (m ≫= k).
Proof.
  intros Hm Hk e w Hok. rewrite run_bind. specialize (Hm e w Hok).
  destruct (m e w) as [a w1|h w1]; [|exact Hm].
  destruct Hm as [Hok1 Hcfg1]. specialize (Hk a e w1 Hok1).
  destruct (k a e w1) as [b w2|h w2].
  - destruct Hk as [Hok2 Hcfg2]. split; [exact Hok2 | congruence].
  - destruct Hk as (Hh & Hok2 & Hcfg2). split; [exact Hh|]. split; [exact Hok2 | congruence].
Qed.

(** Code that returns and leaves the switch state and the configuration
    alone. *)
Lemma guards_returns {A} (m : P A) :
  (forall e w, state_ok (globals w) ->
     exists a w', m e w = Ret a w' /\
       switch_state (globals w') = switch_state (globals w) /\
       config (globals w') = config (globals w)) ->
  guards ok m.
Proof.
  intros H e w Hok. destruct (H e w Hok) as (a & w' & -> & Hs & Hc).
  unfold state_ok in *. rewrite Hs, Hc. auto.
Qed.

End Guards.

Lemma report_status_guards : guards switch_fault report_status.
Proof.
  intros e w Hok. pose proof Hok as [(_ & _ & Ht) _].
  destruct (lookup_in_array (toggle_count (switch_state (globals w))) 4 0 Ht) as [c0 Hc0]; [lia|].
  destruct (lookup_in_array (toggle_count (switch_state (globals w))) 4 1 Ht) as [c1 Hc1]; [lia|].
  destruct (report_status_run e w c0 c1 Hok Hc0 Hc1) as (l & Hg & _ & Hcases & _).
  destruct Hcases as [[status Hrun]|(h & Hh & Hrun)]; rewrite Hrun, Hg.
  - auto.
  - split; [right; exact Hh | auto].
Qed.

Lemma report_if_due_guards : guards switch_fault report_if_due.
Proof.
  unfold report_if_due.
  apply guards_bind; [apply guards_returns; intros; eexists _, _; repeat split|intros now].
  apply guards_bind; [apply guards_returns; intros; eexists _, _; repeat split|intros g].
  case_decide; [|apply guards_halt; left; right; right; reflexivity].
  case_decide; [|apply guards_ret].
  apply guards_bind; [apply report_status_guards|intros _].
  apply guards_bind; [apply guards_returns; intros; eexists _, _; repeat split|intros now'].
  apply guards_returns. intros. eexists _, _. repeat split.
Qed.

Lemma execute_command_guards command ch : guards switch_fault (execute_command command ch).
Proof.
  intros e w Hok.
  destruct (execute_command_post e w command ch Hok) as (w' & -> & Hok' & Hcfg & _).
  auto.
Qed.

Lemma command_loop_guards buffers : guards switch_fault (command_loop buffers).
Proof.
  assert (guards switch_fault (read_running (G:=Globals))) as Hread.
  { apply guards_returns. intros e w _. unfold read_running.
    destruct (env_signal e (n_signal w)); eexists _, _; repeat split. }
  assert (forall ev, guards switch_fault (emit ev)) as Hemit.
  { intros ev. apply guards_returns. intros. eexists _, _. repeat split. }
  induction buffers as [|buffer rest IH]; cbn [command_loop].
  - apply guards_bind; [exact Hread|intros [|]]; [|apply guards_ret].
    apply guards_bind; [apply Hemit | intros _; apply guards_ret].
  - apply guards_bind; [exact Hread|intros [|]]; [|apply guards_ret].
    apply guards_bind; [apply Hemit | intros _].
    destruct (is_empty (chomp (cstr buffer))); [exact IH|].
    destruct (sscanf_command (chomp (cstr buffer))) as [[cmd ch]|];
      [|apply guards_halt; left; left; reflexivity].
    destruct (32 <=? String.length cmd)%nat;
      [apply guards_halt; left; right; left; reflexivity|].
    apply guards_bind; [|intros _; apply guards_bind; [apply report_if_due_guards|intros _; exact IH]].
    destruct (String.eqb cmd "quit" || String.eqb cmd "exit").
    { apply guards_returns. intros. eexists _, _. repeat split. }
    destruct (String.eqb cmd "status").
    { apply guards_returns. intros e w Hok.
      destruct (print_status_run e w Hok) as (w' & Hrun & Hg).
      exists tt, w'. rewrite Hg. auto. }
    destruct (String.eqb cmd "help"); [apply Hemit|].
    apply execute_command_guards.
Qed.

Lemma cleanup_outcomes e (w : World Globals) :
  match cleanup e w with
  | Ret status w' => status = 0 /\ globals w' = globals w /\ running w' = false
  | Halted h w' => h = Blocked /\ globals w' = globals w
  end.
Proof.
  unfold cleanup, pthread_join. rewrite run_bind, log_message_run.
  rewrite !run_bind. unfold read_running, signal_handler. cbn [n_signal].
  destruct (env_signal e (n_signal w)).
  - run_code. unfold ret. run_code. auto.
  - cbn [running]. destruct (running w) eqn:Hr; run_code; auto.
Qed.

(** X12.  The switch's [main], once the configuration is loaded: if it
    returns, it returns 0 with [running] cleared; if it does not, the cause
    is one of the undefined behaviours of the command line handling, a
    reply of the panel (to the registration or to a report) that
    [write_callback] cannot hold, or the join of a listener that never
    stops.  In every case the arrays are whole, [num_channels] is within
    them and the configuration is as loaded: no array access of the switch
    operations is out of bounds. *)
Theorem switch_run_outcomes input e (w : World Globals) :
  state_ok (globals w) ->
  match Switch.run input e w with
  | Ret status w' =>
      status = 0 /\ running w' = false /\
      state_ok (globals w') /\ config (globals w') = config (globals w)
  | Halted h w' =>
      (input_fault h \/ reply_fault h \/ h = Blocked) /\
      state_ok (globals w') /\ config (globals w') = config (globals w)
  end.
Proof.
  intros Hok. unfold Switch.run. rewrite run_bind.
  destruct (switch_startup_trace e w) as (t & _ & Hg0 & _ & _ & _ & Hhalt).
  destruct (startup e w) as [[] w0|h w0]; cbn [final] in Hg0;
    [|rewrite Hg0; auto].
  rewrite run_bind.
  assert (state_ok (globals w0)) as Hok0 by (rewrite Hg0; exact Hok).
  pose proof (command_loop_guards (fgets_all 128 input) e w0 Hok0) as H.
  unfold main_loop. rewrite Hg0 in H.
  destruct (command_loop (fgets_all 128 input) e w0) as [[] w1|h w1].
  - destruct H as [Hok1 Hcfg1]. pose proof (cleanup_outcomes e w1) as Hc.
    destruct (cleanup e w1) as [status w2|h w2].
    + destruct Hc as (-> & Hg & Hr). rewrite Hg. auto.
    + destruct Hc as (-> & Hg). rewrite Hg. auto.
  - destruct H as ([Hh|Hh] & Hok1 & Hcfg1); auto.
Qed.

Lemma switch_run_outcomes_witness :
  state_ok (globals four_off) /\
  match Switch.run "toggle 1
quit
" sample_env four_off with
  | Ret status w' =>
      status = 0 /\ running w' = false /\
      state_ok (globals w') /\ config (globals w') = config (globals four_off)
  | Halted h w' =>
      (input_fault h \/ reply_fault h \/ h = Blocked) /\
      state_ok (globals w') /\ config (globals w') = config (globals four_off)
  end.
Proof.
  split; [exact four_off_ok|].
  exact (switch_run_outcomes "toggle 1
quit
" sample_env four_off four_off_ok).
Defined.

End SwitchLaws.

(** ** [load_config] *)

Module ConfigLaws.
Import CInt CLib Proc Common TraceSpec SwitchSpec Samples ConfigShape Steps TextFacts SwitchFacts.
Local Open Scope string_scope.
Local Open Scope list_scope.
Local Open Scope Z_scope.

(** *** Strings *)

Lemma append_nil_r s : String.append s "" = s.
Proof. induction s as [|c s IH]; cbn; [reflexivity | rewrite IH; reflexivity]. Qed.

Lemma append_length s1 s2 :
  String.length (String.append s1 s2) = (String.length s1 + String.length s2)%nat.
Proof. induction s1 as [|c s1 IH]; cbn; [reflexivity | rewrite IH; reflexivity]. Qed.

Lemma string_of_list_ascii_snoc l c :
  string_of_list_ascii (l ++ [c]) = String.append (string_of_list_ascii l) (String c "").
Proof. induction l as [|a l IH]; cbn; [reflexivity | rewrite IH; reflexivity]. Qed.

Lemma string_of_list_ascii_length l : String.length (string_of_list_ascii l) = length l.
Proof. induction l as [|a l IH]; cbn; [reflexivity | rewrite IH; reflexivity]. Qed.

Lemma strncpy_length n s : (String.length (strncpy n s) <= n)%nat.
Proof.
  revert s. induction n as [|n IH]; intros [|c s]; cbn; try lia.
  specialize (IH s). lia.
Qed.

(** *** [fgets] *)

Lemma fgets_from_join cap s :
  (1 <= cap)%nat ->
  forall room acc,
    (1 <= room)%nat ->
    join (fgets_from cap room acc s) = String.append (string_of_list_ascii (rev acc)) s.
Proof.
  intros Hcap. induction s as [|c r IH]; intros room acc Hroom.
  - cbn [fgets_from]. destruct acc as [|a acc].
    + reflexivity.
    + cbn [join fold_right]. reflexivity.
  - cbn [fgets_from].
    destruct (is_newline c || (room <=? 1)%nat) eqn:Hend.
    + cbn [join fold_right]. fold (join (fgets_from cap cap [] r)).
      rewrite (IH cap [] Hcap). cbn [rev app string_of_list_ascii String.append].
      rewrite string_of_list_ascii_snoc, append_assoc. reflexivity.
    + apply orb_false_iff in Hend as [_ Hroom']. apply Nat.leb_gt in Hroom'.
      rewrite IH by lia. cbn [rev].
      rewrite string_of_list_ascii_snoc, append_assoc. reflexivity.
Qed.

Lemma fgets_from_sizes cap s :
  (1 <= cap)%nat ->
  forall room acc,
    (1 <= room)%nat -> (length acc + room = cap)%nat ->
    Forall (fun b => (1 <= String.length b <= cap)%nat) (fgets_from cap room acc s).
Proof.
  intros Hcap. induction s as [|c r IH]; intros room acc Hroom Hsum.
  - cbn [fgets_from]. destruct acc as [|a acc]; [constructor|].
    constructor; [|constructor].
    rewrite string_of_list_ascii_length, length_rev. cbn [length] in *. lia.
  - cbn [fgets_from].
    destruct (is_newline c || (room <=? 1)%nat) eqn:Hend.
    + constructor; [|apply IH; cbn; lia].
      rewrite string_of_list_ascii_length, length_rev. cbn [length]. lia.
    + apply orb_false_iff in Hend as [_ Hroom']. apply Nat.leb_gt in Hroom'.
      apply IH; cbn [length]; lia.
Qed.

(** X13.  The [while (fgets (line, sizeof (line), file))] loop sees the
    whole file: the buffers that the calls return, put end to end, are the
    text, and each holds between one and [size - 1] characters (so a line
    longer than that arrives as several buffers). *)
Theorem fgets_hands_over_the_whole_stream size text :
  (2 <= size)%nat ->
  join (fgets_all size text) = text /\
  Forall (fun b => (1 <= String.length b <= size - 1)%nat) (fgets_all size text).
Proof.
  intros Hsize. unfold fgets_all. split.
  - rewrite fgets_from_join by lia. reflexivity.
  - apply fgets_from_sizes; cbn; lia.
Qed.

Lemma fgets_hands_over_the_whole_stream_witness :
  (2 <= Switch.CONFIG_LINE_MAX)%nat /\
  join (fgets_all Switch.CONFIG_LINE_MAX "# switch
num_channels=2
") = "# switch
num_channels=2
".
Proof.
  assert (2 <= Switch.CONFIG_LINE_MAX)%nat as Hsize by (vm_compute; lia).
  split; [exact Hsize|].
  exact (proj1 (fgets_hands_over_the_whole_stream Switch.CONFIG_LINE_MAX "# switch
num_channels=2
" Hsize)).
Defined.

(** *** [load_config] *)

Lemma in_int_atoi s : in_int (atoi s).
Proof. apply atoi_range. Qed.

Lemma switch_config_line_fits buffer c :
  switch_config_fits c -> switch_config_fits (Switch.config_line buffer c).
Proof.
  intros H. unfold Switch.config_line.
  destruct (match cstr buffer with
            | String c0 _ => Ascii.eqb c0 "#"%char || is_newline c0
            | EmptyString => false
            end); [exact H|].
  destruct (sscanf_key_value (cstr buffer)) as [[key value]|]; [|exact H].
  pose proof (in_int_atoi (skip_blanks value)) as Hi.
  destruct H as (Hid & Hname & Hurl & Hri & Hpoll & Hn & Hv).
  repeat (match goal with |- switch_config_fits (if ?b then _ else _) => destruct b end);
    unfold switch_config_fits;
    cbn [Switch.device_id Switch.device_name Switch.panel_url Switch.report_interval
         Switch.poll_commands_interval Switch.num_channels Switch.verbose];
    repeat (match goal with |- _ /\ _ => split end);
    try assumption; try apply strncpy_length.
  case_decide; [unfold in_int, INT_MIN, INT_MAX, Switch.MAX_CHANNELS; lia | exact Hi].
Qed.

Lemma sensor_config_line_fits buffer c :
  sensor_config_fits c -> sensor_config_fits (Sensor.config_line buffer c).
Proof.
  intros H. unfold Sensor.config_line.
  destruct (match cstr buffer with
            | String c0 _ => Ascii.eqb c0 "#"%char || is_newline c0
            | EmptyString => false
            end); [exact H|].
  destruct (sscanf_key_value (cstr buffer)) as [[key value]|]; [|exact H].
  pose proof (in_int_atoi (skip_blanks value)) as Hi.
  destruct H as (Hid & Hname & Hurl & Hri & Hv).
  repeat (match goal with |- sensor_config_fits (if ?b then _ else _) => destruct b end);
    unfold sensor_config_fits;
    cbn [Sensor.device_id Sensor.device_name Sensor.panel_url Sensor.report_interval
         Sensor.verbose];
    repeat (match goal with |- _ /\ _ => split end);
    try assumption; try apply strncpy_length.
Qed.

(** X14.  [load_config] keeps every field of [config] within its C type in
    both programs, whatever the file holds: the three strings within their
    arrays with the closing NUL, the numbers within [int]. *)
Theorem load_config_fits_every_field text c_switch c_sensor :
  switch_config_fits c_switch ->
  sensor_config_fits c_sensor ->
  switch_config_fits (Switch.read_config text c_switch) /\
  sensor_config_fits (Sensor.read_config text c_sensor).
Proof.
  intros Hsw Hse. split.
  - unfold Switch.read_config.
    assert (switch_config_fits (Switch.defaults c_switch)) as H0.
    { destruct Hsw as (Hid & Hname & Hurl & Hri & Hpoll & Hn & Hv).
      unfold switch_config_fits, Switch.defaults. cbn.
      repeat (match goal with |- _ /\ _ => split end); try assumption;
        unfold in_int, INT_MIN, INT_MAX; lia. }
    revert H0. generalize (Switch.defaults c_switch).
    generalize (fgets_all Switch.CONFIG_LINE_MAX text).
    induction l as [|b l IH]; intros c' Hc'; cbn [fold_left]; [exact Hc'|].
    apply IH, switch_config_line_fits, Hc'.
  - unfold Sensor.read_config. revert Hse. generalize c_sensor.
    generalize (fgets_all Sensor.CONFIG_LINE_MAX text).
    induction l as [|b l IH]; intros c' Hc'; cbn [fold_left]; [exact Hc'|].
    apply IH, sensor_config_line_fits, Hc'.
Qed.

Lemma load_config_fits_every_field_witness :
  switch_config_fits (Switch.config (globals four_off)) /\
  sensor_config_fits (globals reporting_sensor) /\
  switch_config_fits
    (Switch.read_config "report_interval=99999999999999999999
" (Switch.config (globals four_off))).
Proof.
  assert (switch_config_fits (Switch.config (globals four_off))) as Hsw
    by (unfold switch_config_fits, in_int, INT_MIN, INT_MAX; cbn; lia).
  assert (sensor_config_fits (globals reporting_sensor)) as Hse
    by (unfold sensor_config_fits, in_int, INT_MIN, INT_MAX; cbn; lia).
  split; [exact Hsw|]. split; [exact Hse|].
  exact (proj1 (load_config_fits_every_field "report_interval=99999999999999999999
" _ _ Hsw Hse)).
Defined.

Lemma scanset_split ok s : forall n k r, scanset n ok s = (k, r) -> s = String.append k r.
Proof.
  induction s as [|c s IH]; intros n k r H.
  - destruct n; cbn in H; injection H as <- <-; reflexivity.
  - destruct n as [|n]; cbn in H; [injection H as <- <-; reflexivity|].
    destruct (ok c); [|injection H as <- <-; reflexivity].
    destruct (scanset n ok s) as [m rest] eqn:Hs. injection H as <- <-.
    cbn. f_equal. apply (IH n). exact Hs.
Qed.

Lemma sscanf_needs_an_equals_sign line :
  has_char "="%char line = false -> sscanf_key_value line = None.
Proof.
  intros Hno. unfold sscanf_key_value.
  destruct (scanset 63 (fun c => negb (Ascii.eqb c "="%char)) line) as [key r1] eqn:Hs.
  apply scanset_split in Hs. subst line. rewrite has_char_append in Hno.
  apply orb_false_iff in Hno as [_ Hr].
  destruct key as [|k0 key]; [reflexivity|].
  destruct r1 as [|c r2]; [reflexivity|].
  cbn in Hr. apply orb_false_iff in Hr as [Hc _].
  destruct (Ascii.eqb_spec c "="%char) as [->|Hne]; [discriminate|].
  destruct c as [[] [] [] [] [] [] [] []]; try reflexivity. congruence.
Qed.

(** X15.  A line that starts with [#] or a newline, or that holds no [=],
    changes no field of the configuration in either program. *)
Theorem lines_that_set_nothing buffer c_switch c_sensor :
  sets_nothing (cstr buffer) ->
  Switch.config_line buffer c_switch = c_switch /\
  Sensor.config_line buffer c_sensor = c_sensor.
Proof.
  intros [Hskip|Hno]; unfold Switch.config_line, Sensor.config_line.
  - destruct (cstr buffer) as [|c0 line]; [contradiction|].
    destruct Hskip as [-> | ->]; cbn; split; reflexivity.
  - rewrite (sscanf_needs_an_equals_sign _ Hno).
    split; match goal with |- (if ?b then _ else _) = _ => destruct b end; reflexivity.
Qed.

Lemma lines_that_set_nothing_witness :
  sets_nothing (cstr "verbose 1
") /\
  Switch.config_line "verbose 1
" (Switch.config (globals four_off)) = Switch.config (globals four_off).
Proof.
  assert (sets_nothing (cstr "verbose 1
")) as Hline by (right; reflexivity).
  split; [exact Hline|].
  exact (proj1 (lines_that_set_nothing "verbose 1
" (Switch.config (globals four_off)) (globals reporting_sensor) Hline)).
Defined.

Lemma switch_config_line_poll buffer c :
  Switch.poll_commands_interval (Switch.config_line buffer c) = Switch.poll_commands_interval c.
Proof.
  unfold Switch.config_line.
  destruct (match cstr buffer with
            | String c0 _ => Ascii.eqb c0 "#"%char || is_newline c0
            | EmptyString => false
            end); [reflexivity|].
  destruct (sscanf_key_value (cstr buffer)) as [[key value]|]; [|reflexivity].
  repeat (match goal with |- context [if ?b then _ else _] => destruct b end); reflexivity.
Qed.

(** X16.  When the file can be opened, the switch's [load_config] returns
    with [poll_commands_interval] at 5 whatever the file says (no key sets
    it), and touches neither the switch state nor the output. *)
Theorem poll_commands_interval_is_always_5 e (w : World Switch.Globals) filename text :
  env_fopen e filename = Some text ->
  exists w',
    Switch.load_config filename e w = Ret tt w' /\
    Switch.poll_commands_interval (Switch.config (globals w')) = 5 /\
    Switch.switch_state (globals w') = Switch.switch_state (globals w) /\
    trace w' = trace w.
Proof.
  intros Hfile. unfold Switch.load_config. rewrite run_bind. cbn [fopen].
  rewrite Hfile. rewrite run_bind. cbn [get]. unfold Switch.set_config.
  eexists. split; [reflexivity|]. cbn. split; [|split; reflexivity].
  unfold Switch.read_config.
  assert (Switch.poll_commands_interval (Switch.defaults (Switch.config (globals w))) = 5)
    as H0 by reflexivity.
  revert H0. generalize (Switch.defaults (Switch.config (globals w))).
  generalize (fgets_all Switch.CONFIG_LINE_MAX text).
  induction l as [|b l IH]; intros c' Hc'; cbn [fold_left]; [exact Hc'|].
  apply IH. rewrite switch_config_line_poll. exact Hc'.
Qed.

Lemma poll_commands_interval_is_always_5_witness :
  exists w',
    Switch.load_config "config.ini" tuned_env Switch.boot = Ret tt w' /\
    Switch.poll_commands_interval (Switch.config (globals w')) = 5.
Proof.
  destruct (poll_commands_interval_is_always_5 tuned_env Switch.boot "config.ini" _ eq_refl)
    as (w' & Hrun & Hpoll & _).
  exists w'. split; [exact Hrun | exact Hpoll].
Defined.
(** X24.  [load_config] reads its file line by line, carrying the
    configuration from each line to the next: reading a text that ends with
    a newline, followed by a second text, is reading the second text from
    the configuration that the first one leaves (for the switch, without
    setting the defaults a second time). *)
Theorem config_files_compose t1 t2 c_switch c_sensor :
  ends_with_newline t1 = true ->
  Sensor.read_config (String.append t1 t2) c_sensor =
    Sensor.read_config t2 (Sensor.read_config t1 c_sensor) /\
  Switch.read_config (String.append t1 t2) c_switch =
    fold_left (fun c buffer => Switch.config_line buffer c)
              (fgets_all Switch.CONFIG_LINE_MAX t2) (Switch.read_config t1 c_switch).
Proof.
  intros Hend. unfold Sensor.read_config, Switch.read_config, fgets_all.
  rewrite !fgets_from_append by exact Hend.
  rewrite !fold_left_app. split; reflexivity.
Qed.

Lemma config_files_compose_witness :
  ends_with_newline "verbose=1
" = true /\
  Sensor.read_config "verbose=1
verbose=0
" (globals reporting_sensor) =
  Sensor.read_config "verbose=0
" (Sensor.read_config "verbose=1
" (globals reporting_sensor)).
Proof.
  split; [reflexivity|].
  exact (proj1 (config_files_compose "verbose=1
" "verbose=0
" (Switch.config (globals four_off)) (globals reporting_sensor) eq_refl)).
Defined.

End ConfigLaws.

(** ** The sensor: reports and the main loop *)

Module SensorLaws.
Import CInt CLib Proc Common Sensor TraceSpec SensorSpec Samples SensorShape Steps SensorFacts.
Local Open Scope string_scope.
Local Open Scope list_scope.
Local Open Scope Z_scope.

(** *** [report_metrics]: the memory figure *)

(** X17.  When [freeram] is at most a nonzero [totalram] and
    [freeram * 100] does not wrap in [unsigned long], the memory figure that
    [report_metrics] sends is [100 - freeram * 100 / totalram], a number
    from 0 to 100. *)
Theorem memory_usage_is_a_percentage si :
  0 <= si_freeram si <= si_totalram si ->
  0 < si_totalram si ->
  si_freeram si * 100 < ULONG_MODULUS ->
  memory_usage si = 100 - si_freeram si * 100 / si_totalram si /\
  0 <= memory_usage si <= 100.
Proof.
  intros Hfree Htotal Hfit. unfold memory_usage.
  assert (ulong (si_freeram si * 100) = si_freeram si * 100) as ->
    by (unfold ulong; apply Z.mod_small; lia).
  assert (0 <= si_freeram si * 100 / si_totalram si <= 100) as Hq.
  { split; [apply Z.div_pos; lia|].
    apply Z.div_le_upper_bound; [lia|]. nia. }
  assert (ulong (100 - si_freeram si * 100 / si_totalram si) =
          100 - si_freeram si * 100 / si_totalram si) as ->
    by (unfold ulong, ULONG_MODULUS; apply Z.mod_small; lia).
  unfold ulong_as_long, LONG_MAX. case_decide; lia.
Qed.

Lemma memory_usage_is_a_percentage_witness :
  memory_usage (mkSysinfo 3600 1024 4096) = 75.
Proof.
  destruct (memory_usage_is_a_percentage (mkSysinfo 3600 1024 4096)) as [Hvalue _].
  - cbn. lia.
  - cbn. lia.
  - cbn. unfold ULONG_MODULUS. lia.
  - rewrite Hvalue. reflexivity.
Defined.

(** *** The main loop over several rounds *)

Lemma count_replicate f ev n :
  count f (replicate n ev) = if f ev then n else 0%nat.
Proof.
  induction n as [|n IH]; cbn; [destruct (f ev); reflexivity|].
  rewrite IH. destruct (f ev); reflexivity.
Qed.

Lemma report_events_counts e (w : World Config) temp humidity :
  count is_curl_init (report_events e w temp humidity) = 1%nat /\
  count is_sleep (report_events e w temp humidity) = 0%nat /\
  count is_report (report_events e w temp humidity) = report_performs e w.
Proof.
  unfold report_events, report_performs, metrics_request.
  destruct (env_curl_easy_init e (n_init w)); [|cbn; auto].
  case_decide; [cbn; auto|].
  destruct (truthy (verbose (globals w))); cbn; auto.
Qed.

Lemma cycle_events_counts e (w : World Config) cycle :
  count is_curl_init (cycle_events e w cycle) = 1%nat /\
  count is_sleep (cycle_events e w cycle) = Z.to_nat (report_interval (globals w)) /\
  count is_report (cycle_events e w cycle) = report_performs e w.
Proof.
  unfold cycle_events.
  destruct (report_events_counts e w (temperature_at e w) (humidity_at e w))
    as (Hi & Hs & Hr).
  rewrite !count_app, !count_replicate, Hi, Hs, Hr. cbn. repeat split; lia.
Qed.

Lemma main_loop_cycles e n :
  forall (w : World Config) fuel cycle,
    running w = true ->
    quiet e (n_signal w) (n * S (Z.to_nat (report_interval (globals w)))) ->
    cycle + Z.of_nat n <= INT_MAX ->
    (forall k, (k < n)%nat -> si_totalram (env_sysinfo e (n_sysinfo w + k)) <> 0) ->
    (forall k, (k < n)%nat -> reply_fits e (n_perform w + k)) ->
    let w' := after_cycles e n w cycle in
    main_loop (n + fuel) cycle e w = main_loop fuel (cycle + Z.of_nat n) e w' /\
    globals w' = globals w /\ running w' = true /\
    count is_curl_init (trace w') = (count is_curl_init (trace w) + n)%nat /\
    count is_sleep (trace w') =
      (count is_sleep (trace w) + n * Z.to_nat (report_interval (globals w)))%nat /\
    n_rand w' = (n_rand w + 2 * n)%nat /\
    n_signal w' = (n_signal w + n * S (Z.to_nat (report_interval (globals w))))%nat /\
    n_sysinfo w' = (n_sysinfo w + n)%nat.
Proof.
  induction n as [|n IH]; intros w fuel cycle Hrun Hq Hcycle Hram Hfit w'; subst w'.
  - cbn [after_cycles Nat.add Z.of_nat]. rewrite Z.add_0_r.
    repeat split; try reflexivity; try assumption; lia.
  - cbn [after_cycles]. set (w1 := cycle_end e (polled w) cycle).
    set (interval := Z.to_nat (report_interval (globals w))) in *.
    assert (globals w1 = globals w) as Hg1 by reflexivity.
    assert (n_signal w1 = (n_signal w + S interval)%nat) as Hs1
      by (subst w1; cbn; fold interval; lia).
    assert (n_sysinfo w1 = S (n_sysinfo w)) as Hsi1 by reflexivity.
    assert (n_perform w1 = n_perform w \/ n_perform w1 = S (n_perform w)) as Hp1.
    { subst w1. cbn [cycle_end n_perform polled]. unfold report_performs.
      cbn [n_init polled]. destruct (env_curl_easy_init e (n_init w)); lia. }
    destruct (IH w1 fuel (cycle + 1)) as (Hloop & Hg & Hr & Hinit & Hsleep & Hrand & Hsig & Hsys).
    + exact Hrun.
    + rewrite Hg1, Hs1. fold interval. apply quiet_shift.
      replace (S interval + n * S interval)%nat with (S n * S interval)%nat by lia.
      exact Hq.
    + lia.
    + intros k Hk. rewrite Hsi1.
      replace (S (n_sysinfo w) + k)%nat with (n_sysinfo w + S k)%nat by lia.
      apply Hram. lia.
    + intros k Hk. destruct Hp1 as [-> | ->].
      * apply Hfit. lia.
      * replace (S (n_perform w) + k)%nat with (n_perform w + S k)%nat by lia.
        apply Hfit. lia.
    + destruct (cycle_events_counts e (polled w) cycle) as (Hci & Hcs & _).
      cbn [globals polled] in Hcs. fold interval in Hcs.
      split; [|split; [|split; [|split; [|split; [|split; [|split]]]]]].
      * change (S n + fuel)%nat with (S (n + fuel)).
        rewrite main_loop_cycle;
          [ | exact Hrun | eapply quiet_less; [|exact Hq]; fold interval; lia
            | unfold INT_MAX in *; lia
            | specialize (Hram 0%nat); rewrite Nat.add_0_r in Hram; apply Hram; lia
            | intros _; specialize (Hfit 0%nat); rewrite Nat.add_0_r in Hfit;
              apply Hfit; lia ].
        fold w1. rewrite Hloop. f_equal. lia.
      * rewrite Hg. exact Hg1.
      * exact Hr.
      * rewrite Hinit. subst w1. cbn [cycle_end trace polled].
        rewrite count_app, Hci. lia.
      * rewrite Hsleep, Hg1. fold interval. subst w1. cbn [cycle_end trace polled].
        rewrite count_app, Hcs. lia.
      * rewrite Hrand. subst w1. cbn [cycle_end n_rand polled]. lia.
      * rewrite Hsig, Hg1, Hs1. fold interval. lia.
      * rewrite Hsys, Hsi1. lia.
Qed.

(** X18.  With no signal, a working [sysinfo] and replies of the panel that
    fit [response], [n] rounds of the sensor's main loop make [n] calls of
    [curl_easy_init], sleep [n * report_interval] seconds, draw [2 * n]
    random numbers, and leave the configuration and [running] as they
    were; the loop then goes on with the counter at [cycle + n]. *)
Theorem sensor_cadence e (w : World Config) n fuel cycle :
  let interval := Z.to_nat (report_interval (globals w)) in
  let w' := after_cycles e n w cycle in
  running w = true ->
  quiet e (n_signal w) (n * S interval) ->
  cycle + Z.of_nat n <= INT_MAX ->
  (forall k, (k < n)%nat -> si_totalram (env_sysinfo e (n_sysinfo w + k)) <> 0) ->
  (forall k, (k < n)%nat -> reply_fits e (n_perform w + k)) ->
  main_loop (n + fuel) cycle e w = main_loop fuel (cycle + Z.of_nat n) e w' /\
  globals w' = globals w /\ running w' = true /\
  count is_curl_init (trace w') = (count is_curl_init (trace w) + n)%nat /\
  count is_sleep (trace w') = (count is_sleep (trace w) + n * interval)%nat /\
  n_rand w' = (n_rand w + 2 * n)%nat.
Proof.
  intros interval w' Hrun Hq Hcycle Hram Hfit.
  destruct (main_loop_cycles e n w fuel cycle Hrun Hq Hcycle Hram Hfit)
    as (H1 & H2 & H3 & H4 & H5 & H6 & _).
  auto 10.
Qed.

Lemma sensor_cadence_witness :
  running reporting_sensor = true /\
  main_loop 3 0 outage_env reporting_sensor =
  main_loop 0 3 outage_env (after_cycles outage_env 3 reporting_sensor 0) /\
  count is_sleep (trace (after_cycles outage_env 3 reporting_sensor 0)) = 6%nat.
Proof.
  assert (quiet outage_env (n_signal reporting_sensor)
            (3 * S (Z.to_nat (report_interval (globals reporting_sensor))))) as Hq
    by (intros j _; reflexivity).
  assert (0 + Z.of_nat 3 <= INT_MAX) as Hc by (unfold INT_MAX; lia).
  assert (forall k, (k < 3)%nat ->
            si_totalram (env_sysinfo outage_env (n_sysinfo reporting_sensor + k)) <> 0) as Hr
    by (intros k _; cbn; lia).
  assert (forall k, (k < 3)%nat -> reply_fits outage_env (n_perform reporting_sensor + k))
    as Hfit by (intros k _; eexists; reflexivity).
  split; [reflexivity|].
  destruct (sensor_cadence outage_env reporting_sensor 3 0 0 eq_refl Hq Hc Hr Hfit)
    as (Hloop & _ & _ & _ & Hsleep & _).
  split; [exact Hloop | exact Hsleep].
Defined.

(** *** A signal *)

Lemma read_running_signalled e (w : World Config) :
  env_signal e (n_signal w) = true ->
  read_running e w =
  Ret false (mkWorld (globals w) false (trace w ++ [shutdown_line e (n_time w)])
                     (S (n_time w)) (n_init w) (n_perform w) (S (n_signal w))
                     (n_rand w) (n_sysinfo w)).
Proof.
  intros Hsig. unfold read_running, signal_handler. rewrite Hsig.
  run_code. unfold ret, shutdown_line. same_world.
Qed.

Lemma sleep_interval_cut e rounds :
  forall j (w : World Config),
    running w = true ->
    quiet e (n_signal w) j ->
    env_signal e (n_signal w + j) = true ->
    (j < rounds)%nat ->
    sleep_interval rounds e w =
    Ret tt (mkWorld (globals w) false
                    (trace w ++ replicate j (EvSleep 1) ++ [shutdown_line e (n_time w)])
                    (S (n_time w)) (n_init w) (n_perform w) (n_signal w + S j)
                    (n_rand w) (n_sysinfo w)).
Proof.
  induction rounds as [|n IH]; intros j w Hrun Hq Hsig Hj; [lia|].
  cbn [sleep_interval]. destruct j as [|j].
  - rewrite Nat.add_0_r in Hsig.
    rewrite (run_bind_ret _ _ _ _ _ _ (read_running_signalled e w Hsig)).
    cbn. same_world.
  - rewrite (run_bind_ret _ _ _ _ _ _ (read_running_quiet e w (quiet_head _ _ _ Hq))).
    rewrite Hrun. rewrite run_bind. cbn [emit].
    rewrite (IH j); [ | exact Hrun | apply (quiet_tail _ _ _ Hq)
                      | cbn [n_signal polled];
                        replace (S (n_signal w) + j)%nat with (n_signal w + S j)%nat by lia;
                        exact Hsig
                      | lia ].
    cbn. same_world.
Qed.

Lemma stopped_sensor_loop e (w : World Config) fuel cycle :
  running w = false ->
  exists w' more,
    main_loop (S fuel) cycle e w = Ret tt w' /\
    globals w' = globals w /\ running w' = false /\
    trace w' = trace w ++ more /\
    (more = [] \/ more = [shutdown_line e (n_time w)]) /\
    n_rand w' = n_rand w.
Proof.
  intros Hrun. cbn [main_loop].
  destruct (env_signal e (n_signal w)) eqn:Hsig.
  - rewrite (run_bind_ret _ _ _ _ _ _ (read_running_signalled e w Hsig)).
    eexists _, [shutdown_line e (n_time w)]. split; [reflexivity|]. cbn. auto 10.
  - rewrite (run_bind_ret _ _ _ _ _ _ (read_running_quiet e w Hsig)).
    rewrite Hrun. exists (polled w), []. cbn. rewrite app_nil_r, run_ret. auto 10.
Qed.

(** X19.  A signal that arrives in a round of the sensor's loop, before
    the sleep or after [j] seconds of it ([j < report_interval]), ends the
    loop: the round reads the sensors and calls libcurl once, the sleep
    stops after [j] seconds, the handler's line is in the output, and the
    loop returns with [running] cleared and no further round, whatever
    fuel is left.  The reply of the panel is taken to fit [response].
    Where the handler's line falls among the lines of the round is not
    stated: the model runs the handler at the next read of [running]. *)
Theorem signal_during_sleep_ends_the_sensor_loop e (w : World Config) fuel cycle j :
  running w = true ->
  quiet e (n_signal w) (S j) ->
  env_signal e (n_signal w + S j) = true ->
  (j < Z.to_nat (report_interval (globals w)))%nat ->
  cycle <> INT_MAX ->
  si_totalram (env_sysinfo e (n_sysinfo w)) <> 0 ->
  (env_curl_easy_init e (n_init w) = true -> reply_fits e (n_perform w)) ->
  exists w',
    main_loop (S (S fuel)) cycle e w = Ret tt w' /\
    globals w' = globals w /\ running w' = false /\
    count is_sleep (trace w') = (count is_sleep (trace w) + j)%nat /\
    count is_curl_init (trace w') = S (count is_curl_init (trace w)) /\
    count is_report (trace w') =
      (count is_report (trace w) + if env_curl_easy_init e (n_init w) then 1 else 0)%nat /\
    n_rand w' = S (S (n_rand w)) /\
    exists now, In (shutdown_line e now) (trace w').
Proof.
  intros Hrun Hq Hsig Hj Hcycle Hram Hreply.
  assert (main_loop (S (S fuel)) cycle e w =
          main_loop (S fuel) (cycle + 1) e (cycle_cut e (polled w) cycle j)) as Hstep.
  { cbn [main_loop].
    rewrite (run_bind_ret _ _ _ _ _ _ (read_running_quiet e w (quiet_head _ _ _ Hq))).
    rewrite Hrun. rewrite run_bind. unfold cycle_body.
    rewrite decide_False by exact Hcycle.
    unfold read_temperature, read_humidity.
    rewrite !run_bind. cbn [rand]. rewrite run_ret.
    rewrite !run_bind. cbn [rand n_rand]. rewrite run_ret.
    rewrite !run_bind. cbn [emit]. rewrite !run_bind.
    match goal with |- context [report_metrics ?t ?h e ?w1] =>
      destruct (report_metrics_run e w1 t h Hram Hreply) as (status & Hrep) end.
    rewrite Hrep. rewrite !run_bind. cbn [get globals].
    rewrite !run_bind.
    rewrite (sleep_interval_cut e _ j);
      [ | exact Hrun | cbn [n_signal polled]; apply (quiet_tail _ _ _ Hq)
        | cbn [n_signal polled];
          replace (S (n_signal w) + j)%nat with (n_signal w + S j)%nat by lia; exact Hsig
        | exact Hj ].
    rewrite run_ret. f_equal. unfold cycle_cut. cbn.
    f_equal; try lia. rewrite <- !app_assoc. reflexivity. }
  destruct (stopped_sensor_loop e (cycle_cut e (polled w) cycle j) fuel (cycle + 1))
    as (w' & more & Hloop & Hg & Hr & Ht & Hmore & Hrand); [reflexivity|].
  exists w'. rewrite Hstep. split; [exact Hloop|].
  split; [exact Hg|]. split; [exact Hr|].
  destruct (report_events_counts e (polled w) (temperature_at e (polled w))
              (humidity_at e (polled w))) as (Hi & Hs & Hp).
  unfold report_performs in Hp. cbn [n_init polled] in Hp.
  rewrite Ht. unfold cycle_cut. cbn [trace].
  rewrite !count_app, !count_replicate, Hi, Hs, Hp.
  split; [destruct Hmore as [-> | ->]; cbn; lia|].
  split; [destruct Hmore as [-> | ->]; cbn; lia|].
  split; [destruct Hmore as [-> | ->]; cbn; lia|].
  split; [rewrite Hrand; reflexivity|].
  eexists. rewrite !in_app_iff. left. do 4 right. left. reflexivity.
Qed.

Lemma signal_during_sleep_ends_the_sensor_loop_witness :
  env_signal interrupted_env (n_signal reporting_sensor + 2) = true /\
  exists w',
    main_loop 2 0 interrupted_env reporting_sensor = Ret tt w' /\
    running w' = false /\
    count is_sleep (trace w') = 1%nat.
Proof.
  assert (quiet interrupted_env (n_signal reporting_sensor) 2) as Hq
    by (intros [|[|j]] Hj; [reflexivity | reflexivity | lia]).
  assert (1 < Z.to_nat (report_interval (globals reporting_sensor)))%nat as Hj
    by (cbn; lia).
  assert (0 <> INT_MAX) as Hc by (unfold INT_MAX; lia).
  assert (si_totalram (env_sysinfo interrupted_env (n_sysinfo reporting_sensor)) <> 0) as Hr
    by (cbn; lia).
  assert (reply_fits interrupted_env (n_perform reporting_sensor)) as Hreply
    by (eexists; reflexivity).
  split; [reflexivity|].
  destruct (signal_during_sleep_ends_the_sensor_loop
              interrupted_env reporting_sensor 0 0 1 eq_refl Hq eq_refl Hj Hc Hr
              (fun _ => Hreply))
    as (w' & Hloop & _ & Hrun & Hsleep & _).
  exists w'. split; [exact Hloop|]. split; [exact Hrun | exact Hsleep].
Defined.

(** *** [report_metrics]: the result *)

Lemma report_metrics_status e (w : World Config) temp humidity :
  si_totalram (env_sysinfo e (n_sysinfo w)) <> 0 ->
  (env_curl_easy_init e (n_init w) = true -> reply_fits e (n_perform w)) ->
  report_metrics temp humidity e w =
  Ret (if env_curl_easy_init e (n_init w) &&
          (env_curl_easy_perform e (n_perform w) =? CURLE_OK)
       then 0 else -1)
      (mkWorld (globals w) (running w) (trace w ++ report_events e w temp humidity)
               (n_time w + report_clock e w) (S (n_init w))
               (n_perform w + report_performs e w) (n_signal w) (n_rand w)
               (S (n_sysinfo w))).
Proof.
  intros Hram Hreply. unfold report_metrics, memory_usage_percent, report_events, report_clock,
    report_performs, metrics_request.
  rewrite run_bind. cbn [sysinfo]. rewrite run_bind. cbn [get globals].
  rewrite decide_False by exact Hram.
  rewrite run_bind, run_ret. rewrite run_bind. cbn [curl_easy_init n_init].
  destruct (env_curl_easy_init e (n_init w)); cbn [negb andb].
  - rewrite run_bind. perform_fits (Hreply eq_refl). cbn [n_perform].
    destruct (Z.eqb_spec (env_curl_easy_perform e (n_perform w)) CURLE_OK) as [Hok|Hbad].
    + rewrite !decide_False by (intros H; apply H; exact Hok).
      rewrite run_bind. destruct (truthy (verbose (globals w))).
      * rewrite log_message_run. cbn. same_world.
      * cbn. same_world.
    + rewrite !decide_True by exact Hbad.
      rewrite run_bind, log_message_run. cbn. same_world.
  - rewrite run_bind, log_message_run. cbn. same_world.
Qed.

(** X20.  With a working [sysinfo] and a reply of the panel that fits
    [response], [report_metrics] returns 0 exactly when
    libcurl gives a handle and the transfer succeeds, and -1 otherwise; it
    makes one transfer if it has a handle and none if not, and leaves the
    configuration and [running] as they were. *)
Theorem report_metrics_result e (w : World Config) temp humidity :
  si_totalram (env_sysinfo e (n_sysinfo w)) <> 0 ->
  (env_curl_easy_init e (n_init w) = true -> reply_fits e (n_perform w)) ->
  exists w',
    report_metrics temp humidity e w =
    Ret (if env_curl_easy_init e (n_init w) &&
            (env_curl_easy_perform e (n_perform w) =? CURLE_OK)
         then 0 else -1) w' /\
    globals w' = globals w /\ running w' = running w /\
    trace w' = trace w ++ report_events e w temp humidity /\
    count is_report (trace w') =
      (count is_report (trace w) + if env_curl_easy_init e (n_init w) then 1 else 0)%nat.
Proof.
  intros Hram Hreply. eexists. split; [apply report_metrics_status; assumption|].
  destruct (report_events_counts e w temp humidity) as (_ & _ & Hrep).
  cbn [globals running trace]. rewrite count_app, Hrep. unfold report_performs.
  auto 10.
Qed.

Lemma report_metrics_result_witness :
  si_totalram (env_sysinfo outage_env (n_sysinfo reporting_sensor)) <> 0 /\
  exists w',
    report_metrics (mkReading 22 8 0) (mkReading 40 20 1) outage_env reporting_sensor =
    Ret (-1) w' /\
    globals w' = globals reporting_sensor.
Proof.
  assert (si_totalram (env_sysinfo outage_env (n_sysinfo reporting_sensor)) <> 0) as Hr
    by (cbn; lia).
  split; [exact Hr|].
  assert (reply_fits outage_env (n_perform reporting_sensor)) as Hreply
    by (eexists; reflexivity).
  destruct (report_metrics_result outage_env reporting_sensor
              (mkReading 22 8 0) (mkReading 40 20 1) Hr (fun _ => Hreply))
    as (w' & Hrun & Hg & _).
  exists w'. split; [exact Hrun | exact Hg].
Defined.

End SensorLaws.

(** ** The reply of the panel, and the start of [main] *)

Module EntryLaws.
Import CInt CLib Proc Common TraceSpec Samples Callback ConfigShape Steps TextFacts ConfigLaws.
Local Open Scope string_scope.
Local Open Scope list_scope.
Local Open Scope Z_scope.

Lemma strncpy_all n s : (String.length s <= n)%nat -> strncpy n s = s.
Proof.
  revert s. induction n as [|n IH]; intros [|c s] H; cbn in *; try reflexivity; try lia.
  rewrite IH by lia. reflexivity.
Qed.

Lemma write_callback_chunk chunk buffer :
  nul_free chunk ->
  write_callback chunk 1 (Z.of_nat (String.length chunk)) buffer =
  if decide (Z.of_nat (String.length buffer + String.length chunk) < MAX_BUFFER)
  then inr (Z.of_nat (String.length chunk), String.append buffer chunk)
  else inl (Undefined "strncat overflows response").
Proof.
  intros [Hnul Hlen]. unfold write_callback. rewrite Z.mul_1_l.
  assert (ulong (Z.of_nat (String.length chunk)) = Z.of_nat (String.length chunk)) as ->
    by (unfold ulong; apply Z.mod_small; lia).
  rewrite Hnul, Nat2Z.id, strncpy_all by lia.
  rewrite decide_False by lia. reflexivity.
Qed.

(** X21.  [write_callback] gathers a reply whose chunks hold no NUL byte in
    the response buffer, and the transfer ends with [CURLE_OK], exactly when
    the buffer's contents and the reply together stay below [MAX_BUFFER]
    bytes; from [MAX_BUFFER] bytes on, [strncat] writes past the buffer. *)
Theorem response_is_gathered_below_2048_bytes chunks :
  forall buffer,
    Forall nul_free chunks ->
    Z.of_nat (String.length buffer) < MAX_BUFFER ->
    receive chunks buffer =
    if decide (Z.of_nat (String.length buffer + String.length (join chunks)) < MAX_BUFFER)
    then inr (CURLE_OK, String.append buffer (join chunks))
    else inl (Undefined "strncat overflows response").
Proof.
  induction chunks as [|chunk rest IH]; intros buffer Hnul Hbuf.
  - cbn. rewrite append_nil_r, Nat.add_0_r, decide_True by exact Hbuf. reflexivity.
  - inversion Hnul as [|? ? Hc Hrest]; subst. cbn [receive join fold_right].
    fold (join rest). rewrite append_length.
    rewrite write_callback_chunk by assumption.
    destruct (decide (Z.of_nat (String.length buffer + String.length chunk) < MAX_BUFFER))
      as [Hfit|Hfit].
    + rewrite decide_True by reflexivity.
      rewrite IH; [|exact Hrest|rewrite append_length; exact Hfit].
      rewrite append_length, append_assoc.
      repeat case_decide; try reflexivity; lia.
    + rewrite decide_False by lia. reflexivity.
Qed.

Lemma response_is_gathered_below_2048_bytes_witness :
  Forall nul_free ["{id:"; "7}"] /\
  receive ["{id:"; "7}"] "" = inr (CURLE_OK, "{id:7}").
Proof.
  assert (Forall nul_free ["{id:"; "7}"]) as Hchunks
    by (repeat constructor; cbn; unfold ULONG_MODULUS; lia).
  assert (Z.of_nat (String.length "") < MAX_BUFFER) as Hroom
    by (cbn; unfold MAX_BUFFER; lia).
  split; [exact Hchunks|].
  rewrite (response_is_gathered_below_2048_bytes ["{id:"; "7}"] "" Hchunks Hroom).
  reflexivity.
Defined.

(** *** The argument loop of [main] *)

Lemma parse_args_result product program n :
  forall args default,
    (length args <= n)%nat ->
    match parse_args product program args default with
    | inl file =>
        file = default \/
        exists before after, args = before ++ "--config" :: file :: after
    | inr text =>
        (text = VersionLine product /\ In "--version" args) \/
        (text = Usage program /\ In "--help" args)
    end.
Proof.
  induction n as [|n IH]; intros args default Hlen.
  - destruct args; [cbn; auto | cbn in Hlen; lia].
  - destruct args as [|a rest]; [cbn; auto|]. cbn [parse_args].
    destruct (String.eqb_spec a "--config") as [->|Hconfig].
    + destruct rest as [|path rest']; [auto|].
      specialize (IH rest' path ltac:(cbn in Hlen; lia)).
      destruct (parse_args product program rest' path) as [file|text].
      * right. destruct IH as [->|(before & after & ->)].
        -- exists [], rest'. reflexivity.
        -- exists ("--config" :: path :: before), after. reflexivity.
      * destruct IH as [[-> Hin]|[-> Hin]]; [left|right]; split; auto;
          right; right; exact Hin.
    + destruct (String.eqb_spec a "--version") as [->|Hversion];
        [left; split; [reflexivity | left; reflexivity]|].
      destruct (String.eqb_spec a "--help") as [->|Hhelp];
        [right; split; [reflexivity | left; reflexivity]|].
      specialize (IH rest default ltac:(cbn in Hlen; lia)).
      destruct (parse_args product program rest default) as [file|text].
      * destruct IH as [->|(before & after & ->)]; [left; reflexivity|].
        right. exists (a :: before), after. reflexivity.
      * destruct IH as [[-> Hin]|[-> Hin]]; [left|right]; split; auto; right; exact Hin.
Qed.

(** X22.  The argument loop of [main]: the configuration file is the
    default or an argument that directly follows a [--config]; the version
    line is printed only if [--version] is among the arguments, the usage
    only if [--help] is. *)
Theorem config_file_is_the_default_or_follows_config product program args default :
  match parse_args product program args default with
  | inl file =>
      file = default \/
      exists before after, args = before ++ "--config" :: file :: after
  | inr text =>
      (text = VersionLine product /\ In "--version" args) \/
      (text = Usage program /\ In "--help" args)
  end.
Proof.
  pose proof (parse_args_result product program (length args) args default) as H.
  destruct (parse_args product program args default) as [file|text].
  - apply H. lia.
  - apply H. lia.
Qed.

(** *** A configuration file that cannot be opened *)

(** X23.  When the configuration file cannot be opened, both programs
    print the banner (the sensor also its [Loading configuration...] log
    line) and the error message on standard error and exit with status 1:
    no signal handler is installed and libcurl is not called. *)
Theorem missing_config_file_exits_with_1
    program args input fuel file e (w_switch : World Switch.Globals)
    (w_sensor : World Sensor.Config) :
  parse_args "Karyx IoT Switch Firmware" program args "config.ini" = inl file ->
  parse_args "Karyx IoT Sensor Firmware" program args "config.ini" = inl file ->
  env_fopen e file = None ->
  Switch.main program args input e w_switch =
    Halted (Exited 1)
           (mkWorld (globals w_switch) (running w_switch)
                    (trace w_switch ++
                     [EvStdout (Banner "Karyx IoT Switch Firmware");
                      EvStderr (CannotOpen file)])
                    (n_time w_switch) (n_init w_switch) (n_perform w_switch)
                    (n_signal w_switch) (n_rand w_switch) (n_sysinfo w_switch)) /\
  Sensor.main fuel program args e w_sensor =
    Halted (Exited 1)
           (mkWorld (globals w_sensor) (running w_sensor)
                    (trace w_sensor ++
                     [EvStdout (Banner "Karyx IoT Sensor Firmware");
                      EvLog (env_time e (n_time w_sensor)) "INFO"
                            (Literal "Loading configuration...");
                      EvStderr (CannotOpen file)])
                    (S (n_time w_sensor)) (n_init w_sensor) (n_perform w_sensor)
                    (n_signal w_sensor) (n_rand w_sensor) (n_sysinfo w_sensor)).
Proof.
  intros Hsw Hse Hfile. unfold Switch.main, Sensor.main. rewrite Hsw, Hse.
  unfold Switch.load_config, Sensor.load_config. split.
  - run_code. rewrite Hfile. run_code. rewrite <- app_assoc. reflexivity.
  - run_code. rewrite Hfile. run_code. rewrite <- !app_assoc. reflexivity.
Qed.

Lemma missing_config_file_exits_with_1_witness :
  env_fopen sample_env "/etc/karyx/switch.ini" = None /\
  final (Switch.main "switch_firmware" ["--verbose"; "--config"; "/etc/karyx/switch.ini"]
                     "status
" sample_env Switch.boot) =
  mkWorld Switch.globals0 true
          [EvStdout (Banner "Karyx IoT Switch Firmware");
           EvStderr (CannotOpen "/etc/karyx/switch.ini")] 0 0 0 0 0 0.
Proof.
  split; [reflexivity|].
  rewrite (proj1 (missing_config_file_exits_with_1
                    "switch_firmware" ["--verbose"; "--config"; "/etc/karyx/switch.ini"]
                    "status
" 0 "/etc/karyx/switch.ini" sample_env Switch.boot Sensor.boot
                    eq_refl eq_refl eq_refl)).
  reflexivity.
Defined.
(** *** [register_device] *)

(** X25.  When libcurl gives no handle, or the reply of the panel fits
    [response], [register_device] returns in both programs: 0 exactly when
    there is a handle and the transfer succeeds, and -1 otherwise; it makes
    one POST if it has a handle and none if not; the switch logs nothing,
    the sensor one line; the globals are as before. *)
Theorem register_device_result e (w_switch : World Switch.Globals)
    (w_sensor : World Sensor.Config) :
  let status (init : bool) (res : Z) := if init && (res =? CURLE_OK) then 0 else -1 in
  (env_curl_easy_init e (n_init w_switch) = true -> reply_fits e (n_perform w_switch)) ->
  (env_curl_easy_init e (n_init w_sensor) = true -> reply_fits e (n_perform w_sensor)) ->
  (exists w',
      Switch.register_device e w_switch =
        Ret (status (env_curl_easy_init e (n_init w_switch))
                    (env_curl_easy_perform e (n_perform w_switch))) w' /\
      globals w' = globals w_switch /\ running w' = running w_switch /\
      n_time w' = n_time w_switch /\
      count is_registration (trace w') =
        (count is_registration (trace w_switch) +
         if env_curl_easy_init e (n_init w_switch) then 1 else 0)%nat) /\
  (exists w',
      Sensor.register_device e w_sensor =
        Ret (status (env_curl_easy_init e (n_init w_sensor))
                    (env_curl_easy_perform e (n_perform w_sensor))) w' /\
      globals w' = globals w_sensor /\ running w' = running w_sensor /\
      n_time w' = S (n_time w_sensor) /\
      count is_registration (trace w') =
        (count is_registration (trace w_sensor) +
         if env_curl_easy_init e (n_init w_sensor) then 1 else 0)%nat).
Proof.
  intros status Hswitch Hsensor. subst status. cbv beta. split.
  - unfold Switch.register_device, Switch.status_of.
    rewrite run_bind. cbn [get]. rewrite run_bind. cbn [curl_easy_init].
    destruct (env_curl_easy_init e (n_init w_switch)); cbn [negb andb].
    + rewrite run_bind. perform_fits (Hswitch eq_refl). cbn [n_perform].
      eexists. split.
      * rewrite run_ret. f_equal.
        destruct (Z.eqb_spec (env_curl_easy_perform e (n_perform w_switch)) CURLE_OK);
          case_decide; congruence.
      * cbn. rewrite !count_app. cbn. repeat split; lia.
    + eexists. split; [rewrite run_ret; reflexivity|].
      cbn. rewrite !count_app. cbn. repeat split; lia.
  - unfold Sensor.register_device.
    rewrite run_bind. cbn [get]. rewrite run_bind. cbn [curl_easy_init].
    destruct (env_curl_easy_init e (n_init w_sensor)); cbn [negb andb].
    + rewrite run_bind. perform_fits (Hsensor eq_refl). cbn [n_perform].
      destruct (Z.eqb_spec (env_curl_easy_perform e (n_perform w_sensor)) CURLE_OK)
        as [Hok|Hbad].
      * rewrite decide_False by (intros H; apply H; exact Hok).
        rewrite run_bind, log_message_run. eexists. split; [reflexivity|].
        cbn. rewrite !count_app. cbn. repeat split; lia.
      * rewrite decide_True by exact Hbad.
        rewrite run_bind, log_message_run. eexists. split; [reflexivity|].
        cbn. rewrite !count_app. cbn. repeat split; lia.
    + rewrite run_bind, log_message_run. eexists. split; [reflexivity|].
      cbn. rewrite !count_app. cbn. repeat split; lia.
Qed.

Lemma register_device_result_witness :
  reply_fits sample_env 0 /\
  exists w',
    Sensor.register_device sample_env unregistered_sensor = Ret 0 w' /\
    globals w' = globals unregistered_sensor.
Proof.
  assert (reply_fits sample_env 0) as Hreply by (eexists; reflexivity).
  split; [exact Hreply|].
  destruct (register_device_result sample_env four_off unregistered_sensor
              (fun _ => Hreply) (fun _ => Hreply))
    as (_ & w' & Hrun & Hg & _).
  exists w'. split; [exact Hrun | exact Hg].
Defined.

End EntryLaws.
